(** * xmlpyp: the Python processing-instruction preprocessor

    A shallow embedding of [xmlpyp.py] (class [Processor], its two error
    classes and the driver [main]) together with the properties of the
    scanner, the position remapping and the output capture.

    Conventions.
    - Python [str] values are lists of characters; a character is a code
      point in the range 0..255, written as an [ascii].
    - Python [int] values (line numbers) are [Z].
    - The CPython interpreter ([ast.parse], [compile], [exec]) and the file
      system are collaborators of the program, not part of it: they are the
      [Variable]s of Section [Processor].  Module [MiniPy] provides one
      small concrete interpreter for use in closed examples.
    - The processing-instruction target is inserted into the two regular
      expressions without escaping; the embedding takes it as a literal
      string, which is what it is for an identifier such as [py].
    - The output sink is a stream of its own, kept apart from the real
      standard output; a run whose sink is [sys.stdout] itself is outside
      the embedding.
    - [exec] is a function of the code and the namespace: a snippet acts
      on the processor through what it sends to [sys.stdout], through
      the namespace it leaves and through the exception it ends with,
      and in no other way. *)

From Stdlib Require Import ZArith Ascii String List Lia Bool DecimalString.
From stdpp Require Import base option list strings gmap.
Import ListNotations.
Local Open Scope Z_scope.
Set Warnings "-register-all".

(** ** Text *)

Abbreviation text := (list ascii).

Definition str (s : string) : text := list_ascii_of_string s.

Definition newline : ascii := ascii_of_nat 10.

Definition ascii_eqb (a b : ascii) : bool := Ascii.eqb a b.

(** [str.isspace] on one character, which is also the class [\s] of the
    [re] module for [str] patterns: code points 9..13, 28..32, 0x85, 0xA0. *)
Definition isspace (c : ascii) : bool :=
  let n := nat_of_ascii c in
  ((9 <=? n)%nat && (n <=? 13)%nat) || ((28 <=? n)%nat && (n <=? 32)%nat)
  || (n =? 133)%nat || (n =? 160)%nat.

(** [s.startswith(p)], returning what follows the prefix. *)
Fixpoint starts_with (p s : text) : option text :=
  match p, s with
  | [], _ => Some s
  | a :: p', b :: s' => if ascii_eqb a b then starts_with p' s' else None
  | _ :: _, [] => None
  end.

(** [hay.find(needle)]: the index of the first occurrence, [None] for -1. *)
Fixpoint find (needle hay : text) : option nat :=
  match starts_with needle hay with
  | Some _ => Some 0%nat
  | None =>
      match hay with
      | [] => None
      | _ :: hay' => option_map S (find needle hay')
      end
  end.

(** The lines a text stream yields when iterated: each line keeps its
    terminating newline; a last line without one is yielded as it is. *)
Fixpoint readlines_aux (cur : text) (s : text) : list text :=
  match s with
  | [] => match cur with [] => [] | _ => [rev cur] end
  | c :: s' =>
      if ascii_eqb c newline then rev (c :: cur) :: readlines_aux [] s'
      else readlines_aux (c :: cur) s'
  end.

Definition readlines (s : text) : list text := readlines_aux [] s.

(** [str(n)] for an [int]. *)
Definition str_of_int (n : Z) : text :=
  str (NilZero.string_of_int (Z.to_int n)).

(** ** The two regular expressions

    [pattern_pi_beg = <\?\s*TARGET\s] and
    [pattern_pi_tag = <\?\s*TARGET\s(.+?)\?>], matched the way a
    backtracking engine matches them. *)

Module Regex.

Definition open_marker : text := str "<?".
Definition close_marker : text := str "?>".

(** Greedy [\s*] followed by the continuation [k]: the longest run of
    whitespace is tried first and given back one character at a time.
    The continuation returns the number of characters it consumed and a
    value; the result adds the whitespace consumed here. *)
Fixpoint ws_star {A} (k : text -> option (nat * A)) (s : text)
  : option (nat * A) :=
  match s with
  | c :: s' =>
      if isspace c then
        match ws_star k s' with
        | Some (n, a) => Some (S n, a)
        | None => k s
        end
      else k s
  | [] => k s
  end.

(** Lazy [(.+?)\?>]: the shortest non-empty run of characters other than
    newline that is followed by the closing marker.  Returns the group. *)
Fixpoint lazy_body (s : text) : option text :=
  match s with
  | [] => None
  | c :: s' =>
      if ascii_eqb c newline then None
      else
        match starts_with close_marker s' with
        | Some _ => Some [c]
        | None => option_map (cons c) (lazy_body s')
        end
  end.

(** [TARGET\s] at the head of [s]. *)
Definition target_ws (target : text) (s : text) : option (nat * text) :=
  match starts_with target s with
  | Some (c :: rest) =>
      if isspace c then Some (S (length target), rest) else None
  | _ => None
  end.

(** What follows [<\?\s*] in [pattern_pi_beg]: [TARGET\s]. *)
Definition beg_cont (target : text) (s : text) : option (nat * unit) :=
  match target_ws target s with
  | Some (n, _) => Some (n, tt)
  | None => None
  end.

(** What follows [<\?\s*] in [pattern_pi_tag]: [TARGET\s(.+?)\?>]. *)
Definition tag_cont (target : text) (s : text) : option (nat * text) :=
  match target_ws target s with
  | Some (n, rest) =>
      match lazy_body rest with
      | Some g => Some ((n + length g + 2)%nat, g)
      | None => None
      end
  | None => None
  end.

(** [pattern_pi_beg.match]: the length of the match anchored at the head
    of [s]. *)
Definition beg_here (target : text) (s : text) : option nat :=
  match starts_with open_marker s with
  | Some s1 =>
      match ws_star (beg_cont target) s1 with
      | Some (n, _) => Some (2 + n)%nat
      | None => None
      end
  | None => None
  end.

(** [pattern_pi_tag.match]: the length of the match anchored at the head
    of [s] and its group 1. *)
Definition tag_here (target : text) (s : text) : option (nat * text) :=
  match starts_with open_marker s with
  | Some s1 =>
      match ws_star (tag_cont target) s1 with
      | Some (n, g) => Some ((2 + n)%nat, g)
      | None => None
      end
  | None => None
  end.

(** [pattern_pi_beg.search(s)]: [(m.start(), m.end(0))] of the leftmost
    match. *)
Fixpoint search_beg_from (target : text) (i : nat) (s : text)
  : option (nat * nat) :=
  match beg_here target s with
  | Some n => Some (i, (i + n)%nat)
  | None =>
      match s with
      | [] => None
      | _ :: s' => search_beg_from target (S i) s'
      end
  end.

Definition search_beg (target : text) (s : text) : option (nat * nat) :=
  search_beg_from target 0 s.

End Regex.

(** ** [io.StringIO] *)

Record StringIO := { sio_data : text; sio_pos : nat }.

Module SIO.
Definition fresh : StringIO := {| sio_data := []; sio_pos := 0 |}.

(** [x.write(s)]: overwrites from the current position, padding with
    NUL when the position is past the end, and advances the position. *)
Definition write (x : StringIO) (s : text) : StringIO :=
  let p := sio_pos x in
  let d := sio_data x in
  {| sio_data :=
       take p d ++ replicate (p - length d) zero ++ s
       ++ drop (p + length s) d;
     sio_pos := (p + length s)%nat |}.

(** [Processor._clear_StringIO]: [x.truncate(0); x.seek(0)]. *)
Definition clear (x : StringIO) : StringIO := fresh.

Definition seek0 (x : StringIO) : StringIO :=
  {| sio_data := sio_data x; sio_pos := 0 |}.

(** [x.read()]: the text from the position to the end; the position
    moves to the end. *)
Definition read (x : StringIO) : text * StringIO :=
  (drop (sio_pos x) (sio_data x),
   {| sio_data := sio_data x;
      sio_pos := Nat.max (sio_pos x) (length (sio_data x)) |}).

Definition getvalue (x : StringIO) : text := sio_data x.
End SIO.

(** ** Exceptions *)

(** An attribute of a Python object as the code inspects it with
    [hasattr] and [isinstance(_, int)]. *)
Inductive attr := Absent | NotInt | Int (n : Z).

Record SyntaxError := {
  se_msg : text;
  se_lineno : attr;
  se_end_lineno : attr;
  se_text : option text
}.

Inductive PyExc :=
| ExcSyntaxError (e : SyntaxError)
| ExcZeroDivisionError
| ExcNameError (name : text)
| ExcAssertionError
| ExcOther (cls : text) (is_exception : bool).

(** [isinstance(e, Exception)]. *)
Definition is_Exception (e : PyExc) : bool :=
  match e with
  | ExcOther _ b => b
  | _ => true
  end.

(** What leaves [Processor.input], [Processor.exec_py] or the body of
    [main]'s [try]: the two error classes of the module, or any other
    exception, which the module does not catch. *)
Inductive raised :=
| PythonError (e : PyExc)
| XmlError (msg : text)
| Uncaught (e : PyExc).

Inductive res (A : Type) :=
| Ok (a : A)
| Raise (r : raised).
Arguments Ok {A} a.
Arguments Raise {A} r.

(** ** Syntax trees and [_AstLineNoModifier] *)

Inductive ast (L : Type) :=
| Node (label : L) (lineno end_lineno : attr) (children : list (ast L)).
Arguments Node {L} label lineno end_lineno children.

Section AstLineNoModifier.
Context {L : Type}.
Variable lineno_add : Z.

(** [visit]: [None] stands for a failed [assert]. *)
Fixpoint visit (node : ast L) : option (ast L) :=
  match node with
  | Node l ln eln ch =>
      let visit_all :=
        fix visit_all (ns : list (ast L)) : option (list (ast L)) :=
          match ns with
          | [] => Some []
          | n :: ns' =>
              match visit n with
              | Some n' =>
                  match visit_all ns' with
                  | Some r => Some (n' :: r)
                  | None => None
                  end
              | None => None
              end
          end in
      match ln with
      | Int v =>
          match eln with
          | Absent =>
              option_map (Node l (Int (v + lineno_add)) Absent)
                         (visit_all ch)
          | NotInt => None
          | Int e =>
              option_map
                (Node l (Int (v + lineno_add)) (Int (e + lineno_add)))
                (visit_all ch)
          end
      | _ => option_map (Node l ln eln) (visit_all ch)
      end
  end.
End AstLineNoModifier.

(** ** The processor *)

(** Where [sys.stdout] points. *)
Inductive stdout_target := RealStdout | PrintBuffer.

(** [source: str | TextIO] of [exec_py]; the only stream ever passed is the
    processor's own [code_buffer]. *)
Inductive source := SrcStr (s : text) | SrcCodeBuffer.

Section Processor.

(** *** The interpreter and the file system *)

(** Values bound in the snippets' namespace, node payloads of the syntax
    trees, and code objects. *)
Context {value label code : Type}.

(** [ast.parse(source, file_name)]. *)
Variable ast_parse : text -> text -> SyntaxError + ast label.

(** [compile(src_ast, file_name, 'exec')]. *)
Variable py_compile : ast label -> text -> PyExc + code.

(** [exec(code, globals)]: the text the snippet sent to [sys.stdout], the
    namespace as the snippet left it, and the exception it ended with,
    if any. *)
Variable py_exec :
  code -> gmap string value -> text * gmap string value * option PyExc.

(** [open(file_name, 'r')] and the text read from it; [None] when the
    file cannot be opened. *)
Variable read_file : text -> option text.

(** *** State *)

Record State := {
  out_stream : text;
  code_buffer : StringIO;
  print_buffer : StringIO;
  exec_globals : gmap string value;
  sys_stdout : stdout_target;
  real_stdout : text
}.

Definition set_out (f : text -> text) (st : State) : State :=
  {| out_stream := f (out_stream st); code_buffer := code_buffer st;
     print_buffer := print_buffer st; exec_globals := exec_globals st;
     sys_stdout := sys_stdout st; real_stdout := real_stdout st |}.

Definition set_code_buffer (f : StringIO -> StringIO) (st : State) : State :=
  {| out_stream := out_stream st; code_buffer := f (code_buffer st);
     print_buffer := print_buffer st; exec_globals := exec_globals st;
     sys_stdout := sys_stdout st; real_stdout := real_stdout st |}.

Definition set_print_buffer (f : StringIO -> StringIO) (st : State) : State :=
  {| out_stream := out_stream st; code_buffer := code_buffer st;
     print_buffer := f (print_buffer st); exec_globals := exec_globals st;
     sys_stdout := sys_stdout st; real_stdout := real_stdout st |}.

Definition set_globals (g : gmap string value) (st : State) : State :=
  {| out_stream := out_stream st; code_buffer := code_buffer st;
     print_buffer := print_buffer st; exec_globals := g;
     sys_stdout := sys_stdout st; real_stdout := real_stdout st |}.

Definition set_sys_stdout (t : stdout_target) (st : State) : State :=
  {| out_stream := out_stream st; code_buffer := code_buffer st;
     print_buffer := print_buffer st; exec_globals := exec_globals st;
     sys_stdout := t; real_stdout := real_stdout st |}.

Definition set_real_stdout (f : text -> text) (st : State) : State :=
  {| out_stream := out_stream st; code_buffer := code_buffer st;
     print_buffer := print_buffer st; exec_globals := exec_globals st;
     sys_stdout := sys_stdout st; real_stdout := f (real_stdout st) |}.

(** [Processor.__init__] on a sink of its own, in a process whose
    standard output has received nothing yet. *)
Definition init : State :=
  {| out_stream := []; code_buffer := SIO.fresh; print_buffer := SIO.fresh;
     exec_globals := ∅; sys_stdout := RealStdout; real_stdout := [] |}.

(** *** Computations that change the state and may raise *)

Definition M (A : Type) : Type := State -> res A * State.

Definition ret {A} (a : A) : M A := fun st => (Ok a, st).

Definition bind {A B} (m : M A) (k : A -> M B) : M B :=
  fun st =>
    match m st with
    | (Ok a, st') => k a st'
    | (Raise r, st') => (Raise r, st')
    end.

Definition throw {A} (r : raised) : M A := fun st => (Raise r, st).

Definition modify (f : State -> State) : M unit := fun st => (Ok tt, f st).

Definition gets {A} (f : State -> A) : M A := fun st => (Ok (f st), st).

(** [try: m finally: cleanup]. *)
Definition finally {A} (m : M A) (cleanup : State -> State) : M A :=
  fun st => let '(r, st') := m st in (r, cleanup st').

Notation "x <- m ;; k" := (bind m (fun x => k))
  (at level 100, m at next level, right associativity).
Notation "m ;;; k" := (bind m (fun _ => k))
  (at level 100, right associativity).

(** A write to [sys.stdout], wherever it points. *)
Definition stdout_write (s : text) : M unit :=
  fun st =>
    match sys_stdout st with
    | RealStdout => (Ok tt, set_real_stdout (fun o => o ++ s) st)
    | PrintBuffer =>
        (Ok tt, set_print_buffer (fun b => SIO.write b s) st)
    end.

(** *** [Processor.exec_py] *)

(** The line [error_lineno] of the file, as the loop over the reopened
    file finds it. *)
Definition lookup_line (file : text) (error_lineno : attr) : option text :=
  match error_lineno with
  | Int n =>
      if 1 <=? n then readlines file !! Z.to_nat (n - 1) else None
  | _ => None
  end.

(** The [except SyntaxError as e] block for a non-zero offset. *)
Definition shift_syntax_error (e : SyntaxError) (file_name : text)
    (line_num_offset : Z) : res SyntaxError :=
  let shifted :=
    match se_lineno e with
    | Int n =>
        match se_end_lineno e with
        | Absent =>
            Ok {| se_msg := se_msg e; se_lineno := Int (n + line_num_offset);
                  se_end_lineno := Absent; se_text := se_text e |}
        | NotInt => Raise (Uncaught ExcAssertionError)
        | Int m =>
            Ok {| se_msg := se_msg e; se_lineno := Int (n + line_num_offset);
                  se_end_lineno := Int (m + line_num_offset);
                  se_text := se_text e |}
        end
    | _ => Ok e
    end in
  match shifted with
  | Ok e1 =>
      match se_text e1 with
      | Some _ =>
          match read_file file_name with
          | Some f =>
              match lookup_line f (se_lineno e1) with
              | Some line_text =>
                  Ok {| se_msg := se_msg e1; se_lineno := se_lineno e1;
                        se_end_lineno := se_end_lineno e1;
                        se_text := Some line_text |}
              | None => Ok e1
              end
          | None => Ok e1
          end
      | None => Ok e1
      end
  | Raise r => Raise r
  end.

Definition read_source (src : source) : M text :=
  match src with
  | SrcStr s => ret s
  | SrcCodeBuffer =>
      fun st =>
        let '(s, b) := SIO.read (code_buffer st) in
        (Ok s, set_code_buffer (fun _ => b) st)
  end.

Definition exec_py (src : source) (file_name : text) (line_num : Z)
  : M unit :=
  source <- read_source src ;;
  let line_num_offset := line_num - 1 in
  if negb (0 <=? line_num_offset) then throw (Uncaught ExcAssertionError)
  else
    match ast_parse source file_name with
    | inl e =>
        if line_num_offset =? 0 then throw (PythonError (ExcSyntaxError e))
        else
          match shift_syntax_error e file_name line_num_offset with
          | Ok e' => throw (PythonError (ExcSyntaxError e'))
          | Raise r => throw r
          end
    | inr src_ast =>
        shifted <-
          (if line_num_offset =? 0 then ret src_ast
           else
             match visit line_num_offset src_ast with
             | Some t => ret t
             | None => throw (Uncaught ExcAssertionError)
             end) ;;
        match py_compile shifted file_name with
        | inl e => throw (Uncaught e)
        | inr c =>
            g <- gets exec_globals ;;
            let '(printed, g', exc) := py_exec c g in
            modify (set_globals g') ;;;
            stdout_write printed ;;;
            match exc with
            | None => ret tt
            | Some e =>
                if is_Exception e then throw (PythonError e)
                else throw (Uncaught e)
            end
        end
    end.

(** *** [Processor.input] *)

(** [self.pi_target], fixed when the processor is built. *)
Variable pi_target : text.

(** The nested function [exec_and_dump(src, to_stream)]; [beg_ln] is the
    value of the enclosing [this_pi_tag_beg_ln] at the call.  With
    [to_stream = false] (Python [None]) the captured text is returned,
    otherwise it is written to [self.out_stream]. *)
Definition exec_and_dump (file_name : text) (beg_ln : Z) (src : source)
    (to_stream : bool) : M (option text) :=
  modify (set_print_buffer SIO.clear) ;;;
  exec_py src file_name beg_ln ;;;
  res <- gets (fun st => SIO.getvalue (print_buffer st)) ;;
  if to_stream then
    modify (set_out (fun o => o ++ res)) ;;; ret None
  else ret (Some res).

(** [pattern_pi_tag.sub(repl, line)]: the matches are taken left to
    right without overlap and [repl] is called on the group of each one,
    in that order.  [skip] counts the characters of the current match
    still to be passed over. *)
Fixpoint sub_tag (repl : text -> M text) (skip : nat) (s : text) : M text :=
  match s with
  | [] => ret []
  | c :: s' =>
      match skip with
      | S k => sub_tag repl k s'
      | O =>
          match Regex.tag_here pi_target s with
          | Some (n, g) =>
              r <- repl g ;;
              rest <- sub_tag repl (n - 1) s' ;;
              ret (r ++ rest)
          | None =>
              rest <- sub_tag repl 0 s' ;;
              ret (c :: rest)
          end
      end
  end.

(** The local variables of the loop. *)
Record Scan := {
  line_num : Z;
  in_pi_tag : bool;
  this_pi_tag_beg_ln : Z
}.

Definition init_scan : Scan :=
  {| line_num := 0; in_pi_tag := false; this_pi_tag_beg_ln := 0 |}.

(** Lines 204-216: the part of the loop body after a pending multi-line
    instruction has been dealt with. *)
Definition scan_tags (file_name : text) (ln : Z) (in_tag : bool) (beg : Z)
    (line : text) : M Scan :=
  match find Regex.open_marker line with
  | None =>
      modify (set_out (fun o => o ++ line)) ;;;
      ret {| line_num := ln; in_pi_tag := in_tag;
             this_pi_tag_beg_ln := beg |}
  | Some _ =>
      line1 <- sub_tag
                 (fun g =>
                    r <- exec_and_dump file_name ln (SrcStr g) false ;;
                    match r with
                    | Some t => ret t
                    | None => throw (Uncaught (ExcOther (str "TypeError") true))
                    end) 0 line ;;
      match Regex.search_beg pi_target line1 with
      | Some (m_start, m_end) =>
          let beg_pos := (m_end - 1)%nat in
          match line1 !! beg_pos with
          | Some c =>
              if isspace c then
                modify (set_code_buffer SIO.clear) ;;;
                modify (set_code_buffer
                          (fun b => SIO.write b (drop beg_pos line1))) ;;;
                modify (set_out (fun o => o ++ take m_start line1)) ;;;
                ret {| line_num := ln; in_pi_tag := true;
                       this_pi_tag_beg_ln := ln |}
              else throw (Uncaught ExcAssertionError)
          | None => throw (Uncaught (ExcOther (str "IndexError") true))
          end
      | None =>
          modify (set_out (fun o => o ++ line1)) ;;;
          ret {| line_num := ln; in_pi_tag := in_tag;
                 this_pi_tag_beg_ln := ln |}
      end
  end.

(** One iteration of [for line in in_stream]. *)
Definition process_line (file_name : text) (line : text) (sc : Scan)
  : M Scan :=
  let ln := line_num sc + 1 in
  if in_pi_tag sc then
    match find Regex.close_marker line with
    | None =>
        modify (set_code_buffer (fun b => SIO.write b line)) ;;;
        ret {| line_num := ln; in_pi_tag := true;
               this_pi_tag_beg_ln := this_pi_tag_beg_ln sc |}
    | Some end_pos =>
        modify (set_code_buffer
                  (fun b => SIO.write b (take end_pos line))) ;;;
        modify (set_code_buffer SIO.seek0) ;;;
        exec_and_dump file_name (this_pi_tag_beg_ln sc) SrcCodeBuffer true ;;;
        scan_tags file_name ln false 0 (drop (end_pos + 2) line)
    end
  else
    scan_tags file_name ln false (this_pi_tag_beg_ln sc) line.

Fixpoint scan (file_name : text) (lines : list text) (sc : Scan) : M Scan :=
  match lines with
  | [] => ret sc
  | line :: rest =>
      sc' <- process_line file_name line sc ;;
      scan file_name rest sc'
  end.

Definition never_closed (beg_ln : Z) : text :=
  str "processing instruction starting from " ++ str "line "
  ++ str_of_int beg_ln ++ str " was never closed".

(** [Processor.input] on a stream with the given name and content. *)
Definition input (file_name content : text) : M unit :=
  orig_stdout <- gets sys_stdout ;;
  modify (set_sys_stdout PrintBuffer) ;;;
  finally
    (sc <- scan file_name (readlines content) init_scan ;;
     if in_pi_tag sc then
       throw (XmlError (never_closed (this_pi_tag_beg_ln sc)))
     else ret tt)
    (set_sys_stdout orig_stdout).

(** *** [main] *)

Fixpoint for_each {A} (f : A -> M unit) (l : list A) : M unit :=
  match l with
  | [] => ret tt
  | a :: l' => f a ;;; for_each f l'
  end.

(** The body of the [with Processor(output, pi_tgt) as p] block: the
    commands of option [-c], then the input documents (name and content
    of each), or the standard input when there is none. *)
Definition main_body (cmds : list text) (inputs : list (text * text))
    (stdin : text) : M unit :=
  for_each (fun c => exec_py (SrcStr c) (str "<command-line>") 1) cmds ;;;
  match inputs with
  | [] => input (str "<stdin>") stdin
  | _ => for_each (fun i => input (fst i) (snd i)) inputs
  end.

Definition main (cmds : list text) (inputs : list (text * text))
    (stdin : text) : res unit * State :=
  main_body cmds inputs stdin init.

End Processor.

(** ** A small interpreter

    [MiniPy] stands in for CPython on a fragment of the language, so that
    the processor can be run on concrete documents: a snippet is a sequence
    of lines, each blank or one of [print(E)], [NAME = E], [return] and
    [return E], where [E] is a string literal in single quotes (without quotes,
    backslashes or newlines inside), a decimal integer, a name, or
    [INT/INT].  On this fragment it does what CPython does: [print] writes
    the value and a newline, a line that starts with whitespace is an
    unexpected indent, an unbound name raises [NameError], a zero divisor
    raises [ZeroDivisionError]; a [return] statement is accepted by the
    parser and rejected by [compile], which raises the [SyntaxError]
    ['return' outside function] with the position of the statement's node.
    A line outside the fragment is reported as a syntax error on that
    line. *)

Module MiniPy.

Inductive value := VStr (s : text) | VInt (n : Z) | VFloat (n : Z).

Inductive expr :=
| EStr (s : text)
| EInt (n : Z)
| EName (x : text)
| EDiv (a b : Z).

Inductive stmt :=
| SModule
| SPrint (e : expr)
| SAssign (x : text) (e : expr)
| SReturn (e : option expr).

Definition code := list stmt.

Definition is_digit (c : ascii) : bool :=
  let n := nat_of_ascii c in (48 <=? n)%nat && (n <=? 57)%nat.

Definition is_name_char (c : ascii) : bool :=
  let n := nat_of_ascii c in
  ((65 <=? n)%nat && (n <=? 90)%nat) || ((97 <=? n)%nat && (n <=? 122)%nat)
  || (n =? 95)%nat.

Definition is_plain_char (c : ascii) : bool :=
  negb (ascii_eqb c "'"%char || ascii_eqb c "\"%char || ascii_eqb c newline).

Definition digits_value (s : text) : Z :=
  fold_left (fun acc c => 10 * acc + (Z.of_nat (nat_of_ascii c) - 48)) s 0.

(** The text before the first occurrence of [c] and the text after it. *)
Fixpoint split_at (c : ascii) (s : text) : option (text * text) :=
  match s with
  | [] => None
  | d :: s' =>
      if ascii_eqb c d then Some ([], s')
      else
        match split_at c s' with
        | Some (a, b) => Some (d :: a, b)
        | None => None
        end
  end.

Definition is_number (s : text) : bool :=
  negb (Nat.eqb (length s) 0) && forallb is_digit s.

Definition parse_expr (s : text) : option expr :=
  match s with
  | [] => None
  | c :: s' =>
      if ascii_eqb c "'"%char then
        match split_at "'"%char s' with
        | Some (lit, []) =>
            if forallb is_plain_char lit then Some (EStr lit) else None
        | _ => None
        end
      else if is_number s then Some (EInt (digits_value s))
      else if forallb is_name_char s then Some (EName s)
      else
        match split_at "/"%char s with
        | Some (a, b) =>
            if is_number a && is_number b
            then Some (EDiv (digits_value a) (digits_value b))
            else None
        | None => None
        end
  end.

Fixpoint rstrip_rev (r : text) : text :=
  match r with
  | c :: r' => if isspace c then rstrip_rev r' else r
  | [] => []
  end.

Definition rstrip (s : text) : text := rev (rstrip_rev (rev s)).

Definition parse_stmt (line : text) : option stmt :=
  match starts_with (str "print(") line with
  | Some rest =>
      match rev rest with
      | c :: r =>
          if ascii_eqb c ")"%char
          then option_map SPrint (parse_expr (rev r)) else None
      | [] => None
      end
  | None =>
      match starts_with (str "return ") line with
      | Some e => option_map (fun v => SReturn (Some v)) (parse_expr e)
      | None =>
          if decide (line = str "return") then Some (SReturn None) else
          match split_at " "%char line with
          | Some (x, rest) =>
              match starts_with (str "= ") rest with
              | Some e =>
                  if negb (Nat.eqb (length x) 0) && forallb is_name_char x
                  then option_map (SAssign x) (parse_expr e) else None
              | None => None
              end
          | None => None
          end
      end
  end.

(** The lines of a snippet, without their terminators. *)
Fixpoint split_lines_aux (cur : text) (s : text) : list text :=
  match s with
  | [] => [rev cur]
  | c :: s' =>
      if ascii_eqb c newline then rev cur :: split_lines_aux [] s'
      else split_lines_aux (c :: cur) s'
  end.

Definition syntax_error (msg : string) (n : Z) (line : text) : SyntaxError :=
  {| se_msg := str msg; se_lineno := Int n; se_end_lineno := Int n;
     se_text := Some line |}.

Fixpoint parse_lines (n : Z) (ls : list text)
  : SyntaxError + list (ast stmt) :=
  match ls with
  | [] => inr []
  | l :: ls' =>
      match rstrip l with
      | [] => parse_lines (n + 1) ls'
      | c :: _ =>
          if isspace c then inl (syntax_error "unexpected indent" n l)
          else
            match parse_stmt (rstrip l) with
            | None => inl (syntax_error "invalid syntax" n l)
            | Some s =>
                match parse_lines (n + 1) ls' with
                | inl e => inl e
                | inr r => inr (Node s (Int n) (Int n) [] :: r)
                end
            end
      end
  end.

Definition ast_parse (source file_name : text) : SyntaxError + ast stmt :=
  match parse_lines 1 (split_lines_aux [] source) with
  | inl e => inl e
  | inr body => inr (Node SModule Absent Absent body)
  end.

(** [compile] on the statements of a module: a [return] at this level is
    a syntax error, reported at the position its node carries. *)
Fixpoint compile_body (body : list (ast stmt)) : PyExc + code :=
  match body with
  | [] => inr []
  | Node (SReturn _) ln end_ln _ :: _ =>
      inl (ExcSyntaxError
             {| se_msg := str "'return' outside function";
                se_lineno := ln; se_end_lineno := end_ln;
                se_text := None |})
  | Node s _ _ _ :: rest =>
      match compile_body rest with
      | inl e => inl e
      | inr c => inr (s :: c)
      end
  end.

Definition py_compile (t : ast stmt) (file_name : text) : PyExc + code :=
  match t with
  | Node _ _ _ body => compile_body body
  end.

Definition key (x : text) : string := string_of_list_ascii x.

Definition eval (g : gmap string value) (e : expr) : PyExc + value :=
  match e with
  | EStr s => inr (VStr s)
  | EInt n => inr (VInt n)
  | EName x =>
      match g !! key x with
      | Some v => inr v
      | None => inl (ExcNameError x)
      end
  | EDiv a b =>
      if b =? 0 then inl ExcZeroDivisionError
      else if a mod b =? 0 then inr (VFloat (a / b))
      else inl (ExcOther (str "OutsideFragment") false)
  end.

(** [str(v)] as [print] writes it. *)
Definition show (v : value) : text :=
  match v with
  | VStr s => s
  | VInt n => str_of_int n
  | VFloat n => str_of_int n ++ str ".0"
  end.

Fixpoint run (c : code) (g : gmap string value) (out : text)
  : text * gmap string value * option PyExc :=
  match c with
  | [] => (out, g, None)
  | SModule :: c' => run c' g out
  | SPrint e :: c' =>
      match eval g e with
      | inl x => (out, g, Some x)
      | inr v => run c' g (out ++ show v ++ [newline])
      end
  | SAssign x e :: c' =>
      match eval g e with
      | inl x => (out, g, Some x)
      | inr v => run c' (<[key x := v]> g) out
      end
  | SReturn (Some e) :: c' =>
      match eval g e with
      | inl x => (out, g, Some x)
      | inr _ => (out, g, None)
      end
  | SReturn None :: c' => (out, g, None)
  end.

Definition py_exec (c : code) (g : gmap string value)
  : text * gmap string value * option PyExc := run c g [].

(** A file system with one file. *)
Definition one_file (name content : text) (file_name : text) : option text :=
  if decide (file_name = name) then Some content else None.

(** No file can be reopened: the documents are in-memory streams. *)
Definition read_file (file_name : text) : option text := None.

Abbreviation St := (@State value).

Definition input (target file_name content : text) (st : St)
  : res unit * St :=
  input ast_parse py_compile py_exec read_file target file_name content st.

Definition exec_py (src : source) (file_name : text) (line_num : Z) (st : St)
  : res unit * St :=
  exec_py ast_parse py_compile py_exec read_file src file_name line_num st.

Definition main (target : text) (cmds : list text)
    (inputs : list (text * text)) (stdin : text) : res unit * St :=
  main ast_parse py_compile py_exec read_file target cmds inputs stdin.

End MiniPy.

(** ** Notions used to state the properties *)

Definition nl : text := [newline].

(** The document contains an instruction tag in the widest sense: an
    opening ([<?], optional whitespace, the target, one whitespace
    character) followed, anywhere later in the document, by the closing
    marker. *)
Fixpoint has_instruction_tag (target doc : text) : bool :=
  match Regex.beg_here target doc with
  | Some n =>
      match find Regex.close_marker (drop n doc) with
      | Some _ => true
      | None => false
      end
  | None => false
  end
  || match doc with
     | [] => false
     | _ :: doc' => has_instruction_tag target doc'
     end.

(** Some line of the document contains a tag opening. *)
Definition has_opening (target doc : text) : bool :=
  existsb (fun line =>
             match Regex.search_beg target line with
             | Some _ => true
             | None => false
             end) (readlines doc).

Section Notions.
Context {value label code : Type}.
Variable ast_parse : text -> text -> SyntaxError + ast label.
Variable py_compile : ast label -> text -> PyExc + code.
Variable py_exec :
  code -> gmap string value -> text * gmap string value * option PyExc.

(** The tree handed to [compile] for a snippet that starts on line
    [line_num]: the parsed tree, shifted unless the offset is zero. *)
Definition shifted_tree (line_num : Z) (t : ast label) : option (ast label) :=
  if line_num - 1 =? 0 then Some t else visit (line_num - 1) t.

(** In every namespace and wherever it starts, the snippet [src] parses
    and compiles, and running it sends [printed] to [sys.stdout] and
    ends with [exc]. *)
Definition snippet_runs (src printed : text) (exc : option PyExc) : Prop :=
  forall (fn : text) (line_num : Z) (g : gmap string value),
  exists t t' c g',
    ast_parse src fn = inr t /\ shifted_tree line_num t = Some t'
    /\ py_compile t' fn = inr c /\ py_exec c g = (printed, g', exc).
(** The state after a snippet has run: the namespace it left, and its
    printed text wherever [sys.stdout] pointed. *)
Definition after_run (printed : text) (g' : gmap string value) (st : @State value)
  : @State value :=
  match sys_stdout st with
  | RealStdout => set_real_stdout (fun o => o ++ printed) (set_globals g' st)
  | PrintBuffer =>
      set_print_buffer (fun b => SIO.write b printed) (set_globals g' st)
  end.

(** The outcome of [exec_py] for the exception a snippet ended with. *)
Definition exec_outcome (exc : option PyExc) : res unit :=
  match exc with
  | None => Ok tt
  | Some e => if is_Exception e then Raise (PythonError e)
              else Raise (Uncaught e)
  end.

(** The state after a tag's snippet has been evaluated by
    [exec_and_dump] during a scan: the capture buffer holds exactly what
    this snippet printed. *)
Definition after_capture (printed : text) (g' : gmap string value) (st : @State value)
  : @State value :=
  set_print_buffer
    (fun _ => {| sio_data := printed; sio_pos := length printed |})
    (set_globals g' st).

End Notions.

(** ** One namespace, handed from snippet to snippet

    The relations below describe a run in the words of the
    specification: every snippet is evaluated in the namespace that the
    snippet evaluated before it has left, whether that snippet stood
    earlier on the same line, on an earlier line, in an earlier document
    or among the pre-execution commands.  They describe the runs in
    which every snippet runs to its end and every opened tag is closed;
    the program is compared with them among the properties. *)

Section Threading.
Context {value label code : Type}.
Variable ast_parse : text -> text -> SyntaxError + ast label.
Variable py_compile : ast label -> text -> PyExc + code.
Variable py_exec :
  code -> gmap string value -> text * gmap string value * option PyExc.
Variable pi_target : text.

(** The snippet [src] of a tag that starts on line [ln] of the stream
    [fn], evaluated in the namespace [g]: it parses, compiles and runs to
    its end, prints [printed] and leaves the namespace [g']. *)
Definition evaluates (fn : text) (ln : Z) (g : gmap string value)
    (src printed : text) (g' : gmap string value) : Prop :=
  exists t t' c,
    ast_parse src fn = inr t /\ shifted_tree ln t = Some t'
    /\ py_compile t' fn = inr c /\ py_exec c g = (printed, g', None).

(** [substituted fn ln g s out g']: the single-line tags of the text [s]
    of line [ln] are evaluated from left to right, the first in [g],
    each of the others in the namespace left by the one before it; [out]
    is [s] with every tag replaced by what its snippet printed, and [g']
    the namespace left by the last tag. *)
Inductive substituted (fn : text) (ln : Z)
  : gmap string value -> text -> text -> gmap string value -> Prop :=
| substituted_none (g : gmap string value) (s : text) :
    (forall j, Regex.tag_here pi_target (drop j s) = None) ->
    substituted fn ln g s s g
| substituted_tag (g : gmap string value) (u v : text) (n : nat)
    (src printed : text) (g1 : gmap string value) (out : text)
    (g' : gmap string value) :
    (forall j, (j < length u)%nat ->
               Regex.tag_here pi_target (drop j (u ++ v)) = None) ->
    Regex.tag_here pi_target v = Some (n, src) ->
    evaluates fn ln g src printed g1 ->
    substituted fn ln g1 (drop n v) out g' ->
    substituted fn ln g (u ++ v) (u ++ printed ++ out) g'.

(** [scanned fn ln g cur ls out g']: the text [cur] of line [ln] (the
    whole line, or what follows the closing marker of a multi-line tag)
    and then the lines [ls] are processed, starting in the namespace
    [g]; [out] is what the sink receives and [g'] the namespace at the
    end.  A line that, after the substitution of its single-line tags,
    still holds an opening begins a multi-line tag: its snippet runs
    from the whitespace after the target to the next closing marker, and
    is evaluated, as starting on line [ln], in the namespace the
    substitution has left. *)
Inductive scanned (fn : text)
  : Z -> gmap string value -> text -> list text -> text
    -> gmap string value -> Prop :=
| scanned_last (ln : Z) (g : gmap string value) (cur cur1 : text)
    (g1 : gmap string value) :
    substituted fn ln g cur cur1 g1 ->
    Regex.search_beg pi_target cur1 = None ->
    scanned fn ln g cur [] cur1 g1
| scanned_next (ln : Z) (g : gmap string value) (cur cur1 : text)
    (g1 : gmap string value) (l : text) (ls : list text) (out : text)
    (g' : gmap string value) :
    substituted fn ln g cur cur1 g1 ->
    Regex.search_beg pi_target cur1 = None ->
    scanned fn (ln + 1) g1 l ls out g' ->
    scanned fn ln g cur (l :: ls) (cur1 ++ out) g'
| scanned_multi (ln : Z) (g : gmap string value) (cur cur1 : text)
    (g1 : gmap string value) (m_start m_end : nat) (body : list text)
    (closing : text) (ls : list text) (p : nat) (printed : text)
    (g2 : gmap string value) (out : text) (g' : gmap string value) :
    substituted fn ln g cur cur1 g1 ->
    Regex.search_beg pi_target cur1 = Some (m_start, m_end) ->
    Forall (fun l => find Regex.close_marker l = None) body ->
    find Regex.close_marker closing = Some p ->
    evaluates fn ln g1
      (drop (m_end - 1) cur1 ++ concat body ++ take p closing) printed g2 ->
    scanned fn (ln + Z.of_nat (length body) + 1) g2
      (drop (p + 2) closing) ls out g' ->
    scanned fn ln g cur (body ++ closing :: ls)
      (take m_start cur1 ++ printed ++ out) g'.

(** One document, from its first line. *)
Definition document_run (fn content : text) (g : gmap string value)
    (out : text) (g' : gmap string value) : Prop :=
  match readlines content with
  | [] => out = [] /\ g' = g
  | l :: ls => scanned fn 1 g l ls out g'
  end.

(** The documents of a run, in order: each starts in the namespace the
    one before it has left. *)
Inductive documents_run
  : gmap string value -> list (text * text) -> text
    -> gmap string value -> Prop :=
| documents_run_nil (g : gmap string value) : documents_run g [] [] g
| documents_run_cons (g : gmap string value) (fn content : text)
    (ds : list (text * text)) (out1 : text) (g1 : gmap string value)
    (out2 : text) (g' : gmap string value) :
    document_run fn content g out1 g1 ->
    documents_run g1 ds out2 g' ->
    documents_run g ((fn, content) :: ds) (out1 ++ out2) g'.

(** The pre-execution commands, in order; [printed] is what they print
    together. *)
Inductive commands_run
  : gmap string value -> list text -> text -> gmap string value -> Prop :=
| commands_run_nil (g : gmap string value) : commands_run g [] [] g
| commands_run_cons (g : gmap string value) (c : text) (cs : list text)
    (printed1 : text) (g1 : gmap string value) (printed2 : text)
    (g' : gmap string value) :
    evaluates (str "<command-line>") 1 g c printed1 g1 ->
    commands_run g1 cs printed2 g' ->
    commands_run g (c :: cs) (printed1 ++ printed2) g'.

End Threading.

(** The target is an identifier-like word: it is not empty, does not
    start with a whitespace character and holds no [<]. *)
Definition plain_target (target : text) : bool :=
  match target with
  | [] => false
  | c :: _ => negb (isspace c)
  end
  && forallb (fun c => negb (ascii_eqb c "<"%char)) target.

Section Frames.
Context {value : Type}.

(** A computation keeps a relation between the state it starts from and
    the state it ends in, whatever its result. *)
Definition keeps (R : @State value -> @State value -> Prop) {A : Type}
    (m : @M value A) : Prop :=
  forall st, R st (snd (m st)).

(** The second state differs from the first at most in the buffers and
    the namespace, and in the real standard output when [sys.stdout]
    points there: the sink has the same content, [sys.stdout] points
    where it did, and what was written to the real standard output while
    [sys.stdout] was redirected is unchanged. *)
Definition quiet (st st' : @State value) : Prop :=
  out_stream st' = out_stream st
  /\ sys_stdout st' = sys_stdout st
  /\ (sys_stdout st = PrintBuffer -> real_stdout st' = real_stdout st).

(** The same, with text possibly appended to the sink. *)
Definition appends (st st' : @State value) : Prop :=
  out_stream st `prefix_of` out_stream st'
  /\ sys_stdout st' = sys_stdout st
  /\ (sys_stdout st = PrintBuffer -> real_stdout st' = real_stdout st).
End Frames.

Section AstNotions.
Context {L : Type}.

(** [NodeVisitor.generic_visit] as [_AstLineNoModifier] uses it: the
    children are visited in order, and the first failed assertion ends
    the visit. *)
Fixpoint generic_visit (lineno_add : Z) (ns : list (ast L))
  : option (list (ast L)) :=
  match ns with
  | [] => Some []
  | n :: ns' =>
      match visit lineno_add n with
      | Some n' =>
          match generic_visit lineno_add ns' with
          | Some r => Some (n' :: r)
          | None => None
          end
      | None => None
      end
  end.

(** The [lineno] and [end_lineno] of every node of a tree, node before
    children, children in order. *)
Fixpoint positions (t : ast L) : list (attr * attr) :=
  match t with
  | Node _ ln eln ch => (ln, eln) :: flat_map positions ch
  end.

(** The tree without its positions. *)
Fixpoint skeleton (t : ast L) : ast L :=
  match t with
  | Node l _ _ ch => Node l Absent Absent (map skeleton ch)
  end.

(** A node passes the assertion of the visitor: its [end_lineno] is an
    integer or absent whenever its [lineno] is an integer. *)
Definition position_ok (p : attr * attr) : bool :=
  match p with
  | (Int _, NotInt) => false
  | _ => true
  end.

(** A position moved by [add] lines: both attributes when the [lineno]
    is an integer, none otherwise. *)
Definition shift_position (add : Z) (p : attr * attr) : attr * attr :=
  match p with
  | (Int v, Int e) => (Int (v + add), Int (e + add))
  | (Int v, Absent) => (Int (v + add), Absent)
  | _ => p
  end.
End AstNotions.

(** ** The life of the streams *)

(** What a processor knows of its streams: whether [self.out_stream] is
    still set, the flag [_open_file_w] returned with it (the processor
    opened the file itself, from a path), how many times [close()] has
    been called on the sink, and whether the two buffers are closed. *)
Record Handles := {
  out_stream_set : bool;
  out_stream_flag : bool;
  sink_closes : nat;
  buffers_closed : bool
}.

(** [Processor._open_file_w], as [__init__] uses it: a value with a
    [write] attribute is taken as it is, anything else is a path to
    open. *)
Definition open_file_w (has_write : bool) : Handles :=
  {| out_stream_set := true; out_stream_flag := negb has_write;
     sink_closes := 0; buffers_closed := false |}.

(** [Processor._close_file] on the sink. *)
Definition close_file (flag : bool) (closes : nat) : nat :=
  if flag then S closes else closes.

(** [Processor.close], which [__exit__] and [__del__] call. *)
Definition close (h : Handles) : Handles :=
  {| out_stream_set := false;
     out_stream_flag := out_stream_flag h;
     sink_closes :=
       if out_stream_set h then close_file (out_stream_flag h) (sink_closes h)
       else sink_closes h;
     buffers_closed := true |}.

Section Lifecycle.
Context {value label code : Type}.
Variable ast_parse : text -> text -> SyntaxError + ast label.
Variable py_compile : ast label -> text -> PyExc + code.
Variable py_exec :
  code -> gmap string value -> text * gmap string value * option PyExc.
Variable read_file : text -> option text.
Variable pi_target : text.

(** [Processor.input] with its first statement,
    [assert self.out_stream is not None]. *)
Definition input_asserting (h : Handles) (file_name content : text)
  : @M value unit :=
  if out_stream_set h then
    input ast_parse py_compile py_exec read_file pi_target file_name content
  else throw (Uncaught ExcAssertionError).
End Lifecycle.

(** ** Reporting *)

(** [print(s, file=f)] appends [s] and a newline. *)
Definition print_line (s : text) : text := s ++ [newline].

Definition esc : ascii := ascii_of_nat 27.
Definition color_on : text := esc :: str "[1;31m".
Definition color_off : text := esc :: str "[0m".

(** The [no_color] of the two [print] methods after their first
    statement. *)
Definition effective_no_color (no_color isatty : bool) : bool :=
  if negb no_color && negb isatty then true else no_color.

Section Reporting.
Context {value label code : Type}.
Variable ast_parse : text -> text -> SyntaxError + ast label.
Variable py_compile : ast label -> text -> PyExc + code.
Variable py_exec :
  code -> gmap string value -> text * gmap string value * option PyExc.
Variable read_file : text -> option text.
Variable pi_target : text.

(** [traceback.print_exception(None, e, tb)]: the text it writes for the
    exception, with or without the stack. *)
Variable print_exception : PyExc -> bool -> text.

(** [XmlError.print(file, no_color)]: the state and the content of
    [file] afterwards.  The message is printed without [file=]. *)
Definition XmlError_print (msg : text) (no_color isatty : bool)
    (st : @State value) (file : text) : @State value * text :=
  let no_color := effective_no_color no_color isatty in
  let file1 := if negb no_color then file ++ print_line color_on else file in
  let st1 :=
    snd (stdout_write (print_line (str "Bad XML syntax:" ++ str " " ++ msg))
           st) in
  let file2 := if negb no_color then file1 ++ print_line color_off
               else file1 in
  (st1, file2).

(** [PythonError.print(file, no_color)]. *)
Definition PythonError_print (e : PyExc) (no_color isatty : bool)
    (file : text) : text :=
  let no_color := effective_no_color no_color isatty in
  let file1 := if negb no_color then file ++ print_line color_on else file in
  let file2 :=
    match e with
    | ExcSyntaxError _ => file1 ++ print_exception e false
    | _ => file1 ++ print_exception e true
    end in
  if negb no_color then file2 ++ print_line color_off else file2.

(** [main] with its [try] and [except]: the result (an exception only if
    it is none of the two diagnostics), the state, and what the standard
    error stream has received; [isatty] is [sys.stderr.isatty()]. *)
Definition main_reporting (cmds : list text) (inputs : list (text * text))
    (stdin : text) (no_color isatty : bool)
  : res unit * @State value * text :=
  match main ast_parse py_compile py_exec read_file pi_target
          cmds inputs stdin with
  | (Ok _, st) => (Ok tt, st, [])
  | (Raise (PythonError e), st) =>
      (Ok tt, st, PythonError_print e no_color isatty [])
  | (Raise (XmlError msg), st) =>
      let '(st', err) := XmlError_print msg no_color isatty st [] in
      (Ok tt, st', err)
  | (Raise (Uncaught e), st) => (Raise (Uncaught e), st, [])
  end.
End Reporting.

(** * Properties *)

(** ** Text and regular expressions *)

Lemma ascii_eqb_eq (a b : ascii) : ascii_eqb a b = true <-> a = b.
Proof. unfold ascii_eqb. apply Ascii.eqb_eq. Qed.

Lemma ascii_eqb_refl (a : ascii) : ascii_eqb a a = true.
Proof. apply ascii_eqb_eq. reflexivity. Qed.

Lemma ascii_eqb_neq (a b : ascii) : ascii_eqb a b = false <-> a <> b.
Proof. unfold ascii_eqb. apply Ascii.eqb_neq. Qed.

Lemma starts_with_Some (p s r : text) :
  starts_with p s = Some r <-> s = p ++ r.
Proof.
  revert s. induction p as [|a p IH]; intros s; simpl.
  - split; congruence.
  - destruct s as [|b s]; [split; congruence|].
    destruct (ascii_eqb a b) eqn:E.
    + apply ascii_eqb_eq in E. subst b. rewrite IH. split; congruence.
    + apply ascii_eqb_neq in E. split; congruence.
Qed.

Lemma starts_with_app (p r : text) : starts_with p (p ++ r) = Some r.
Proof. apply starts_with_Some. reflexivity. Qed.

Lemma starts_with_None_head (a : ascii) (p s : text) (b : ascii) :
  a <> b -> starts_with (a :: p) (b :: s) = None.
Proof. intros H. simpl. apply ascii_eqb_neq in H. rewrite H. reflexivity. Qed.

Lemma find_None_drop (p s : text) :
  find p s = None -> forall i, (i <= length s)%nat -> starts_with p (drop i s) = None.
Proof.
  induction s as [|c s IH]; simpl; intros H i Hi.
  - destruct (starts_with p []) eqn:E; [discriminate|].
    destruct i; simpl; assumption.
  - destruct (starts_with p (c :: s)) eqn:E; [discriminate|].
    destruct i as [|i]; simpl; [assumption|].
    apply IH; [|lia].
    destruct (find p s); [discriminate|reflexivity].
Qed.

Lemma find_Some_iff (p s : text) :
  is_Some (find p s) <-> exists i, is_Some (starts_with p (drop i s)).
Proof.
  split.
  - induction s as [|c s IH]; simpl; intros [n H].
    + destruct (starts_with p []) eqn:E; [|discriminate].
      exists 0%nat. simpl. rewrite E. eauto.
    + destruct (starts_with p (c :: s)) eqn:E.
      * exists 0%nat. simpl. rewrite E. eauto.
      * destruct (find p s) eqn:F; [|discriminate].
        destruct IH as [i Hi]; [eauto|]. exists (S i). exact Hi.
  - intros [i Hi]. destruct (find p s) eqn:F; [eauto|].
    destruct (le_lt_dec i (length s)) as [Hle|Hgt].
    + rewrite (find_None_drop _ _ F i Hle) in Hi. destruct Hi; discriminate.
    + rewrite drop_ge in Hi by lia.
      rewrite <- (drop_all s) in Hi.
      rewrite (find_None_drop _ _ F (length s)) in Hi by lia.
      destruct Hi; discriminate.
Qed.

(** Iterating over a stream yields all of its text, in order. *)
Lemma readlines_aux_concat (cur s : text) :
  concat (readlines_aux cur s) = rev cur ++ s.
Proof.
  revert cur. induction s as [|c s IH]; intros cur; simpl.
  - destruct cur; simpl; [reflexivity|]. rewrite !app_nil_r. reflexivity.
  - destruct (ascii_eqb c newline); simpl.
    + rewrite IH. simpl. rewrite <- app_assoc. reflexivity.
    + rewrite IH. simpl. rewrite <- app_assoc. reflexivity.
Qed.

Lemma readlines_concat (s : text) : concat (readlines s) = s.
Proof. unfold readlines. rewrite readlines_aux_concat. reflexivity. Qed.

Module RegexFacts.
Import Regex.

(** If the continuation of one [\s*] succeeds wherever that of another
    does, so does the whole. *)
Lemma ws_star_mono {A B} (k1 : text -> option (nat * A))
    (k2 : text -> option (nat * B)) (s : text) :
  (forall u, is_Some (k1 u) -> is_Some (k2 u)) ->
  is_Some (ws_star k1 s) -> is_Some (ws_star k2 s).
Proof.
  intros Hk. induction s as [|c s IH]; simpl; [apply Hk|].
  destruct (isspace c); [|apply Hk].
  destruct (ws_star k1 s) as [[n a]|] eqn:E1.
  - intros _. destruct IH as [[m b] ->]; eauto.
  - intros H. destruct (ws_star k2 s) as [[m b]|]; eauto.
Qed.

(** A match of the whole-tag pattern starts with a match of the opening
    pattern. *)
Lemma tag_here_beg_here (target s : text) :
  is_Some (tag_here target s) -> is_Some (beg_here target s).
Proof.
  unfold tag_here, beg_here.
  destruct (starts_with open_marker s) as [s1|]; [|intros [? ?]; discriminate].
  intros H.
  assert (Hw : is_Some (ws_star (beg_cont target) s1)).
  { apply (ws_star_mono (tag_cont target)).
    - intros u [x Hu]. unfold tag_cont, beg_cont in *.
      destruct (target_ws target u) as [[n r]|]; [eauto|discriminate].
    - destruct (ws_star (tag_cont target) s1) as [[n g]|]; [eauto|].
      destruct H; discriminate. }
  destruct Hw as [[n u] ->]. eauto.
Qed.

Lemma search_beg_from_None (target : text) (i : nat) (s : text) :
  search_beg_from target i s = None ->
  forall j, beg_here target (drop j s) = None.
Proof.
  revert i. induction s as [|c s IH]; intros i; simpl.
  - destruct (beg_here target []) eqn:E; [discriminate|].
    intros _ j. destruct j; simpl; exact E.
  - destruct (beg_here target (c :: s)) eqn:E; [discriminate|].
    intros H j. destruct j as [|j]; simpl; [exact E|]. eapply IH, H.
Qed.

Lemma search_beg_None_tag (target s : text) :
  search_beg target s = None ->
  forall j, tag_here target (drop j s) = None.
Proof.
  intros H j. pose proof (search_beg_from_None _ _ _ H j) as Hb.
  destruct (tag_here target (drop j s)) eqn:E; [|reflexivity].
  destruct (tag_here_beg_here target (drop j s)) as [n Hn]; [eauto|].
  congruence.
Qed.

End RegexFacts.

Section Facts.
Context {value label code : Type}.
Variable ast_parse : text -> text -> SyntaxError + ast label.
Variable py_compile : ast label -> text -> PyExc + code.
Variable py_exec :
  code -> gmap string value -> text * gmap string value * option PyExc.
Variable read_file : text -> option text.
Variable pi_target : text.

Local Abbreviation St := (@State value).
Local Abbreviation Comp := (@M value).
Local Abbreviation scan_tags' :=
  (scan_tags ast_parse py_compile py_exec read_file pi_target).
Local Abbreviation process_line' :=
  (process_line ast_parse py_compile py_exec read_file pi_target).
Local Abbreviation scan' :=
  (scan ast_parse py_compile py_exec read_file pi_target).
Local Abbreviation input' :=
  (input ast_parse py_compile py_exec read_file pi_target).

(** ** The scanner on text without tags *)

(** Where nothing matches, the substitution returns its argument and
    calls nothing. *)
Lemma sub_tag_no_match (repl : text -> Comp text) (s : text) (st : St) :
  (forall j, Regex.tag_here pi_target (drop j s) = None) ->
  sub_tag pi_target repl 0 s st = (Ok s, st).
Proof.
  induction s as [|c s IH]; intros H; simpl; [reflexivity|].
  pose proof (H 0%nat) as H0. simpl in H0. rewrite H0. unfold bind.
  rewrite IH; [reflexivity|]. intros j. exact (H (S j)).
Qed.

Lemma set_out_set_out (a b : text) (st : St) :
  set_out (fun o => o ++ b) (set_out (fun o => o ++ a) st)
  = set_out (fun o => o ++ (a ++ b)) st.
Proof. unfold set_out. simpl. rewrite app_assoc. reflexivity. Qed.

Lemma set_out_nil (st : St) : set_out (fun o => o ++ []) st = st.
Proof. destruct st. unfold set_out. simpl. rewrite app_nil_r. reflexivity. Qed.

(** A line without a tag opening is written through; only the start-line
    variable may change. *)
Lemma scan_tags_passthrough (fn : text) (ln : Z) (b : bool) (beg : Z)
    (line : text) (st : St) :
  Regex.search_beg pi_target line = None ->
  exists beg',
    scan_tags' fn ln b beg line st
    = (Ok {| line_num := ln; in_pi_tag := b; this_pi_tag_beg_ln := beg' |},
       set_out (fun o => o ++ line) st).
Proof.
  intros H. unfold scan_tags.
  destruct (find Regex.open_marker line).
  - exists ln. unfold bind at 1.
    rewrite sub_tag_no_match by (apply RegexFacts.search_beg_None_tag, H).
    rewrite H. reflexivity.
  - exists beg. reflexivity.
Qed.

Lemma scan_passthrough (fn : text) (lines : list text) :
  Forall (fun line => Regex.search_beg pi_target line = None) lines ->
  forall (sc : Scan) (st : St),
    in_pi_tag sc = false ->
    exists beg,
      scan' fn lines sc st
      = (Ok {| line_num := line_num sc + Z.of_nat (length lines);
               in_pi_tag := false; this_pi_tag_beg_ln := beg |},
         set_out (fun o => o ++ concat lines) st).
Proof.
  induction 1 as [|line lines Hl _ IH]; intros sc st Hsc; simpl.
  - exists (this_pi_tag_beg_ln sc). unfold ret. rewrite set_out_nil.
    destruct sc; simpl in *; subst. rewrite Z.add_0_r. reflexivity.
  - unfold bind, process_line. rewrite Hsc.
    destruct (scan_tags_passthrough fn (line_num sc + 1) false
                (this_pi_tag_beg_ln sc) line st Hl) as [beg' ->].
    destruct (IH {| line_num := line_num sc + 1; in_pi_tag := false;
                    this_pi_tag_beg_ln := beg' |}
                 (set_out (fun o => o ++ line) st) eq_refl) as [beg'' ->].
    exists beg''. simpl. rewrite set_out_set_out. do 3 f_equal. lia.
Qed.

(** C1 (amended). For every input document none of whose lines contains
    a tag opening ([<?], optional whitespace, the target, a whitespace
    character), processing the document raises nothing and appends to
    the output sink exactly the text of the input; nothing else of the
    processor's state changes. *)
Theorem passthrough_without_opening (fn content : text) (st : St) :
  has_opening pi_target content = false ->
  input' fn content st = (Ok tt, set_out (fun o => o ++ content) st).
Proof.
  intros H. unfold input, bind, gets, modify, finally. simpl.
  assert (HF : Forall (fun line => Regex.search_beg pi_target line = None)
                 (readlines content)).
  { apply Forall_forall. intros line Hin. unfold has_opening in H.
    destruct (Regex.search_beg pi_target line) eqn:E; [|reflexivity].
    assert (existsb (fun line =>
              match Regex.search_beg pi_target line with
              | Some _ => true | None => false end) (readlines content)
            = true) as Hex.
    { apply existsb_exists. exists line. rewrite E.
      split; [apply list_elem_of_In, Hin|reflexivity]. }
    congruence. }
  destruct (scan_passthrough fn _ HF init_scan
              (set_sys_stdout PrintBuffer st) eq_refl) as [beg ->].
  simpl. rewrite readlines_concat. destruct st; reflexivity.
Qed.


(** ** Evaluating one snippet *)

Local Abbreviation exec_py' :=
  (exec_py ast_parse py_compile py_exec read_file).
Local Abbreviation exec_and_dump' :=
  (exec_and_dump ast_parse py_compile py_exec read_file).

Lemma exec_py_parsed (s fn : text) (ln : Z) (st : St) (t t' : ast label)
    (c : code) (printed : text) (g' : gmap string value)
    (exc : option PyExc) :
  1 <= ln ->
  ast_parse s fn = inr t ->
  shifted_tree ln t = Some t' ->
  py_compile t' fn = inr c ->
  py_exec c (exec_globals st) = (printed, g', exc) ->
  exec_py' (SrcStr s) fn ln st = (exec_outcome exc, after_run printed g' st).
Proof.
  intros Hln Hp Hs Hc He.
  unfold exec_py, read_source, bind, ret, gets, modify. simpl.
  replace (0 <=? ln - 1) with true by (symmetry; apply Z.leb_le; lia).
  simpl. rewrite Hp. unfold shifted_tree in Hs.
  destruct (ln - 1 =? 0).
  - injection Hs as ->. rewrite Hc, He. simpl.
    unfold stdout_write, after_run, exec_outcome, throw. simpl.
    destruct (sys_stdout st), exc as [e|]; simpl; try reflexivity;
      destruct (is_Exception e); reflexivity.
  - rewrite Hs. rewrite Hc, He. simpl.
    unfold stdout_write, after_run, exec_outcome, throw. simpl.
    destruct (sys_stdout st), exc as [e|]; simpl; try reflexivity;
      destruct (is_Exception e); reflexivity.
Qed.

Lemma sio_write_fresh (s : text) :
  SIO.write SIO.fresh s = {| sio_data := s; sio_pos := length s |}.
Proof.
  unfold SIO.write, SIO.fresh. simpl. rewrite drop_nil, app_nil_r.
  reflexivity.
Qed.

Lemma exec_and_dump_runs (src printed : text) (exc : option PyExc)
    (fn : text) (ln : Z) (st : St) :
  snippet_runs ast_parse py_compile py_exec src printed exc ->
  1 <= ln ->
  sys_stdout st = PrintBuffer ->
  exists g',
    exec_and_dump' fn ln (SrcStr src) false st
    = (match exec_outcome exc with
       | Ok _ => Ok (Some printed)
       | Raise r => Raise r
       end, after_capture printed g' st).
Proof.
  intros Hrun Hln Hso.
  destruct (Hrun fn ln (exec_globals st)) as (t & t' & c & g' & Hp & Hs & Hc & He).
  exists g'. unfold exec_and_dump, bind, modify at 1.
  rewrite (exec_py_parsed src fn ln (set_print_buffer SIO.clear st)
             t t' c printed g' exc Hln Hp Hs Hc He).
  unfold after_run, after_capture. simpl. rewrite Hso.
  assert (Hst : set_print_buffer (fun b => SIO.write b printed)
                  (set_globals g' (set_print_buffer SIO.clear st))
                = set_print_buffer
                    (fun _ => {| sio_data := printed;
                                 sio_pos := length printed |})
                    (set_globals g' st)).
  { unfold set_print_buffer, set_globals. simpl.
    unfold SIO.clear. rewrite sio_write_fresh. reflexivity. }
  rewrite Hst. destruct (exec_outcome exc); reflexivity.
Qed.

(** ** The substitution, one match at a time *)

Lemma sub_tag_drop (repl : text -> Comp text) (k : nat) (s : text) (st : St) :
  sub_tag pi_target repl k s st = sub_tag pi_target repl 0 (drop k s) st.
Proof.
  revert k. induction s as [|c s IH]; intros k.
  - destruct k; reflexivity.
  - destruct k as [|k]; [reflexivity|]. simpl. apply IH.
Qed.

Lemma sub_tag_step (repl : text -> Comp text) (c : ascii) (s : text) (st : St) :
  sub_tag pi_target repl 0 (c :: s) st
  = match Regex.tag_here pi_target (c :: s) with
    | Some (n, g) =>
        bind (repl g)
             (fun r => bind (sub_tag pi_target repl 0 (drop (n - 1) s))
                            (fun rest => ret (r ++ rest))) st
    | None =>
        bind (sub_tag pi_target repl 0 s) (fun rest => ret (c :: rest)) st
    end.
Proof.
  simpl. destruct (Regex.tag_here pi_target (c :: s)) as [[n g]|];
    [|reflexivity].
  unfold bind. destruct (repl g st) as [[r|e] st']; [|reflexivity].
  rewrite sub_tag_drop. reflexivity.
Qed.

Lemma tag_here_length (s : text) (n : nat) (g : text) :
  Regex.tag_here pi_target s = Some (n, g) ->
  exists c s', s = c :: s' /\ (1 <= n)%nat.
Proof.
  unfold Regex.tag_here.
  destruct (starts_with Regex.open_marker s) as [s1|] eqn:E; [|discriminate].
  apply starts_with_Some in E. subst s.
  destruct (Regex.ws_star _ s1) as [[m g']|]; [|discriminate].
  intros [= <- <-]. eexists _, _. split; [reflexivity|lia].
Qed.

(** At a match, the callback runs on the group and the substitution
    resumes after the match. *)
Lemma sub_tag_match (repl : text -> Comp text) (s : text) (n : nat)
    (g : text) (st : St) :
  Regex.tag_here pi_target s = Some (n, g) ->
  sub_tag pi_target repl 0 s st
  = bind (repl g)
         (fun r => bind (sub_tag pi_target repl 0 (drop n s))
                        (fun rest => ret (r ++ rest))) st.
Proof.
  intros H. destruct (tag_here_length _ _ _ H) as (c & s' & -> & Hn).
  rewrite sub_tag_step, H.
  replace (drop n (c :: s')) with (drop (n - 1) s'); [reflexivity|].
  destruct n as [|n]; [lia|]. simpl. rewrite Nat.sub_0_r. reflexivity.
Qed.

(** Text in which no match starts is copied. *)
Lemma sub_tag_skip (repl : text -> Comp text) (u v : text) (st : St) :
  (forall j, (j < length u)%nat ->
             Regex.tag_here pi_target (drop j (u ++ v)) = None) ->
  sub_tag pi_target repl 0 (u ++ v) st
  = bind (sub_tag pi_target repl 0 v) (fun rest => ret (u ++ rest)) st.
Proof.
  induction u as [|c u IH]; intros H.
  - simpl. unfold bind, ret. destruct (sub_tag _ _ _ v st) as [[r|e] st'];
      reflexivity.
  - change ((c :: u) ++ v) with (c :: (u ++ v)). rewrite sub_tag_step.
    pose proof (H 0%nat ltac:(simpl; lia)) as H0. simpl in H0. rewrite H0.
    unfold bind. rewrite IH.
    + unfold bind, ret. destruct (sub_tag _ _ _ v st) as [[r|e] st'];
        reflexivity.
    + intros j Hj. apply (H (S j)). simpl. lia.
Qed.

(** The same steps, read off the results. *)

Lemma sub_tag_char_ok (repl : text -> Comp text) (c : ascii) (s r : text)
    (st st' : St) :
  Regex.tag_here pi_target (c :: s) = None ->
  sub_tag pi_target repl 0 s st = (Ok r, st') ->
  sub_tag pi_target repl 0 (c :: s) st = (Ok (c :: r), st').
Proof.
  intros H E. rewrite sub_tag_step, H. unfold bind. rewrite E. reflexivity.
Qed.

Lemma sub_tag_char_raise (repl : text -> Comp text) (c : ascii) (s : text)
    (e : raised) (st st' : St) :
  Regex.tag_here pi_target (c :: s) = None ->
  sub_tag pi_target repl 0 s st = (Raise e, st') ->
  sub_tag pi_target repl 0 (c :: s) st = (Raise e, st').
Proof.
  intros H E. rewrite sub_tag_step, H. unfold bind. rewrite E. reflexivity.
Qed.

Lemma sub_tag_match_ok (repl : text -> Comp text) (s : text) (n : nat)
    (g r rest : text) (st st1 st2 : St) :
  Regex.tag_here pi_target s = Some (n, g) ->
  repl g st = (Ok r, st1) ->
  sub_tag pi_target repl 0 (drop n s) st1 = (Ok rest, st2) ->
  sub_tag pi_target repl 0 s st = (Ok (r ++ rest), st2).
Proof.
  intros H E1 E2. rewrite (sub_tag_match _ _ _ _ _ H). unfold bind.
  rewrite E1, E2. reflexivity.
Qed.

Lemma sub_tag_match_raise (repl : text -> Comp text) (s : text) (n : nat)
    (g : text) (e : raised) (st st1 : St) :
  Regex.tag_here pi_target s = Some (n, g) ->
  repl g st = (Raise e, st1) ->
  sub_tag pi_target repl 0 s st = (Raise e, st1).
Proof.
  intros H E1. rewrite (sub_tag_match _ _ _ _ _ H). unfold bind.
  rewrite E1. reflexivity.
Qed.

Lemma sub_tag_match_then_raise (repl : text -> Comp text) (s : text)
    (n : nat) (g r : text) (e : raised) (st st1 st2 : St) :
  Regex.tag_here pi_target s = Some (n, g) ->
  repl g st = (Ok r, st1) ->
  sub_tag pi_target repl 0 (drop n s) st1 = (Raise e, st2) ->
  sub_tag pi_target repl 0 s st = (Raise e, st2).
Proof.
  intros H E1 E2. rewrite (sub_tag_match _ _ _ _ _ H). unfold bind.
  rewrite E1, E2. reflexivity.
Qed.

(** ** The loop, in state-passing form *)

(** The callback handed to the substitution on line [ln]. *)
Local Abbreviation repl_at fn ln :=
  (fun g : text =>
     bind (exec_and_dump' fn ln (SrcStr g) false)
          (fun r : option text =>
             match r with
             | Some t => ret t
             | None => throw (Uncaught (ExcOther (str "TypeError") true))
             end)).

Lemma repl_at_ok (fn : text) (ln : Z) (g t : text) (st st' : St) :
  exec_and_dump' fn ln (SrcStr g) false st = (Ok (Some t), st') ->
  repl_at fn ln g st = (Ok t, st').
Proof. intros E. unfold bind. rewrite E. reflexivity. Qed.

Lemma repl_at_raise (fn : text) (ln : Z) (g : text) (e : raised)
    (st st' : St) :
  exec_and_dump' fn ln (SrcStr g) false st = (Raise e, st') ->
  repl_at fn ln g st = (Raise e, st').
Proof. intros E. unfold bind. rewrite E. reflexivity. Qed.

Lemma scan_tags_raise (fn : text) (ln : Z) (b : bool) (beg : Z)
    (line : text) (e : raised) (st st' : St) :
  is_Some (find Regex.open_marker line) ->
  sub_tag pi_target (repl_at fn ln) 0 line st = (Raise e, st') ->
  scan_tags' fn ln b beg line st = (Raise e, st').
Proof.
  intros [i Hi] E. unfold scan_tags. rewrite Hi.
  unfold bind at 1. rewrite E. reflexivity.
Qed.

(** The line, after substitution, holds no tag opening. *)
Lemma scan_tags_closed (fn : text) (ln : Z) (b : bool) (beg : Z)
    (line line1 : text) (st st' : St) :
  is_Some (find Regex.open_marker line) ->
  sub_tag pi_target (repl_at fn ln) 0 line st = (Ok line1, st') ->
  Regex.search_beg pi_target line1 = None ->
  scan_tags' fn ln b beg line st
  = (Ok {| line_num := ln; in_pi_tag := b; this_pi_tag_beg_ln := ln |},
     set_out (fun o => o ++ line1) st').
Proof.
  intros [i Hi] E Hs. unfold scan_tags. rewrite Hi.
  unfold bind at 1. rewrite E, Hs. reflexivity.
Qed.

(** The line, after substitution, holds a tag opening: a multi-line
    instruction begins. *)
Lemma scan_tags_opened (fn : text) (ln : Z) (b : bool) (beg : Z)
    (line line1 : text) (m_start m_end : nat) (c : ascii) (st st' : St) :
  is_Some (find Regex.open_marker line) ->
  sub_tag pi_target (repl_at fn ln) 0 line st = (Ok line1, st') ->
  Regex.search_beg pi_target line1 = Some (m_start, m_end) ->
  line1 !! (m_end - 1)%nat = Some c ->
  isspace c = true ->
  scan_tags' fn ln b beg line st
  = (Ok {| line_num := ln; in_pi_tag := true; this_pi_tag_beg_ln := ln |},
     set_out (fun o => o ++ take m_start line1)
       (set_code_buffer
          (fun _ => {| sio_data := drop (m_end - 1) line1;
                       sio_pos := length (drop (m_end - 1) line1) |})
          st')).
Proof.
  intros [i Hi] E Hs Hc Hsp. unfold scan_tags. rewrite Hi.
  unfold bind at 1. rewrite E, Hs, Hc, Hsp.
  unfold bind, modify, ret. simpl. f_equal.
  unfold set_out, set_code_buffer. simpl. unfold SIO.clear.
  rewrite sio_write_fresh. reflexivity.
Qed.

Lemma process_line_outside (fn line : text) (sc : Scan) (st : St) :
  in_pi_tag sc = false ->
  process_line' fn line sc st
  = scan_tags' fn (line_num sc + 1) false (this_pi_tag_beg_ln sc) line st.
Proof. intros H. unfold process_line. rewrite H. reflexivity. Qed.

Lemma scan_cons (fn line : text) (rest : list text) (sc : Scan) (st : St) :
  scan' fn (line :: rest) sc st
  = match process_line' fn line sc st with
    | (Ok sc', st') => scan' fn rest sc' st'
    | (Raise r, st') => (Raise r, st')
    end.
Proof. reflexivity. Qed.

Lemma input_eq (fn content : text) (st : St) :
  input' fn content st
  = match scan' fn (readlines content) init_scan
            (set_sys_stdout PrintBuffer st) with
    | (Ok sc, st') =>
        (if in_pi_tag sc
         then Raise (XmlError (never_closed (this_pi_tag_beg_ln sc)))
         else Ok tt,
         set_sys_stdout (sys_stdout st) st')
    | (Raise r, st') => (Raise r, set_sys_stdout (sys_stdout st) st')
    end.
Proof.
  unfold input, bind, gets, modify, finally. simpl.
  destruct (scan' fn (readlines content) init_scan _) as [[sc|r] st'];
    [|reflexivity].
  destruct (in_pi_tag sc); reflexivity.
Qed.

(** The same fact, for use in other proofs. *)
Lemma passthrough_input (fn content : text) (st : St) :
  has_opening pi_target content = false ->
  input' fn content st = (Ok tt, set_out (fun o => o ++ content) st).
Proof.
  intros H. rewrite input_eq.
  assert (HF : Forall (fun line => Regex.search_beg pi_target line = None)
                 (readlines content)).
  { apply Forall_forall. intros line Hin. unfold has_opening in H.
    destruct (Regex.search_beg pi_target line) eqn:E; [|reflexivity].
    exfalso. apply not_true_iff_false in H. apply H.
    apply existsb_exists. exists line. rewrite E.
    split; [apply list_elem_of_In, Hin|reflexivity]. }
  destruct (scan_passthrough fn _ HF init_scan
              (set_sys_stdout PrintBuffer st) eq_refl) as [beg ->].
  simpl. rewrite readlines_concat. destruct st; reflexivity.
Qed.

(** An empty document. *)
Lemma input_empty (fn : text) (st : St) : input' fn [] st = (Ok tt, st).
Proof. rewrite input_eq. destruct st; reflexivity. Qed.

(** The malformed-tag diagnostic is raised exactly when the scan reaches
    the end of the document inside a multi-line instruction, and names
    the line on which this instruction began. *)
Lemma input_xml_error_iff (fn content msg : text) (st : St) :
  fst (input' fn content st) = Raise (XmlError msg)
  <-> (exists sc st',
          scan' fn (readlines content) init_scan
            (set_sys_stdout PrintBuffer st) = (Ok sc, st')
          /\ in_pi_tag sc = true
          /\ msg = never_closed (this_pi_tag_beg_ln sc))
      \/ (exists st',
            scan' fn (readlines content) init_scan
              (set_sys_stdout PrintBuffer st) = (Raise (XmlError msg), st')).
Proof.
  rewrite input_eq.
  destruct (scan' fn (readlines content) init_scan _) as [[sc|r] st'] eqn:E.
  - destruct (in_pi_tag sc) eqn:Ein; simpl; split.
    + intros [= <-]. left. eauto.
    + intros [(sc0 & st0 & [= <- <-] & _ & ->)|(st0 & [=])]. reflexivity.
    + discriminate.
    + intros [(sc0 & st0 & [= <- <-] & H & _)|(st0 & [=])]. congruence.
  - simpl. split.
    + intros [= ->]. right. eauto.
    + intros [(sc0 & st0 & [=] & _)|(st0 & [= ->])]. reflexivity.
Qed.

End Facts.

(** ** What a match looks like *)

Module RegexShape.
Import Regex.

Lemma ws_star_shape {A} (k : text -> option (nat * A)) (s : text) (n : nat)
    (a : A) :
  ws_star k s = Some (n, a) ->
  exists ws r m,
    s = ws ++ r /\ Forall (fun c => isspace c = true) ws
    /\ k r = Some (m, a) /\ n = (length ws + m)%nat.
Proof.
  revert n. induction s as [|c s IH]; intros n; simpl.
  - intros H. exists [], [], n. repeat split; [constructor|exact H].
  - destruct (isspace c) eqn:Ec.
    + destruct (ws_star k s) as [[m b]|] eqn:E.
      * intros [= <- <-]. destruct (IH m eq_refl) as (ws & r & m' & -> & Hws & Hk & ->).
        exists (c :: ws), r, m'. repeat split; [constructor; assumption|exact Hk].
      * intros H. exists [], (c :: s), n. repeat split; [constructor|exact H].
    + intros H. exists [], (c :: s), n. repeat split; [constructor|exact H].
Qed.

Lemma target_ws_shape (target s : text) (n : nat) (rest : text) :
  target_ws target s = Some (n, rest) ->
  exists w, s = target ++ w :: rest /\ isspace w = true
            /\ n = S (length target).
Proof.
  unfold target_ws. destruct (starts_with target s) as [[|c r]|] eqn:E;
    try discriminate.
  destruct (isspace c) eqn:Ec; [|discriminate].
  intros [= <- <-]. apply starts_with_Some in E. eauto.
Qed.

(** The opening pattern matches [<?], whitespace, the target and one
    whitespace character, which is the last character of the match. *)
Lemma beg_here_shape (target s : text) (n : nat) :
  beg_here target s = Some n ->
  exists ws w rest,
    s = open_marker ++ ws ++ target ++ w :: rest
    /\ Forall (fun c => isspace c = true) ws /\ isspace w = true
    /\ n = (2 + length ws + length target + 1)%nat.
Proof.
  unfold beg_here.
  destruct (starts_with open_marker s) as [s1|] eqn:E; [|discriminate].
  apply starts_with_Some in E. subst s.
  destruct (ws_star (beg_cont target) s1) as [[m u]|] eqn:Ew; [|discriminate].
  intros [= <-].
  destruct (ws_star_shape _ _ _ _ Ew) as (ws & r & m' & -> & Hws & Hk & ->).
  unfold beg_cont in Hk.
  destruct (target_ws target r) as [[k rest]|] eqn:Et; [|discriminate].
  injection Hk as <-.
  destruct (target_ws_shape _ _ _ _ Et) as (w & -> & Hw & ->).
  exists ws, w, rest. repeat split; [assumption..|lia].
Qed.

(** The group of the lazy body is not empty, holds no newline, is
    followed by the closing marker, and no closing marker starts at any
    of its characters but possibly the first. *)
Lemma lazy_body_shape (s g : text) :
  lazy_body s = Some g ->
  exists rest,
    s = g ++ close_marker ++ rest /\ g <> [] /\ (newline ∉ g)
    /\ forall j, (1 <= j < length g)%nat ->
                 starts_with close_marker (drop j s) = None.
Proof.
  revert g. induction s as [|c s IH]; intros g; cbn [lazy_body];
    [discriminate|].
  destruct (ascii_eqb c newline) eqn:Ec; [discriminate|].
  apply ascii_eqb_neq in Ec.
  destruct (starts_with close_marker s) as [rest|] eqn:E.
  - intros [= <-]. apply starts_with_Some in E. subst s.
    exists rest. repeat split; [discriminate| |simpl; intros j Hj; lia].
    intros Hin. apply list_elem_of_singleton in Hin. congruence.
  - destruct (lazy_body s) as [g'|]; [|discriminate].
    intros [= <-]. destruct (IH g' eq_refl) as (rest & -> & Hne & Hnl & Hfirst).
    exists rest. repeat split; [discriminate| |].
    + intros Hin. apply elem_of_cons in Hin as [Hin|Hin]; [congruence|tauto].
    + intros j Hj. destruct j as [|j]; [lia|]. simpl.
      destruct j as [|j]; [exact E|]. apply Hfirst. simpl in Hj. lia.
Qed.

Lemma tag_here_shape (target s : text) (n : nat) (g : text) :
  tag_here target s = Some (n, g) ->
  exists ws w rest,
    s = open_marker ++ ws ++ target ++ w :: g ++ close_marker ++ rest
    /\ Forall (fun c => isspace c = true) ws /\ isspace w = true
    /\ n = (2 + length ws + length target + 1 + length g + 2)%nat
    /\ lazy_body (g ++ close_marker ++ rest) = Some g.
Proof.
  unfold tag_here.
  destruct (starts_with open_marker s) as [s1|] eqn:E; [|discriminate].
  apply starts_with_Some in E. subst s.
  destruct (ws_star (tag_cont target) s1) as [[m u]|] eqn:Ew; [|discriminate].
  intros [= <- <-].
  destruct (ws_star_shape _ _ _ _ Ew) as (ws & r & m' & -> & Hws & Hk & ->).
  unfold tag_cont in Hk.
  destruct (target_ws target r) as [[k rest]|] eqn:Et; [|discriminate].
  destruct (lazy_body rest) as [g|] eqn:El; [|discriminate].
  injection Hk as <- <-.
  destruct (target_ws_shape _ _ _ _ Et) as (w & -> & Hw & ->).
  destruct (lazy_body_shape _ _ El) as (rest' & -> & _).
  exists ws, w, rest'. repeat split; [assumption..|lia|exact El].
Qed.

Lemma search_beg_from_shape (target : text) (i : nat) (s : text)
    (a b : nat) :
  search_beg_from target i s = Some (a, b) ->
  exists j n,
    a = (i + j)%nat /\ b = (a + n)%nat /\ (j <= length s)%nat
    /\ beg_here target (drop j s) = Some n.
Proof.
  revert i. induction s as [|c s IH]; intros i; cbn [search_beg_from].
  - destruct (beg_here target []) as [n|] eqn:E; [|discriminate].
    intros [= <- <-]. exists 0%nat, n.
    split; [lia|]. split; [lia|]. split; [simpl; lia|]. exact E.
  - destruct (beg_here target (c :: s)) as [n|] eqn:E.
    + intros [= <- <-]. exists 0%nat, n.
      split; [lia|]. split; [lia|]. split; [simpl; lia|]. exact E.
    + intros H. destruct (IH _ H) as (j & n & -> & -> & Hj & Hb).
      exists (S j), n.
      split; [lia|]. split; [lia|]. split; [simpl; lia|]. exact Hb.
Qed.

(** The character before the end of a match of the opening pattern is
    a whitespace character: the assertion of the scanner holds. *)
Lemma search_beg_last (target s : text) (m_start m_end : nat) :
  search_beg target s = Some (m_start, m_end) ->
  exists w, s !! (m_end - 1)%nat = Some w /\ isspace w = true
            /\ (m_start + 2 + length target < m_end)%nat
            /\ is_Some (starts_with open_marker (drop m_start s)).
Proof.
  intros H. destruct (search_beg_from_shape _ _ _ _ _ H)
    as (j & n & -> & -> & Hj & Hb).
  destruct (beg_here_shape _ _ _ Hb) as (ws & w & rest & Hs & Hws & Hw & ->).
  assert (Hopen : is_Some (starts_with open_marker (drop (0 + j) s))).
  { change (0 + j)%nat with j. rewrite Hs, starts_with_app. eauto. }
  assert (Hl : length (take j s) = j) by (rewrite length_take; lia).
  assert (Hsplit : s = take j s ++ (open_marker ++ ws ++ target) ++ w :: rest).
  { rewrite <- !app_assoc. rewrite <- Hs. symmetry. apply take_drop. }
  exists w. split; [|split; [exact Hw|split; [lia|exact Hopen]]].
  rewrite Hsplit. rewrite lookup_app_r by (rewrite Hl; lia). rewrite Hl.
  replace (0 + j + (2 + length ws + length target + 1) - 1 - j)%nat
    with (length (open_marker ++ ws ++ target))
    by (rewrite !length_app; simpl; lia).
  apply list_lookup_middle. reflexivity.
Qed.

End RegexShape.

(** ** Concrete documents, for any interpreter *)

Section Scenarios.
Context {value label code : Type}.
Variable ast_parse : text -> text -> SyntaxError + ast label.
Variable py_compile : ast label -> text -> PyExc + code.
Variable py_exec :
  code -> gmap string value -> text * gmap string value * option PyExc.
Variable read_file : text -> option text.

Local Abbreviation St := (@State value).
Local Abbreviation input' :=
  (input ast_parse py_compile py_exec read_file (str "py")).
Local Abbreviation runs := (snippet_runs ast_parse py_compile py_exec).



(** C4, at the input [<?py ?>]: the tag is closed on its line, and yet
    the document is rejected as holding an instruction that was never
    closed; no snippet is evaluated and nothing is written. *)
Theorem empty_tag_reported_unclosed (fn : text) (st : St) :
  exists st',
    input' fn (str "<?py ?>") st
    = (Raise (XmlError
                (str "processing instruction starting from line 1 was never closed")),
       st')
    /\ out_stream st' = out_stream st.
Proof.
  rewrite input_eq.
  change (readlines _) with [str "<?py ?>"].
  rewrite scan_cons, process_line_outside by reflexivity.
  erewrite scan_tags_opened; cycle 1.
  - vm_compute. eauto.
  - apply sub_tag_no_match.
    intros j. do 8 (destruct j as [|j]; [vm_compute; reflexivity|]).
    reflexivity.
  - vm_compute. reflexivity.
  - vm_compute. reflexivity.
  - vm_compute. reflexivity.
  - simpl. eexists. split; [reflexivity|]. simpl.
    rewrite app_nil_r. reflexivity.
Qed.

End Scenarios.

(** C8, at the line [<?py ?>x?>]: the closing marker that follows the
    opening at once is not taken as the end of the tag; the group handed
    to the interpreter is [?>x] and runs up to the second marker. *)
Theorem close_marker_right_after_opening :
  Regex.tag_here (str "py") (str "<?py ?>x?>") = Some (10%nat, str "?>x")
  /\ forall (value : Type) (repl : text -> @M value text) (st : State),
       sub_tag (str "py") repl 0 (str "<?py ?>x?>") st
       = bind (repl (str "?>x")) (fun r => ret (r ++ [])) st.
Proof.
  split; [vm_compute; reflexivity|].
  intros value repl st.
  rewrite (sub_tag_match (str "py") repl _ 10 (str "?>x"))
    by (vm_compute; reflexivity).
  reflexivity.
Qed.

(** ** Diagnostics and multi-line instructions *)

Section Diagnostics.
Context {value label code : Type}.
Variable ast_parse : text -> text -> SyntaxError + ast label.
Variable py_compile : ast label -> text -> PyExc + code.
Variable py_exec :
  code -> gmap string value -> text * gmap string value * option PyExc.
Variable read_file : text -> option text.
Variable pi_target : text.

Local Abbreviation St := (@State value).
Local Abbreviation exec_py' :=
  (exec_py ast_parse py_compile py_exec read_file).
Local Abbreviation exec_and_dump' :=
  (exec_and_dump ast_parse py_compile py_exec read_file).
Local Abbreviation scan_tags' :=
  (scan_tags ast_parse py_compile py_exec read_file pi_target).
Local Abbreviation process_line' :=
  (process_line ast_parse py_compile py_exec read_file pi_target).
Local Abbreviation scan' :=
  (scan ast_parse py_compile py_exec read_file pi_target).
Local Abbreviation input' :=
  (input ast_parse py_compile py_exec read_file pi_target).

(** The handler of [SyntaxError] adds the offset to the line. *)
Lemma shift_syntax_error_lineno (e : SyntaxError) (fn : text) (off n : Z) :
  se_lineno e = Int n ->
  se_end_lineno e <> NotInt ->
  exists e', shift_syntax_error read_file e fn off = Ok e'
             /\ se_lineno e' = Int (n + off).
Proof.
  intros Hn Hend. unfold shift_syntax_error. rewrite Hn.
  destruct (se_end_lineno e) as [| |m]; [|congruence|]; cbn [se_text];
    destruct (se_text e); try (eexists; split; reflexivity);
    destruct (read_file fn); try (eexists; split; reflexivity);
    destruct (lookup_line _ _); eexists; split; reflexivity.
Qed.

Lemma exec_and_dump_raise (fn : text) (ln : Z) (src : source) (b : bool)
    (r : raised) (st st1 : St) :
  exec_py' src fn ln (set_print_buffer SIO.clear st) = (Raise r, st1) ->
  exec_and_dump' fn ln src b st = (Raise r, st1).
Proof.
  intros E. unfold exec_and_dump, bind, modify. rewrite E.
  reflexivity.
Qed.

Lemma scan_app (fn : text) (l1 l2 : list text) (sc : Scan) (st : St) :
  scan' fn (l1 ++ l2) sc st
  = match scan' fn l1 sc st with
    | (Ok sc', st') => scan' fn l2 sc' st'
    | (Raise r, st') => (Raise r, st')
    end.
Proof.
  revert sc st. induction l1 as [|l l1 IH]; intros sc st; [reflexivity|].
  simpl. unfold bind.
  destruct (process_line' fn l sc st) as [[sc'|r] st']; [|reflexivity].
  apply IH.
Qed.

Lemma sio_write_end (d s : text) :
  SIO.write {| sio_data := d; sio_pos := length d |} s
  = {| sio_data := d ++ s; sio_pos := length (d ++ s) |}.
Proof.
  unfold SIO.write. simpl.
  rewrite take_ge by lia. rewrite Nat.sub_diag. simpl.
  rewrite drop_ge by lia. rewrite app_nil_r, length_app. reflexivity.
Qed.

(** Inside a multi-line instruction, lines without the closing marker
    are appended to the code buffer and nothing else happens. *)
Lemma scan_body (fn : text) (body : list text) :
  Forall (fun l => find Regex.close_marker l = None) body ->
  forall (sc : Scan) (st : St) (d : text),
    in_pi_tag sc = true ->
    code_buffer st = {| sio_data := d; sio_pos := length d |} ->
    scan' fn body sc st
    = (Ok {| line_num := line_num sc + Z.of_nat (length body);
             in_pi_tag := true;
             this_pi_tag_beg_ln := this_pi_tag_beg_ln sc |},
       set_code_buffer
         (fun _ => {| sio_data := d ++ concat body;
                      sio_pos := length (d ++ concat body) |}) st).
Proof.
  induction 1 as [|l body Hl _ IH]; intros sc st d Hin Hcb.
  - simpl. unfold ret. rewrite app_nil_r, Z.add_0_r. f_equal.
    + destruct sc; simpl in *; subst; reflexivity.
    + destruct st; simpl in *; subst; reflexivity.
  - rewrite scan_cons. unfold process_line. rewrite Hin, Hl.
    unfold bind, modify, ret.
    erewrite (IH _ _ (d ++ l)); [|reflexivity|].
    + simpl. f_equal; [do 2 f_equal; lia|].
      unfold set_code_buffer. simpl. rewrite <- app_assoc. reflexivity.
    + simpl. rewrite Hcb. apply sio_write_end.
Qed.

Lemma sub_tag_skip_raise (repl : text -> @M value text) (u v : text)
    (e : raised) (st st' : St) :
  (forall j, (j < length u)%nat ->
             Regex.tag_here pi_target (drop j (u ++ v)) = None) ->
  sub_tag pi_target repl 0 v st = (Raise e, st') ->
  sub_tag pi_target repl 0 (u ++ v) st = (Raise e, st').
Proof.
  intros H E. rewrite sub_tag_skip by exact H. unfold bind. rewrite E.
  reflexivity.
Qed.

(** A snippet that parses and that [compile] rejects: the exception of
    [compile] leaves [exec_py] as it is, whatever its class. *)
Lemma exec_py_compile_error (src : source) (s fn : text) (ln : Z)
    (t t' : ast label) (e : PyExc) (st st1 : St) :
  read_source src st = (Ok s, st1) ->
  1 <= ln ->
  ast_parse s fn = inr t ->
  shifted_tree ln t = Some t' ->
  py_compile t' fn = inl e ->
  exec_py' src fn ln st = (Raise (Uncaught e), st1).
Proof.
  intros Hr Hln Hp Hs Hc.
  unfold exec_py, bind. rewrite Hr.
  replace (0 <=? ln - 1) with true by (symmetry; apply Z.leb_le; lia).
  simpl. rewrite Hp. unfold shifted_tree in Hs.
  destruct (ln - 1 =? 0).
  - injection Hs as ->. unfold ret. rewrite Hc. reflexivity.
  - rewrite Hs. unfold ret. rewrite Hc. reflexivity.
Qed.

(** The scan counts the lines. *)
Lemma scan_tags_line_num (fn : text) (ln : Z) (b : bool) (beg : Z)
    (line : text) (st st' : St) (sc' : Scan) :
  scan_tags' fn ln b beg line st = (Ok sc', st') -> line_num sc' = ln.
Proof.
  unfold scan_tags. destruct (find Regex.open_marker line).
  - unfold bind at 1.
    destruct (sub_tag _ _ _ line st) as [[line1|r] st1]; [|discriminate].
    destruct (Regex.search_beg pi_target line1) as [[m_start m_end]|].
    + destruct (line1 !! (m_end - 1)%nat) as [c|]; [|discriminate].
      destruct (isspace c); [|discriminate].
      unfold bind, modify, ret. intros [= <- _]. reflexivity.
    + unfold bind, modify, ret. intros [= <- _]. reflexivity.
  - unfold bind, modify, ret. intros [= <- _]. reflexivity.
Qed.

Lemma process_line_line_num (fn line : text) (sc sc' : Scan) (st st' : St) :
  process_line' fn line sc st = (Ok sc', st') ->
  line_num sc' = line_num sc + 1.
Proof.
  unfold process_line. destruct (in_pi_tag sc).
  - destruct (find Regex.close_marker line).
    + unfold bind, modify.
      destruct (exec_and_dump' fn _ SrcCodeBuffer true _) as [[o|r] st1];
        [|discriminate].
      apply scan_tags_line_num.
    + unfold bind, modify, ret. intros [= <- _]. reflexivity.
  - apply scan_tags_line_num.
Qed.

Lemma scan_line_num (fn : text) (lines : list text) :
  forall (sc sc' : Scan) (st st' : St),
    scan' fn lines sc st = (Ok sc', st') ->
    line_num sc' = line_num sc + Z.of_nat (length lines).
Proof.
  induction lines as [|l lines IH]; intros sc sc' st st'.
  - cbn [scan]. unfold ret. intros [= <- _]. simpl. lia.
  - rewrite scan_cons.
    destruct (process_line' fn l sc st) as [[sc1|r] st1] eqn:E;
      [|discriminate].
    intros H. apply IH in H. apply process_line_line_num in E.
    rewrite H, E. cbn [length]. lia.
Qed.

(** A tag whose evaluation fails, anywhere in a document.  The lines
    [pre] before the line of the tag have been processed, whatever they
    hold, and the scan is outside a multi-line instruction; the tag is
    the first single-line tag of the next line, or is opened on it and
    closed on a later line.  Then the exception that [exec_py] raises for
    the snippet, evaluated as starting on the line after [pre], ends
    [input]. *)
Lemma raise_in_tag (fn content : text) (st st1 : St) (sc1 : Scan)
    (pre rest : list text) (r : raised) :
  scan' fn pre init_scan (set_sys_stdout PrintBuffer st) = (Ok sc1, st1) ->
  in_pi_tag sc1 = false ->
  (forall (u v : text) (k : nat) (g : text) (st2 : St),
      readlines content = pre ++ (u ++ v) :: rest ->
      (forall j, (j < length u)%nat ->
                 Regex.tag_here pi_target (drop j (u ++ v)) = None) ->
      Regex.tag_here pi_target v = Some (k, g) ->
      exec_py' (SrcStr g) fn (Z.of_nat (length pre) + 1)
        (set_print_buffer SIO.clear st1) = (Raise r, st2) ->
      fst (input' fn content st) = Raise r)
  /\ (forall (opening : text) (body : list text) (closing : text)
             (m_start m_end p : nat),
        readlines content = pre ++ opening :: body ++ closing :: rest ->
        (forall j, Regex.tag_here pi_target (drop j opening) = None) ->
        Regex.search_beg pi_target opening = Some (m_start, m_end) ->
        Forall (fun l => find Regex.close_marker l = None) body ->
        find Regex.close_marker closing = Some p ->
        (forall st2 : St,
            code_buffer st2
            = {| sio_data := drop (m_end - 1) opening ++ concat body
                             ++ take p closing;
                 sio_pos := 0 |} ->
            exists st3,
              exec_py' SrcCodeBuffer fn (Z.of_nat (length pre) + 1) st2
              = (Raise r, st3)) ->
        fst (input' fn content st) = Raise r).
Proof.
  intros Epre Hin.
  pose proof (scan_line_num _ _ _ _ _ _ Epre) as Hln.
  cbn [line_num init_scan] in Hln. rewrite Z.add_0_l in Hln.
  split.
  - intros u v k g st2 Hlines Hu Hv He.
    rewrite input_eq, Hlines, scan_app, Epre.
    rewrite scan_cons, process_line_outside by exact Hin. rewrite Hln.
    erewrite scan_tags_raise; [reflexivity| |].
    + apply find_Some_iff. exists (length u). rewrite drop_app_length.
      destruct (RegexShape.tag_here_shape _ _ _ _ Hv)
        as (ws & w & r0 & -> & _).
      rewrite starts_with_app. eauto.
    + apply sub_tag_skip_raise; [exact Hu|].
      eapply sub_tag_match_raise; [exact Hv|].
      apply repl_at_raise. apply exec_and_dump_raise. exact He.
  - intros opening body closing m_start m_end p Hlines Hno Hsb Hbody Hcl He.
    rewrite input_eq, Hlines, scan_app, Epre.
    rewrite scan_cons, process_line_outside by exact Hin. rewrite Hln.
    destruct (RegexShape.search_beg_last _ _ _ _ Hsb)
      as (w & Hw & Hsp & _ & Hopen).
    erewrite scan_tags_opened; cycle 1.
    + apply find_Some_iff. exists m_start. exact Hopen.
    + apply sub_tag_no_match. exact Hno.
    + exact Hsb.
    + exact Hw.
    + exact Hsp.
    + rewrite scan_app.
      erewrite scan_body; [|exact Hbody|reflexivity|reflexivity].
      rewrite scan_cons.
      unfold process_line. cbn [in_pi_tag this_pi_tag_beg_ln line_num].
      rewrite Hcl. unfold bind, modify.
      match goal with
      | |- context [exec_and_dump' fn ?l SrcCodeBuffer true ?s] =>
          destruct (He (set_print_buffer SIO.clear s)) as [st3 E3]
      end.
      * unfold set_print_buffer, set_code_buffer. cbn [code_buffer].
        rewrite sio_write_end. unfold SIO.seek0. cbn [sio_data].
        rewrite <- app_assoc. reflexivity.
      * erewrite exec_and_dump_raise; [reflexivity|exact E3].
Qed.

(** The diagnostic for a snippet that does not parse is the same
    whatever the state and the kind of source. *)
Lemma exec_py_syntax_error_any (s fn : text) (ln n : Z) (e : SyntaxError) :
  1 <= ln ->
  ast_parse s fn = inl e ->
  se_lineno e = Int n ->
  se_end_lineno e <> NotInt ->
  exists e',
    se_lineno e' = Int (ln + n - 1)
    /\ forall (src : source) (st st1 : St),
         read_source src st = (Ok s, st1) ->
         exec_py' src fn ln st
         = (Raise (PythonError (ExcSyntaxError e')), st1).
Proof.
  intros Hln Hp Hn Hend.
  destruct (ln - 1 =? 0) eqn:E0.
  - exists e. split.
    + apply Z.eqb_eq in E0. rewrite Hn. f_equal. lia.
    + intros src st st1 Hr. unfold exec_py, bind. rewrite Hr.
      replace (0 <=? ln - 1) with true by (symmetry; apply Z.leb_le; lia).
      cbn [negb]. rewrite Hp, E0. reflexivity.
  - destruct (shift_syntax_error_lineno e fn (ln - 1) n Hn Hend)
      as (e' & Es & He').
    exists e'. split.
    + rewrite He'. f_equal. lia.
    + intros src st st1 Hr. unfold exec_py, bind. rewrite Hr.
      replace (0 <=? ln - 1) with true by (symmetry; apply Z.leb_le; lia).
      cbn [negb]. rewrite Hp, E0, Es. reflexivity.
Qed.

(** X20. Syntax errors raised by the parser, for a tag on any line of a
    document.  The lines [pre] before line [L] have been processed,
    whatever tags they hold, and the scan is outside a multi-line
    instruction; the tag is the first single-line tag of line [L], or is
    opened on line [L] (after no single-line tag) and closed on a later
    line.  Its snippet does not parse, the parser placing the error on
    line [n] of the snippet (and, as the program asserts, giving the
    error an integer end line or none).  Then processing the document
    raises the script diagnostic for that syntax error, with line
    [L + n - 1]. *)
Theorem syntax_error_in_tag (fn content : text) (st st1 : St) (sc1 : Scan)
    (pre rest : list text) (e : SyntaxError) (n : Z) :
  scan' fn pre init_scan (set_sys_stdout PrintBuffer st) = (Ok sc1, st1) ->
  in_pi_tag sc1 = false ->
  se_lineno e = Int n ->
  se_end_lineno e <> NotInt ->
  (forall (u v : text) (k : nat) (g : text),
      readlines content = pre ++ (u ++ v) :: rest ->
      (forall j, (j < length u)%nat ->
                 Regex.tag_here pi_target (drop j (u ++ v)) = None) ->
      Regex.tag_here pi_target v = Some (k, g) ->
      ast_parse g fn = inl e ->
      exists e',
        fst (input' fn content st) = Raise (PythonError (ExcSyntaxError e'))
        /\ se_lineno e' = Int (Z.of_nat (length pre) + 1 + n - 1))
  /\ (forall (opening : text) (body : list text) (closing : text)
             (m_start m_end p : nat),
        readlines content = pre ++ opening :: body ++ closing :: rest ->
        (forall j, Regex.tag_here pi_target (drop j opening) = None) ->
        Regex.search_beg pi_target opening = Some (m_start, m_end) ->
        Forall (fun l => find Regex.close_marker l = None) body ->
        find Regex.close_marker closing = Some p ->
        ast_parse (drop (m_end - 1) opening ++ concat body ++ take p closing)
                  fn = inl e ->
        exists e',
          fst (input' fn content st)
          = Raise (PythonError (ExcSyntaxError e'))
          /\ se_lineno e' = Int (Z.of_nat (length pre) + 1 + n - 1)).
Proof.
  intros Epre Hin Hn Hend. split.
  - intros u v k g Hlines Hu Hv Hparse.
    destruct (exec_py_syntax_error_any g fn (Z.of_nat (length pre) + 1) n e
                ltac:(lia) Hparse Hn Hend) as (e' & Hl & He').
    exists e'. split; [|exact Hl].
    eapply (proj1 (raise_in_tag fn content st st1 sc1 pre rest _ Epre Hin));
      try eassumption.
    apply He'. reflexivity.
  - intros opening body closing m_start m_end p Hlines Hno Hsb Hbody Hcl
      Hparse.
    destruct (exec_py_syntax_error_any _ fn (Z.of_nat (length pre) + 1) n e
                ltac:(lia) Hparse Hn Hend) as (e' & Hl & He').
    exists e'. split; [|exact Hl].
    eapply (proj2 (raise_in_tag fn content st st1 sc1 pre rest _ Epre Hin)
              opening body closing m_start m_end p);
      try eassumption.
    intros st2 Hcb. eexists. apply He'.
    unfold read_source. rewrite Hcb. unfold SIO.read.
    cbn [sio_data sio_pos]. rewrite drop_0. reflexivity.
Qed.

(** Syntax errors raised by [compile], for a tag anywhere in a document:
    a snippet that the parser accepts and [compile] rejects with the
    exception [e].  Processing the document raises [e] itself and no
    script diagnostic, for a single-line tag and for a tag that spans
    several lines. *)
Lemma compile_error_in_tag (fn content : text) (st st1 : St) (sc1 : Scan)
    (pre rest : list text) (e : PyExc) (t t' : ast label) :
  scan' fn pre init_scan (set_sys_stdout PrintBuffer st) = (Ok sc1, st1) ->
  in_pi_tag sc1 = false ->
  shifted_tree (Z.of_nat (length pre) + 1) t = Some t' ->
  py_compile t' fn = inl e ->
  (forall (u v : text) (k : nat) (g : text),
      readlines content = pre ++ (u ++ v) :: rest ->
      (forall j, (j < length u)%nat ->
                 Regex.tag_here pi_target (drop j (u ++ v)) = None) ->
      Regex.tag_here pi_target v = Some (k, g) ->
      ast_parse g fn = inr t ->
      fst (input' fn content st) = Raise (Uncaught e))
  /\ (forall (opening : text) (body : list text) (closing : text)
             (m_start m_end p : nat),
        readlines content = pre ++ opening :: body ++ closing :: rest ->
        (forall j, Regex.tag_here pi_target (drop j opening) = None) ->
        Regex.search_beg pi_target opening = Some (m_start, m_end) ->
        Forall (fun l => find Regex.close_marker l = None) body ->
        find Regex.close_marker closing = Some p ->
        ast_parse (drop (m_end - 1) opening ++ concat body ++ take p closing)
                  fn = inr t ->
        fst (input' fn content st) = Raise (Uncaught e)).
Proof.
  intros Epre Hin Hs Hc. split.
  - intros u v k g Hlines Hu Hv Hparse.
    eapply (proj1 (raise_in_tag fn content st st1 sc1 pre rest _ Epre Hin));
      try eassumption.
    eapply exec_py_compile_error;
      [reflexivity|lia|exact Hparse|exact Hs|exact Hc].
  - intros opening body closing m_start m_end p Hlines Hno Hsb Hbody Hcl
      Hparse.
    eapply (proj2 (raise_in_tag fn content st st1 sc1 pre rest _ Epre Hin)
              opening body closing m_start m_end p);
      try eassumption.
    intros st2 Hcb. eexists.
    eapply exec_py_compile_error; [|lia|exact Hparse|exact Hs|exact Hc].
    unfold read_source. rewrite Hcb. unfold SIO.read.
    cbn [sio_data sio_pos]. rewrite drop_0. reflexivity.
Qed.

End Diagnostics.

(** ** Pre-execution snippets *)

Section PreExecution.
Context {value label code : Type}.
Variable ast_parse : text -> text -> SyntaxError + ast label.
Variable py_compile : ast label -> text -> PyExc + code.
Variable py_exec :
  code -> gmap string value -> text * gmap string value * option PyExc.
Variable read_file : text -> option text.
Variable pi_target : text.

Local Abbreviation main' :=
  (main ast_parse py_compile py_exec read_file pi_target).


End PreExecution.

(** ** Whitespace between the opening marker and the target *)

Module RegexWs.
Import Regex.

Lemma plain_target_head (target : text) :
  plain_target target = true ->
  exists c t', target = c :: t' /\ isspace c = false.
Proof.
  unfold plain_target. destruct target as [|c t']; [discriminate|].
  intros H. apply andb_prop in H as [H _]. apply negb_true_iff in H. eauto.
Qed.

Lemma plain_target_no_lt (target : text) (c : ascii) :
  plain_target target = true -> c ∈ target -> c <> "<"%char.
Proof.
  unfold plain_target. intros H Hin. apply andb_prop in H as [_ H].
  rewrite forallb_forall in H. apply list_elem_of_In in Hin.
  specialize (H c Hin). apply negb_true_iff, ascii_eqb_neq in H. exact H.
Qed.

Lemma isspace_not_lt (c : ascii) : isspace c = true -> c <> "<"%char.
Proof. intros H ->. vm_compute in H. discriminate. Qed.

(** The target cannot start at a whitespace character. *)
Lemma target_ws_at_space (target : text) (w : ascii) (u : text) :
  plain_target target = true -> isspace w = true ->
  target_ws target (w :: u) = None.
Proof.
  intros Ht Hw. destruct (plain_target_head _ Ht) as (c & t' & -> & Hc).
  unfold target_ws. cbn [starts_with].
  destruct (ascii_eqb c w) eqn:E; [|reflexivity].
  apply ascii_eqb_eq in E. congruence.
Qed.

(** [\s*] before something that cannot start at whitespace and fails
    there consumes the whole run of whitespace. *)
Lemma ws_star_run {A} (k : text -> option (nat * A)) (ws r : text) :
  Forall (fun c => isspace c = true) ws ->
  (forall w u, isspace w = true -> k (w :: u) = None) ->
  (forall c r', r = c :: r' -> isspace c = false) ->
  ws_star k (ws ++ r)
  = match k r with
    | Some (n, a) => Some ((length ws + n)%nat, a)
    | None => None
    end.
Proof.
  intros Hws Hk Hr. induction Hws as [|w ws Hw _ IH]; simpl.
  - destruct r as [|c r']; simpl.
    + destruct (k []) as [[n a]|]; reflexivity.
    + rewrite (Hr c r' eq_refl). destruct (k (c :: r')) as [[n a]|];
        reflexivity.
  - rewrite Hw, IH. destruct (k r) as [[n a]|]; [reflexivity|].
    apply Hk, Hw.
Qed.

Lemma tag_cont_at_space (target : text) (w : ascii) (u : text) :
  plain_target target = true -> isspace w = true ->
  tag_cont target (w :: u) = None.
Proof.
  intros Ht Hw. unfold tag_cont. rewrite target_ws_at_space by assumption.
  reflexivity.
Qed.

Lemma beg_cont_at_space (target : text) (w : ascii) (u : text) :
  plain_target target = true -> isspace w = true ->
  beg_cont target (w :: u) = None.
Proof.
  intros Ht Hw. unfold beg_cont. rewrite target_ws_at_space by assumption.
  reflexivity.
Qed.

(** The whole-tag pattern on [<?], whitespace, target: the whitespace
    only adds to the length of the match. *)
Lemma tag_here_ws (target ws r : text) :
  plain_target target = true ->
  Forall (fun c => isspace c = true) ws ->
  tag_here target (open_marker ++ ws ++ target ++ r)
  = match tag_cont target (target ++ r) with
    | Some (m, g) => Some ((2 + (length ws + m))%nat, g)
    | None => None
    end.
Proof.
  intros Ht Hws. unfold tag_here. rewrite starts_with_app.
  rewrite ws_star_run; [|exact Hws| |].
  - destruct (tag_cont target (target ++ r)) as [[m g]|]; reflexivity.
  - intros w u Hw. apply tag_cont_at_space; assumption.
  - intros c r' E. destruct (plain_target_head _ Ht) as (c0 & t' & -> & Hc).
    injection E as <- _. exact Hc.
Qed.

Lemma beg_here_ws (target ws r : text) :
  plain_target target = true ->
  Forall (fun c => isspace c = true) ws ->
  beg_here target (open_marker ++ ws ++ target ++ r)
  = match beg_cont target (target ++ r) with
    | Some (m, _) => Some (2 + (length ws + m))%nat
    | None => None
    end.
Proof.
  intros Ht Hws. unfold beg_here. rewrite starts_with_app.
  rewrite ws_star_run; [|exact Hws| |].
  - destruct (beg_cont target (target ++ r)) as [[m g]|]; reflexivity.
  - intros w u Hw. apply beg_cont_at_space; assumption.
  - intros c r' E. destruct (plain_target_head _ Ht) as (c0 & t' & -> & Hc).
    injection E as <- _. exact Hc.
Qed.

(** No match starts at a character other than [<]. *)
Lemma tag_here_not_lt (target : text) (c : ascii) (s : text) :
  c <> "<"%char -> tag_here target (c :: s) = None.
Proof.
  intros H. unfold tag_here, open_marker.
  change (str "<?") with ["<"%char; "?"%char].
  rewrite starts_with_None_head by congruence. reflexivity.
Qed.

Lemma beg_here_not_lt (target : text) (c : ascii) (s : text) :
  c <> "<"%char -> beg_here target (c :: s) = None.
Proof.
  intros H. unfold beg_here, open_marker.
  change (str "<?") with ["<"%char; "?"%char].
  rewrite starts_with_None_head by congruence. reflexivity.
Qed.

Lemma tag_here_in_prefix (target u v : text) :
  Forall (fun c => c <> "<"%char) u ->
  forall j, (j < length u)%nat -> tag_here target (drop j (u ++ v)) = None.
Proof.
  intros Hu. induction Hu as [|c u Hc _ IH]; intros j Hj; simpl in Hj;
    [lia|].
  destruct j as [|j]; simpl.
  - apply tag_here_not_lt, Hc.
  - apply IH. lia.
Qed.

Lemma search_beg_from_prefix (target u v : text) (i : nat) :
  Forall (fun c => c <> "<"%char) u ->
  search_beg_from target i (u ++ v)
  = search_beg_from target (i + length u) v.
Proof.
  intros Hu. revert i. induction Hu as [|c u Hc _ IH]; intros i.
  - simpl. rewrite Nat.add_0_r. reflexivity.
  - change ((c :: u) ++ v) with (c :: (u ++ v)). cbn [search_beg_from].
    rewrite beg_here_not_lt by exact Hc. rewrite IH. f_equal. simpl. lia.
Qed.

(** The opening marker starts nowhere in a text that does not hold it
    and that is followed by the marker itself. *)
Lemma open_marker_in_prefix (pre z : text) :
  find open_marker pre = None ->
  forall j, (j < length pre)%nat ->
    starts_with open_marker (drop j (pre ++ open_marker ++ z)) = None.
Proof.
  induction pre as [|c pre IH]; intros Hf j Hj; simpl in Hj; [lia|].
  cbn [find] in Hf.
  destruct (starts_with open_marker (c :: pre)) eqn:E; [discriminate|].
  destruct (find open_marker pre) eqn:F; [discriminate|].
  destruct j as [|j].
  - rewrite drop_0. clear IH F Hf Hj. unfold open_marker in *.
    change (str "<?") with ["<"%char; "?"%char] in *.
    change ((c :: pre) ++ ["<"%char; "?"%char] ++ z)
      with (c :: (pre ++ "<"%char :: "?"%char :: z)).
    cbn [starts_with] in *.
    destruct (ascii_eqb "<" c); [|reflexivity].
    destruct pre as [|d pre]; [reflexivity|].
    cbn [app]. destruct (ascii_eqb "?" d); [discriminate|reflexivity].
  - change (drop (S j) ((c :: pre) ++ open_marker ++ z))
      with (drop j (pre ++ open_marker ++ z)).
    apply IH; [reflexivity|lia].
Qed.

Lemma tag_here_in_plain_prefix (target pre z : text) :
  find open_marker pre = None ->
  forall j, (j < length pre)%nat ->
    tag_here target (drop j (pre ++ open_marker ++ z)) = None.
Proof.
  intros Hf j Hj. unfold tag_here.
  rewrite open_marker_in_prefix by assumption. reflexivity.
Qed.

Lemma beg_here_in_plain_prefix (target pre z : text) :
  find open_marker pre = None ->
  forall j, (j < length pre)%nat ->
    beg_here target (drop j (pre ++ open_marker ++ z)) = None.
Proof.
  intros Hf j Hj. unfold beg_here.
  rewrite open_marker_in_prefix by assumption. reflexivity.
Qed.

Lemma search_beg_from_plain_prefix (target pre z : text) (i : nat) :
  find open_marker pre = None ->
  search_beg_from target i (pre ++ open_marker ++ z)
  = search_beg_from target (i + length pre) (open_marker ++ z).
Proof.
  revert i. induction pre as [|c pre IH]; intros i Hf.
  - simpl. rewrite Nat.add_0_r. reflexivity.
  - pose proof (beg_here_in_plain_prefix target (c :: pre) z Hf 0%nat
                  ltac:(simpl; lia)) as H0.
    rewrite drop_0 in H0.
    change ((c :: pre) ++ open_marker ++ z)
      with (c :: (pre ++ open_marker ++ z)) in *.
    cbn [search_beg_from]. rewrite H0. rewrite IH.
    + f_equal. simpl. lia.
    + cbn [find] in Hf.
      destruct (starts_with open_marker (c :: pre)); [discriminate|].
      destruct (find open_marker pre); [discriminate|reflexivity].
Qed.

End RegexWs.

Module RegexTag.
Import Regex.

(** The lazy body stops at the first closing marker that follows at
    least one character. *)
Lemma lazy_body_complete (body rest : text) :
  body <> [] ->
  newline ∉ body ->
  (forall j, (1 <= j < length body)%nat ->
             starts_with close_marker (drop j (body ++ close_marker ++ rest))
             = None) ->
  lazy_body (body ++ close_marker ++ rest) = Some body.
Proof.
  induction body as [|c body IH]; intros Hne Hnl Hfirst; [congruence|].
  change ((c :: body) ++ close_marker ++ rest)
    with (c :: (body ++ close_marker ++ rest)).
  cbn [lazy_body].
  assert (Hc : ascii_eqb c newline = false).
  { apply ascii_eqb_neq. intros ->. apply Hnl. left. }
  rewrite Hc. destruct body as [|d body].
  - cbn [app]. rewrite starts_with_app. reflexivity.
  - pose proof (Hfirst 1%nat ltac:(simpl; lia)) as H1.
    change (drop 1 ((c :: d :: body) ++ close_marker ++ rest))
      with ((d :: body) ++ close_marker ++ rest) in H1.
    rewrite H1. cbn [option_map].
    rewrite IH; [reflexivity|discriminate| |].
    + intros Hin. apply Hnl. right. exact Hin.
    + intros j Hj. apply (Hfirst (S j)). simpl in *. lia.
Qed.

(** An explicit tag: marker, whitespace, target, one whitespace
    character, a body and the closing marker. *)
Lemma tag_here_explicit (target ws : text) (w : ascii) (body rest : text) :
  plain_target target = true ->
  Forall (fun c => isspace c = true) ws ->
  isspace w = true ->
  body <> [] ->
  newline ∉ body ->
  (forall j, (1 <= j < length body)%nat ->
             starts_with close_marker (drop j (body ++ close_marker ++ rest))
             = None) ->
  tag_here target
    (open_marker ++ ws ++ target ++ w :: body ++ close_marker ++ rest)
  = Some ((2 + (length ws + (S (length target) + length body + 2)))%nat,
          body).
Proof.
  intros Ht Hws Hw Hne Hnl Hfirst.
  rewrite RegexWs.tag_here_ws by assumption.
  unfold tag_cont, target_ws. rewrite starts_with_app, Hw.
  rewrite lazy_body_complete by assumption. reflexivity.
Qed.

Lemma search_beg_from_here (target : text) (i : nat) (s : text) (n : nat) :
  beg_here target s = Some n ->
  search_beg_from target i s = Some (i, (i + n)%nat).
Proof. intros H. destruct s; cbn [search_beg_from]; rewrite H; reflexivity. Qed.

(** A line that, after substitution, still holds an opening. *)
Lemma opened_line (target pre ws : text) (w : ascii) (r : text) :
  plain_target target = true ->
  find open_marker pre = None ->
  Forall (fun c => isspace c = true) ws ->
  isspace w = true ->
  let line := pre ++ open_marker ++ ws ++ target ++ w :: r in
  let m_end := (length pre + (2 + (length ws + S (length target))))%nat in
  search_beg target line = Some (length pre, m_end)
  /\ line !! (m_end - 1)%nat = Some w
  /\ drop (m_end - 1) line = w :: r
  /\ take (length pre) line = pre.
Proof.
  intros Ht Hpre Hws Hw line m_end. subst line m_end.
  split; [|split; [|split]].
  - unfold search_beg.
    rewrite RegexWs.search_beg_from_plain_prefix by exact Hpre.
    apply search_beg_from_here.
    rewrite RegexWs.beg_here_ws by assumption.
    unfold beg_cont, target_ws. rewrite starts_with_app, Hw. reflexivity.
  - replace (length pre + (2 + (length ws + S (length target))) - 1)%nat
      with (length (pre ++ open_marker ++ ws ++ target))
      by (rewrite !length_app; simpl; lia).
    replace (pre ++ open_marker ++ ws ++ target ++ w :: r)
      with ((pre ++ open_marker ++ ws ++ target) ++ w :: r)
      by (rewrite <- !app_assoc; reflexivity).
    apply list_lookup_middle. reflexivity.
  - replace (length pre + (2 + (length ws + S (length target))) - 1)%nat
      with (length (pre ++ open_marker ++ ws ++ target))
      by (rewrite !length_app; simpl; lia).
    replace (pre ++ open_marker ++ ws ++ target ++ w :: r)
      with ((pre ++ open_marker ++ ws ++ target) ++ w :: r)
      by (rewrite <- !app_assoc; reflexivity).
    apply drop_app_length.
  - apply take_app_length.
Qed.

End RegexTag.

(** ** The syntax of a tag, as the scanner sees it *)

Section TagSyntax.
Context {value label code : Type}.
Variable ast_parse : text -> text -> SyntaxError + ast label.
Variable py_compile : ast label -> text -> PyExc + code.
Variable py_exec :
  code -> gmap string value -> text * gmap string value * option PyExc.
Variable read_file : text -> option text.
Variable pi_target : text.

Local Abbreviation St := (@State value).
Local Abbreviation Comp := (@M value).
Local Abbreviation scan_tags' :=
  (scan_tags ast_parse py_compile py_exec read_file pi_target).

Hypothesis target_plain : plain_target pi_target = true.

Lemma bind_assoc_ret {A B C} (m : Comp A) (f : A -> B) (g : B -> C)
    (st : St) :
  bind (bind m (fun a => ret (f a))) (fun b => ret (g b)) st
  = bind m (fun a => ret (g (f a))) st.
Proof. unfold bind, ret. destruct (m st) as [[a|e] st']; reflexivity. Qed.

(** An opening that starts no single-line tag is copied by the
    substitution, which goes on after it. *)
Lemma sub_tag_unmatched_opening (repl : text -> Comp text)
    (pre ws : text) (w : ascii) (r : text) (st : St) :
  find Regex.open_marker pre = None ->
  Forall (fun c => isspace c = true) ws ->
  isspace w = true ->
  Regex.tag_cont pi_target (pi_target ++ w :: r) = None ->
  sub_tag pi_target repl 0
    (pre ++ Regex.open_marker ++ ws ++ pi_target ++ w :: r) st
  = bind (sub_tag pi_target repl 0 r)
      (fun r1 =>
         ret (pre ++ Regex.open_marker ++ ws ++ pi_target ++ w :: r1)) st.
Proof.
  intros Hpre Hws Hw Hc.
  rewrite sub_tag_skip by
    (apply RegexWs.tag_here_in_plain_prefix; exact Hpre).
  change (Regex.open_marker ++ ws ++ pi_target ++ w :: r)
    with ("<"%char :: "?"%char :: ws ++ pi_target ++ w :: r).
  unfold bind at 1. rewrite sub_tag_step.
  change ("<"%char :: "?"%char :: ws ++ pi_target ++ w :: r)
    with (Regex.open_marker ++ ws ++ pi_target ++ w :: r).
  rewrite RegexWs.tag_here_ws, Hc by assumption.
  replace ("?"%char :: ws ++ pi_target ++ w :: r)
    with (("?"%char :: ws ++ pi_target ++ [w]) ++ r)
    by (simpl; rewrite <- !app_assoc; reflexivity).
  unfold bind at 1.
  rewrite sub_tag_skip.
  - unfold bind, ret. destruct (sub_tag pi_target repl 0 r st) as [[r1|e] st'];
      [|reflexivity].
    simpl. rewrite <- !app_assoc. reflexivity.
  - apply RegexWs.tag_here_in_prefix. constructor; [discriminate|].
    apply Forall_app. split.
    + eapply Forall_impl; [exact Hws|]. intros c. apply RegexWs.isspace_not_lt.
    + apply Forall_app. split.
      * apply Forall_forall. intros c Hin.
        eapply RegexWs.plain_target_no_lt; [exact target_plain|exact Hin].
      * constructor; [apply RegexWs.isspace_not_lt, Hw|constructor].
Qed.

(** An opening that starts a single-line tag: the snippet is the group
    and the substitution goes on after the tag. *)
Lemma sub_tag_matched_opening (repl : text -> Comp text)
    (pre ws : text) (w : ascii) (r : text) (m : nat) (g : text) (st : St) :
  find Regex.open_marker pre = None ->
  Forall (fun c => isspace c = true) ws ->
  Regex.tag_cont pi_target (pi_target ++ w :: r) = Some (m, g) ->
  sub_tag pi_target repl 0
    (pre ++ Regex.open_marker ++ ws ++ pi_target ++ w :: r) st
  = bind (repl g)
      (fun r0 =>
         bind (sub_tag pi_target repl 0 (drop m (pi_target ++ w :: r)))
              (fun rest => ret (pre ++ r0 ++ rest))) st.
Proof.
  intros Hpre Hws Hc.
  rewrite sub_tag_skip by
    (apply RegexWs.tag_here_in_plain_prefix; exact Hpre).
  unfold bind at 1.
  rewrite (sub_tag_match pi_target repl _ (2 + (length ws + m)) g)
    by (rewrite RegexWs.tag_here_ws, Hc by assumption; reflexivity).
  replace (drop (2 + (length ws + m))
             (Regex.open_marker ++ ws ++ pi_target ++ w :: r))
    with (drop m (pi_target ++ w :: r)).
  - unfold bind, ret. destruct (repl g st) as [[r0|e] st1]; [|reflexivity].
    destruct (sub_tag pi_target repl 0 _ st1) as [[rest|e] st2]; reflexivity.
  - change (drop (2 + (length ws + m))
              (Regex.open_marker ++ ws ++ pi_target ++ w :: r))
      with (drop (length ws + m) (ws ++ pi_target ++ w :: r)).
    rewrite drop_app_add. reflexivity.
Qed.

Lemma find_open_marker_after (pre s : text) :
  is_Some (find Regex.open_marker (pre ++ Regex.open_marker ++ s)).
Proof.
  apply find_Some_iff. exists (length pre).
  rewrite drop_app_length, starts_with_app. eauto.
Qed.

Lemma scan_tags_congr (fn : text) (ln : Z) (b : bool) (beg : Z)
    (l1 l2 : text) (st : St) :
  is_Some (find Regex.open_marker l1) ->
  is_Some (find Regex.open_marker l2) ->
  sub_tag pi_target
    (fun g =>
       bind (exec_and_dump ast_parse py_compile py_exec read_file
               fn ln (SrcStr g) false)
            (fun r : option text =>
               match r with
               | Some t => ret t
               | None => throw (Uncaught (ExcOther (str "TypeError") true))
               end)) 0 l1 st
  = sub_tag pi_target
      (fun g =>
         bind (exec_and_dump ast_parse py_compile py_exec read_file
                 fn ln (SrcStr g) false)
              (fun r : option text =>
                 match r with
                 | Some t => ret t
                 | None => throw (Uncaught (ExcOther (str "TypeError") true))
                 end)) 0 l2 st ->
  scan_tags' fn ln b beg l1 st = scan_tags' fn ln b beg l2 st.
Proof.
  intros [i1 H1] [i2 H2] E. unfold scan_tags. rewrite H1, H2.
  unfold bind at 1. unfold bind at 3. rewrite E. reflexivity.
Qed.

(** One single-line snippet, evaluated during a scan: the outcome and
    the state, whatever the snippet ends with. *)
Lemma exec_and_dump_result (g fn : text) (ln : Z) (st : St)
    (t t' : ast label) (c : code) (printed : text)
    (g' : gmap string value) (exc : option PyExc) :
  1 <= ln ->
  sys_stdout st = PrintBuffer ->
  ast_parse g fn = inr t ->
  shifted_tree ln t = Some t' ->
  py_compile t' fn = inr c ->
  py_exec c (exec_globals st) = (printed, g', exc) ->
  exec_and_dump ast_parse py_compile py_exec read_file fn ln (SrcStr g)
    false st
  = (match exec_outcome exc with
     | Ok _ => Ok (Some printed)
     | Raise r => Raise r
     end, after_capture printed g' st).
Proof.
  intros Hln Hso Hp Hs Hc He.
  unfold exec_and_dump, bind, modify at 1.
  rewrite (exec_py_parsed ast_parse py_compile py_exec read_file g fn ln
             (set_print_buffer SIO.clear st) t t' c printed g' exc
             Hln Hp Hs Hc He).
  unfold after_run, after_capture. simpl. rewrite Hso.
  assert (Hst : set_print_buffer (fun b => SIO.write b printed)
                  (set_globals g' (set_print_buffer SIO.clear st))
                = set_print_buffer
                    (fun _ => {| sio_data := printed;
                                 sio_pos := length printed |})
                    (set_globals g' st)).
  { unfold set_print_buffer, set_globals. simpl.
    unfold SIO.clear. rewrite sio_write_fresh. reflexivity. }
  rewrite Hst. destruct (exec_outcome exc); reflexivity.
Qed.

(** C10. Whitespace between the opening marker and the target changes
    nothing: the tag is recognized and its body is executed.  Take a
    line that holds, after any text without the marker [<?] (other
    markup included), the marker, any run of whitespace, the target and
    a whitespace character.
    - In every case the scanner does on this line exactly what it does
      on the line without the run of whitespace.
    - When a body and the closing marker follow, the substitution
      evaluates the body as the snippet of the tag: the body is parsed,
      compiled as starting on the line of the tag and run in the
      processor's namespace, which becomes the namespace the snippet
      leaves.  An exception of the snippet ends the substitution;
      otherwise what the snippet printed takes the place of the tag and
      the substitution goes on after the closing marker.
    - When, moreover, no tag follows on the line and the line so
      obtained holds no tag opening, the text written to the sink is the
      text before the tag, what the body printed, and the text after
      the tag. *)
Theorem whitespace_before_target (fn : text) (ln : Z) (b : bool) (beg : Z)
    (pre ws : text) (w : ascii) (st : St) :
  find Regex.open_marker pre = None ->
  Forall (fun c => isspace c = true) ws ->
  isspace w = true ->
  (forall r : text,
      scan_tags' fn ln b beg
        (pre ++ Regex.open_marker ++ ws ++ pi_target ++ w :: r) st
      = scan_tags' fn ln b beg
          (pre ++ Regex.open_marker ++ pi_target ++ w :: r) st)
  /\ (forall (body post : text) (t t' : ast label) (c : code)
             (printed : text) (g' : gmap string value)
             (exc : option PyExc),
        body <> [] ->
        newline ∉ body ->
        (forall j, (1 <= j < length body)%nat ->
                   starts_with Regex.close_marker
                     (drop j (body ++ Regex.close_marker ++ post)) = None) ->
        1 <= ln ->
        sys_stdout st = PrintBuffer ->
        ast_parse body fn = inr t ->
        shifted_tree ln t = Some t' ->
        py_compile t' fn = inr c ->
        py_exec c (exec_globals st) = (printed, g', exc) ->
        sub_tag pi_target
          (fun g =>
             bind (exec_and_dump ast_parse py_compile py_exec read_file
                     fn ln (SrcStr g) false)
                  (fun r : option text =>
                     match r with
                     | Some t0 => ret t0
                     | None =>
                         throw (Uncaught (ExcOther (str "TypeError") true))
                     end)) 0
          (pre ++ Regex.open_marker ++ ws ++ pi_target ++ w :: body
           ++ Regex.close_marker ++ post) st
        = match exec_outcome exc with
          | Ok _ =>
              bind (sub_tag pi_target
                      (fun g =>
                         bind (exec_and_dump ast_parse py_compile py_exec
                                 read_file fn ln (SrcStr g) false)
                              (fun r : option text =>
                                 match r with
                                 | Some t0 => ret t0
                                 | None =>
                                     throw (Uncaught
                                              (ExcOther (str "TypeError")
                                                 true))
                                 end)) 0 post)
                   (fun post1 => ret (pre ++ printed ++ post1))
                   (after_capture printed g' st)
          | Raise e => (Raise e, after_capture printed g' st)
          end
        /\ (exc = None ->
            (forall j, Regex.tag_here pi_target (drop j post) = None) ->
            Regex.search_beg pi_target (pre ++ printed ++ post) = None ->
            scan_tags' fn ln b beg
              (pre ++ Regex.open_marker ++ ws ++ pi_target ++ w :: body
               ++ Regex.close_marker ++ post) st
            = (Ok {| line_num := ln; in_pi_tag := b;
                     this_pi_tag_beg_ln := ln |},
               set_out (fun o => o ++ pre ++ printed ++ post)
                 (after_capture printed g' st)))).
Proof.
  intros Hpre Hws Hw. split.
  { intros r.
    change (pre ++ Regex.open_marker ++ pi_target ++ w :: r)
      with (pre ++ Regex.open_marker ++ [] ++ pi_target ++ w :: r).
    destruct (Regex.tag_cont pi_target (pi_target ++ w :: r))
      as [[m g]|] eqn:Etc.
    - apply scan_tags_congr; try apply find_open_marker_after.
      rewrite !(sub_tag_matched_opening _ pre _ w r m g) by
        (assumption || constructor).
      reflexivity.
    - pose (repl := fun g : text =>
                bind (exec_and_dump ast_parse py_compile py_exec
                        read_file fn ln (SrcStr g) false)
                     (fun r0 : option text =>
                        match r0 with
                        | Some t => ret t
                        | None =>
                            throw (Uncaught (ExcOther (str "TypeError") true))
                        end)).
      pose proof (sub_tag_unmatched_opening repl pre ws w r st
                    Hpre Hws Hw Etc) as HX.
      pose proof (sub_tag_unmatched_opening repl pre [] w r st
                    Hpre (Forall_nil_2 _) Hw Etc) as HY.
      unfold bind in HX, HY.
      destruct (sub_tag pi_target repl 0 r st) as [[r1|e] st'] eqn:Er.
      + unfold ret in HX, HY.
        destruct (RegexTag.opened_line pi_target pre ws w r1
                    target_plain Hpre Hws Hw) as (Hs1 & Hc1 & Hd1 & Ht1).
        destruct (RegexTag.opened_line pi_target pre [] w r1
                    target_plain Hpre (Forall_nil_2 _) Hw)
          as (Hs2 & Hc2 & Hd2 & Ht2).
        rewrite (scan_tags_opened _ _ _ _ _ fn ln b beg _ _ _ _ w st st'
                   (find_open_marker_after _ _) HX Hs1 Hc1 Hw).
        rewrite (scan_tags_opened _ _ _ _ _ fn ln b beg _ _ _ _ w st st'
                   (find_open_marker_after _ _) HY Hs2 Hc2 Hw).
        rewrite Hd1, Hd2, Ht1, Ht2. reflexivity.
      + rewrite (scan_tags_raise _ _ _ _ _ fn ln b beg _ e st st'
                   (find_open_marker_after _ _) HX).
        rewrite (scan_tags_raise _ _ _ _ _ fn ln b beg _ e st st'
                   (find_open_marker_after _ _) HY).
        reflexivity. }
  intros body post t t' c printed g' exc Hne Hnl Hfirst Hln Hso Hp Hsh Hc He.
  assert (Etc : Regex.tag_cont pi_target
                  (pi_target ++ w :: body ++ Regex.close_marker ++ post)
                = Some ((S (length pi_target) + length body + 2)%nat, body)).
  { unfold Regex.tag_cont, Regex.target_ws.
    rewrite starts_with_app, Hw.
    rewrite RegexTag.lazy_body_complete by assumption. reflexivity. }
  assert (Esub :
    sub_tag pi_target
      (fun g =>
         bind (exec_and_dump ast_parse py_compile py_exec read_file
                 fn ln (SrcStr g) false)
              (fun r : option text =>
                 match r with
                 | Some t0 => ret t0
                 | None =>
                     throw (Uncaught (ExcOther (str "TypeError") true))
                 end)) 0
      (pre ++ Regex.open_marker ++ ws ++ pi_target ++ w :: body
       ++ Regex.close_marker ++ post) st
    = match exec_outcome exc with
      | Ok _ =>
          bind (sub_tag pi_target
                  (fun g =>
                     bind (exec_and_dump ast_parse py_compile py_exec
                             read_file fn ln (SrcStr g) false)
                          (fun r : option text =>
                             match r with
                             | Some t0 => ret t0
                             | None =>
                                 throw (Uncaught
                                          (ExcOther (str "TypeError") true))
                             end)) 0 post)
               (fun post1 => ret (pre ++ printed ++ post1))
               (after_capture printed g' st)
      | Raise e => (Raise e, after_capture printed g' st)
      end).
  { rewrite (sub_tag_matched_opening _ pre ws w _ _ body st Hpre Hws Etc).
    replace (drop (S (length pi_target) + length body + 2)
               (pi_target ++ w :: body ++ Regex.close_marker ++ post))
      with post.
    - unfold bind at 1. unfold bind at 1.
      rewrite (exec_and_dump_result body fn ln st t t' c printed g' exc
                 Hln Hso Hp Hsh Hc He).
      destruct (exec_outcome exc); reflexivity.
    - replace (pi_target ++ w :: body ++ Regex.close_marker ++ post)
        with ((pi_target ++ w :: body ++ Regex.close_marker) ++ post)
        by (rewrite <- !app_assoc; simpl; rewrite <- !app_assoc; reflexivity).
      symmetry. apply drop_app_length'.
      rewrite !length_app. simpl. rewrite !length_app. simpl. lia. }
  split; [exact Esub|].
  intros -> Hpost Hclosed. cbn [exec_outcome] in Esub.
  eapply scan_tags_closed; [apply find_open_marker_after| |exact Hclosed].
  rewrite Esub. unfold bind.
  rewrite sub_tag_no_match by exact Hpost. reflexivity.
Qed.


End TagSyntax.

(** * Examples with the small interpreter *)

(** A snippet of the small interpreter that runs to its end, wherever the
    tag starts. *)
Ltac minipy_runs :=
  intros fn ln g; unfold shifted_tree;
  destruct (ln - 1 =? 0);
  (eexists; eexists; eexists; eexists;
   split; [vm_compute; reflexivity|];
   split; [simpl; reflexivity|];
   split; [simpl; reflexivity|];
   reflexivity).

(** C1, witness: a document of two lines without any opening. *)
Lemma passthrough_without_opening_witness :
  has_opening (str "py") (str "<a>" ++ nl ++ str "b</a>") = false
  /\ MiniPy.input (str "py") (str "?") (str "<a>" ++ nl ++ str "b</a>") init
     = (Ok tt, set_out (fun o => o ++ str "<a>" ++ nl ++ str "b</a>") init).
Proof.
  split; [vm_compute; reflexivity|].
  apply (passthrough_without_opening MiniPy.ast_parse MiniPy.py_compile
           MiniPy.py_exec MiniPy.read_file (str "py")).
  vm_compute. reflexivity.
Defined.

(** C1, counterexample: the document [a<?py b] holds no instruction tag
    (no closing marker at all), and yet the output is not the input: only
    [a] is written, and the malformed-tag diagnostic is raised. *)
Lemma passthrough_counterexample :
  has_instruction_tag (str "py") (str "a<?py b") = false
  /\ out_stream (snd (MiniPy.input (str "py") (str "?") (str "a<?py b") init))
     = str "a"
  /\ out_stream (snd (MiniPy.input (str "py") (str "?") (str "a<?py b") init))
     <> str "a<?py b".
Proof.
  split; [vm_compute; reflexivity|].
  split; [vm_compute; reflexivity|].
  vm_compute. discriminate.
Qed.




(** X20, witness: line 1 holds a tag that runs; the tag on line 2 has a
    syntax error on its first line, as a single-line tag, and on its
    third line, as a multi-line tag. *)
Lemma syntax_error_in_tag_witness :
  (exists e',
      fst (MiniPy.input (str "py") (str "?")
             (str "<?py x = 'v'?>" ++ nl ++ str "<b><?py y = = 2?></b>") init)
      = Raise (PythonError (ExcSyntaxError e'))
      /\ se_lineno e' = Int (Z.of_nat 1 + 1 + 1 - 1))
  /\ (exists e',
        fst (MiniPy.input (str "py") (str "?")
               (str "<?py x = 'v'?>" ++ nl ++ str "<?py" ++ nl
                ++ str "x = 'hi'" ++ nl ++ str "y = = 2" ++ nl ++ str "?>")
               init)
        = Raise (PythonError (ExcSyntaxError e'))
        /\ se_lineno e' = Int (Z.of_nat 1 + 1 + 3 - 1)).
Proof.
  split.
  - refine (proj1 (syntax_error_in_tag MiniPy.ast_parse MiniPy.py_compile
                     MiniPy.py_exec MiniPy.read_file (str "py") (str "?")
                     (str "<?py x = 'v'?>" ++ nl
                      ++ str "<b><?py y = = 2?></b>") init
                     (snd (scan MiniPy.ast_parse MiniPy.py_compile
                             MiniPy.py_exec MiniPy.read_file (str "py")
                             (str "?") [str "<?py x = 'v'?>" ++ nl] init_scan
                             (set_sys_stdout PrintBuffer init)))
                     {| line_num := 1; in_pi_tag := false;
                        this_pi_tag_beg_ln := 1 |}
                     [str "<?py x = 'v'?>" ++ nl] []
                     (MiniPy.syntax_error "invalid syntax" 1 (str "y = = 2"))
                     1 _ _ _ _)
                  (str "<b>") (str "<?py y = = 2?></b>") 14%nat
                  (str "y = = 2") _ _ _ _).
    + vm_compute. reflexivity.
    + reflexivity.
    + reflexivity.
    + discriminate.
    + reflexivity.
    + intros j Hj. do 3 (destruct j as [|j]; [vm_compute; reflexivity|]).
      simpl in Hj. lia.
    + vm_compute. reflexivity.
    + vm_compute. reflexivity.
  - refine (proj2 (syntax_error_in_tag MiniPy.ast_parse MiniPy.py_compile
                     MiniPy.py_exec MiniPy.read_file (str "py") (str "?")
                     (str "<?py x = 'v'?>" ++ nl ++ str "<?py" ++ nl
                      ++ str "x = 'hi'" ++ nl ++ str "y = = 2" ++ nl
                      ++ str "?>") init
                     (snd (scan MiniPy.ast_parse MiniPy.py_compile
                             MiniPy.py_exec MiniPy.read_file (str "py")
                             (str "?") [str "<?py x = 'v'?>" ++ nl] init_scan
                             (set_sys_stdout PrintBuffer init)))
                     {| line_num := 1; in_pi_tag := false;
                        this_pi_tag_beg_ln := 1 |}
                     [str "<?py x = 'v'?>" ++ nl] []
                     (MiniPy.syntax_error "invalid syntax" 3 (str "y = = 2"))
                     3 _ _ _ _)
                  (str "<?py" ++ nl)
                  [str "x = 'hi'" ++ nl; str "y = = 2" ++ nl] (str "?>")
                  0%nat 5%nat 0%nat _ _ _ _ _ _).
    + vm_compute. reflexivity.
    + reflexivity.
    + reflexivity.
    + discriminate.
    + reflexivity.
    + intros j. do 5 (destruct j as [|j]; [vm_compute; reflexivity|]).
      vm_compute. destruct j; reflexivity.
    + vm_compute. reflexivity.
    + repeat constructor.
    + vm_compute. reflexivity.
    + vm_compute. reflexivity.
Defined.

(** C3.  The tag on line 2 of this document holds the snippet [return 1],
    which the parser accepts and [compile] rejects, on its line 1, with
    the syntax error ['return' outside function].  The call of [compile]
    stands outside the two [try] blocks of [exec_py]: the error, which
    carries line 2 = 2 + 1 - 1, leaves [input] as a plain [SyntaxError]
    and not as the script diagnostic; [main], which catches the two
    diagnostics only, ends with it and prints no report.  The same tag
    with a snippet that the parser rejects does raise the script
    diagnostic for line 2. *)
Theorem compile_error_leaves_unwrapped
    (print_exception : PyExc -> bool -> text) (no_color isatty : bool) :
  fst (MiniPy.input (str "py") (str "doc")
         (str "a" ++ nl ++ str "<?py return 1?>") init)
  = Raise (Uncaught (ExcSyntaxError
                       {| se_msg := str "'return' outside function";
                          se_lineno := Int 2; se_end_lineno := Int 2;
                          se_text := None |}))
  /\ fst (main_reporting MiniPy.ast_parse MiniPy.py_compile MiniPy.py_exec
            MiniPy.read_file (str "py") print_exception []
            [(str "doc", str "a" ++ nl ++ str "<?py return 1?>")] []
            no_color isatty)
     = (Raise (Uncaught (ExcSyntaxError
                           {| se_msg := str "'return' outside function";
                              se_lineno := Int 2; se_end_lineno := Int 2;
                              se_text := None |})),
        set_out (fun _ => str "a" ++ nl)
          (set_print_buffer (fun _ => SIO.clear SIO.fresh) init))
  /\ snd (main_reporting MiniPy.ast_parse MiniPy.py_compile MiniPy.py_exec
            MiniPy.read_file (str "py") print_exception []
            [(str "doc", str "a" ++ nl ++ str "<?py return 1?>")] []
            no_color isatty) = []
  /\ fst (MiniPy.input (str "py") (str "doc")
            (str "a" ++ nl ++ str "<?py y = = 2?>") init)
     = Raise (PythonError (ExcSyntaxError
                             {| se_msg := str "invalid syntax";
                                se_lineno := Int 2; se_end_lineno := Int 2;
                                se_text := Some (str "y = = 2") |})).
Proof.
  split; [vm_compute; reflexivity|].
  split; [vm_compute; reflexivity|].
  split; vm_compute; reflexivity.
Qed.





(** C10, witness: markup before the tag, two spaces between the marker
    and the target; the body prints [7]. *)
Lemma whitespace_before_target_witness :
  scan_tags MiniPy.ast_parse MiniPy.py_compile MiniPy.py_exec
    MiniPy.read_file (str "py") (str "?") 3 false 0
    (str "<int> <?  py print(7)?> </int>" ++ nl)
    (set_sys_stdout PrintBuffer init)
  = scan_tags MiniPy.ast_parse MiniPy.py_compile MiniPy.py_exec
      MiniPy.read_file (str "py") (str "?") 3 false 0
      (str "<int> <?py print(7)?> </int>" ++ nl)
      (set_sys_stdout PrintBuffer init)
  /\ scan_tags MiniPy.ast_parse MiniPy.py_compile MiniPy.py_exec
       MiniPy.read_file (str "py") (str "?") 3 false 0
       (str "<int> <?  py print(7)?> </int>" ++ nl)
       (set_sys_stdout PrintBuffer init)
     = (Ok {| line_num := 3; in_pi_tag := false; this_pi_tag_beg_ln := 3 |},
        set_out
          (fun o => o ++ str "<int> " ++ (str "7" ++ nl) ++ str " </int>" ++ nl)
          (after_capture (str "7" ++ nl) ∅
             (set_sys_stdout PrintBuffer init))).
Proof.
  pose proof (whitespace_before_target MiniPy.ast_parse MiniPy.py_compile
                MiniPy.py_exec MiniPy.read_file (str "py") eq_refl
                (str "?") 3 false 0 (str "<int> ") (str "  ") " "%char
                (set_sys_stdout PrintBuffer init)
                eq_refl
                ltac:(repeat constructor)
                eq_refl) as [H1 H2].
  split.
  - exact (H1 (str "print(7)?> </int>" ++ nl)).
  - refine (proj2 (H2 (str "print(7)") (str " </int>" ++ nl)
                     (Node MiniPy.SModule Absent Absent
                        [Node (MiniPy.SPrint (MiniPy.EInt 7))
                           (Int 1) (Int 1) []])
                     (Node MiniPy.SModule Absent Absent
                        [Node (MiniPy.SPrint (MiniPy.EInt 7))
                           (Int 3) (Int 3) []])
                     [MiniPy.SPrint (MiniPy.EInt 7)]
                     (str "7" ++ nl) ∅ None _ _ _ _ _ _ _ _ _)
                  eq_refl _ _).
    + discriminate.
    + vm_compute. intros H. apply list_elem_of_In in H. simpl in H.
      repeat (destruct H as [H|H]; [discriminate|]). exact H.
    + intros j Hj. do 8 (destruct j as [|j]; [vm_compute; reflexivity|]).
      simpl in Hj. lia.
    + lia.
    + reflexivity.
    + vm_compute. reflexivity.
    + vm_compute. reflexivity.
    + vm_compute. reflexivity.
    + vm_compute. reflexivity.
    + intros j. do 9 (destruct j as [|j]; [vm_compute; reflexivity|]).
      vm_compute. destruct j; reflexivity.
    + vm_compute. reflexivity.
Defined.

(** * Further properties of the program *)

(** ** What the processor never does to the sink and the standard output *)

Section FrameFacts.
Context {value label code : Type}.
Variable ast_parse : text -> text -> SyntaxError + ast label.
Variable py_compile : ast label -> text -> PyExc + code.
Variable py_exec :
  code -> gmap string value -> text * gmap string value * option PyExc.
Variable read_file : text -> option text.
Variable pi_target : text.

Local Abbreviation St := (@State value).
Local Abbreviation Comp := (@M value).

Section Generic.
Variable R : St -> St -> Prop.
Hypothesis R_refl : forall st, R st st.
Hypothesis R_trans : forall a b c, R a b -> R b c -> R a c.

Lemma keeps_ret {A} (a : A) : keeps R (ret a).
Proof. intros st. apply R_refl. Qed.

Lemma keeps_throw {A} (r : raised) : keeps R (@throw value A r).
Proof. intros st. apply R_refl. Qed.

Lemma keeps_gets {A} (f : St -> A) : keeps R (gets f).
Proof. intros st. apply R_refl. Qed.

Lemma keeps_modify (f : St -> St) :
  (forall st, R st (f st)) -> keeps R (modify f).
Proof. intros H st. apply H. Qed.

Lemma keeps_bind {A B} (m : Comp A) (k : A -> Comp B) :
  keeps R m -> (forall a, keeps R (k a)) -> keeps R (bind m k).
Proof.
  intros Hm Hk st. unfold bind. specialize (Hm st).
  destruct (m st) as [[a|r] st']; simpl in *; [|exact Hm].
  eapply R_trans; [exact Hm|apply Hk].
Qed.
End Generic.

Lemma quiet_refl (st : St) : quiet st st.
Proof. repeat split. Qed.

Lemma quiet_trans (a b c : St) : quiet a b -> quiet b c -> quiet a c.
Proof.
  intros (H1 & H2 & H3) (H4 & H5 & H6). repeat split.
  - congruence.
  - congruence.
  - intros H. rewrite H6 by congruence. apply H3, H.
Qed.

Lemma appends_refl (st : St) : appends st st.
Proof. split; [reflexivity|split; auto]. Qed.

Lemma appends_trans (a b c : St) : appends a b -> appends b c -> appends a c.
Proof.
  intros (H1 & H2 & H3) (H4 & H5 & H6). split; [|split].
  - etrans; eassumption.
  - congruence.
  - intros H. rewrite H6 by congruence. apply H3, H.
Qed.

Lemma quiet_appends (a b : St) : quiet a b -> appends a b.
Proof. intros (H1 & H2 & H3). split; [rewrite H1; reflexivity|split; auto]. Qed.

Lemma keeps_quiet_appends {A} (m : Comp A) :
  keeps (@quiet value) m -> keeps (@appends value) m.
Proof. intros H st. apply quiet_appends, H. Qed.

Lemma quiet_stdout_write (s : text) : keeps (@quiet value) (stdout_write s).
Proof.
  intros st. unfold stdout_write.
  destruct (sys_stdout st) eqn:E; simpl; repeat split; simpl; auto.
  congruence.
Qed.

Lemma quiet_read_source (src : source) : keeps (@quiet value) (read_source src).
Proof. intros st. destruct src; simpl; repeat split. Qed.

Lemma quiet_exec_py (src : source) (fn : text) (ln : Z) :
  keeps (@quiet value)
    (exec_py ast_parse py_compile py_exec read_file src fn ln).
Proof.
  unfold exec_py.
  apply (keeps_bind _ quiet_trans); [apply quiet_read_source|].
  intros s.
  destruct (negb (0 <=? ln - 1)); [apply (keeps_throw _ quiet_refl)|].
  destruct (ast_parse s fn) as [e|t].
  - destruct (ln - 1 =? 0); [apply (keeps_throw _ quiet_refl)|].
    destruct (shift_syntax_error read_file e fn (ln - 1));
      apply (keeps_throw _ quiet_refl).
  - apply (keeps_bind _ quiet_trans).
    + destruct (ln - 1 =? 0); [apply (keeps_ret _ quiet_refl)|].
      destruct (visit (ln - 1) t);
        [apply (keeps_ret _ quiet_refl)|apply (keeps_throw _ quiet_refl)].
    + intros t'. destruct (py_compile t' fn) as [e|c];
        [apply (keeps_throw _ quiet_refl)|].
      apply (keeps_bind _ quiet_trans); [apply (keeps_gets _ quiet_refl)|].
      intros g. destruct (py_exec c g) as [[printed g'] exc].
      apply (keeps_bind _ quiet_trans).
      { apply keeps_modify. intros st. repeat split. }
      intros _.
      apply (keeps_bind _ quiet_trans); [apply quiet_stdout_write|].
      intros _. destruct exc as [e|]; [|apply (keeps_ret _ quiet_refl)].
      destruct (is_Exception e); apply (keeps_throw _ quiet_refl).
Qed.

Lemma quiet_exec_and_dump_str (fn : text) (ln : Z) (src : source) :
  keeps (@quiet value)
    (exec_and_dump ast_parse py_compile py_exec read_file fn ln src false).
Proof.
  unfold exec_and_dump.
  apply (keeps_bind _ quiet_trans).
  { apply keeps_modify. intros st. repeat split. }
  intros _. apply (keeps_bind _ quiet_trans); [apply quiet_exec_py|].
  intros _. apply (keeps_bind _ quiet_trans); [apply (keeps_gets _ quiet_refl)|].
  intros r. apply (keeps_ret _ quiet_refl).
Qed.

Lemma appends_set_out (s : text) (st : St) :
  appends st (set_out (fun o => o ++ s) st).
Proof. split; [apply prefix_app_r; reflexivity|split; auto]. Qed.

Lemma appends_exec_and_dump (fn : text) (ln : Z) (src : source) (b : bool) :
  keeps (@appends value)
    (exec_and_dump ast_parse py_compile py_exec read_file fn ln src b).
Proof.
  destruct b; [|apply keeps_quiet_appends, quiet_exec_and_dump_str].
  unfold exec_and_dump.
  apply (keeps_bind _ appends_trans).
  { apply keeps_modify. intros st. apply quiet_appends. repeat split. }
  intros _. apply (keeps_bind _ appends_trans);
    [apply keeps_quiet_appends, quiet_exec_py|].
  intros _. apply (keeps_bind _ appends_trans);
    [apply (keeps_gets _ appends_refl)|].
  intros r. apply (keeps_bind _ appends_trans).
  { apply keeps_modify. intros st. apply appends_set_out. }
  intros _. apply (keeps_ret _ appends_refl).
Qed.

Lemma quiet_sub_tag (repl : text -> Comp text) (k : nat) (s : text) :
  (forall g, keeps (@quiet value) (repl g)) ->
  keeps (@quiet value) (sub_tag pi_target repl k s).
Proof.
  intros Hr. revert k. induction s as [|c s IH]; intros k; simpl.
  - apply (keeps_ret _ quiet_refl).
  - destruct k as [|k]; [|apply IH].
    destruct (Regex.tag_here pi_target (c :: s)) as [[n g]|].
    + apply (keeps_bind _ quiet_trans); [apply Hr|]. intros r.
      apply (keeps_bind _ quiet_trans); [apply IH|]. intros rest.
      apply (keeps_ret _ quiet_refl).
    + apply (keeps_bind _ quiet_trans); [apply IH|]. intros rest.
      apply (keeps_ret _ quiet_refl).
Qed.

(** The substitution of the tags of a line, as the scanner calls it. *)
Lemma quiet_line_sub (fn : text) (ln : Z) (line : text) :
  keeps (@quiet value)
    (sub_tag pi_target
       (fun g =>
          bind (exec_and_dump ast_parse py_compile py_exec read_file
                  fn ln (SrcStr g) false)
               (fun r : option text =>
                  match r with
                  | Some t => ret t
                  | None => throw (Uncaught (ExcOther (str "TypeError") true))
                  end)) 0 line).
Proof.
  apply quiet_sub_tag. intros g.
  apply (keeps_bind _ quiet_trans); [apply quiet_exec_and_dump_str|].
  intros [t|]; [apply (keeps_ret _ quiet_refl)|apply (keeps_throw _ quiet_refl)].
Qed.

Lemma appends_scan_tags (fn : text) (ln : Z) (b : bool) (beg : Z)
    (line : text) :
  keeps (@appends value)
    (scan_tags ast_parse py_compile py_exec read_file pi_target
       fn ln b beg line).
Proof.
  unfold scan_tags. destruct (find Regex.open_marker line).
  - apply (keeps_bind _ appends_trans);
      [apply keeps_quiet_appends, quiet_line_sub|].
    intros line1.
    destruct (Regex.search_beg pi_target line1) as [[m_start m_end]|].
    + destruct (line1 !! (m_end - 1)%nat) as [c|];
        [|apply (keeps_throw _ appends_refl)].
      destruct (isspace c); [|apply (keeps_throw _ appends_refl)].
      apply (keeps_bind _ appends_trans).
      { apply keeps_modify. intros st. apply quiet_appends. repeat split. }
      intros _. apply (keeps_bind _ appends_trans).
      { apply keeps_modify. intros st. apply quiet_appends. repeat split. }
      intros _. apply (keeps_bind _ appends_trans).
      { apply keeps_modify. intros st. apply appends_set_out. }
      intros _. apply (keeps_ret _ appends_refl).
    + apply (keeps_bind _ appends_trans).
      { apply keeps_modify. intros st. apply appends_set_out. }
      intros _. apply (keeps_ret _ appends_refl).
  - apply (keeps_bind _ appends_trans).
    { apply keeps_modify. intros st. apply appends_set_out. }
    intros _. apply (keeps_ret _ appends_refl).
Qed.

Lemma appends_process_line (fn line : text) (sc : Scan) :
  keeps (@appends value)
    (process_line ast_parse py_compile py_exec read_file pi_target
       fn line sc).
Proof.
  unfold process_line. destruct (in_pi_tag sc); [|apply appends_scan_tags].
  destruct (find Regex.close_marker line).
  - apply (keeps_bind _ appends_trans).
    { apply keeps_modify. intros st. apply quiet_appends. repeat split. }
    intros _. apply (keeps_bind _ appends_trans).
    { apply keeps_modify. intros st. apply quiet_appends. repeat split. }
    intros _. apply (keeps_bind _ appends_trans);
      [apply appends_exec_and_dump|].
    intros _. apply appends_scan_tags.
  - apply (keeps_bind _ appends_trans).
    { apply keeps_modify. intros st. apply quiet_appends. repeat split. }
    intros _. apply (keeps_ret _ appends_refl).
Qed.

Lemma appends_scan (fn : text) (lines : list text) (sc : Scan) :
  keeps (@appends value)
    (scan ast_parse py_compile py_exec read_file pi_target fn lines sc).
Proof.
  revert sc. induction lines as [|l lines IH]; intros sc; simpl.
  - apply (keeps_ret _ appends_refl).
  - apply (keeps_bind _ appends_trans); [apply appends_process_line|].
    intros sc'. apply IH.
Qed.

(** X2. Processing a document, whatever the document and however it
    ends (normally, with a script diagnostic, with the malformed-tag
    diagnostic, with any other exception): [sys.stdout] points afterwards
    where it pointed before the call, as the [finally] clause of [input]
    has it; and what the processor has written to the sink is never
    taken back: the sink holds what it held before the call, possibly
    followed by more text. *)
Theorem input_restores_stdout (fn content : text) (st : St) :
  sys_stdout
    (snd (input ast_parse py_compile py_exec read_file pi_target
            fn content st)) = sys_stdout st
  /\ out_stream st
     `prefix_of`
     out_stream
       (snd (input ast_parse py_compile py_exec read_file pi_target
               fn content st)).
Proof.
  rewrite input_eq.
  destruct (appends_scan fn (readlines content) init_scan
              (set_sys_stdout PrintBuffer st)) as (Hp & Hs & Hr).
  destruct (scan ast_parse py_compile py_exec read_file pi_target fn
              (readlines content) init_scan (set_sys_stdout PrintBuffer st))
    as [[sc|r] st']; simpl in *; auto.
Qed.

(** X3. A line outside a multi-line instruction is written only after
    every tag on it has been evaluated: when the scan of such a line
    raises anything, no part of the line and no output of its tags has
    reached the sink. *)
Theorem failed_line_writes_nothing (fn line : text) (sc : Scan) (st : St)
    (r : raised) :
  in_pi_tag sc = false ->
  fst (process_line ast_parse py_compile py_exec read_file pi_target
         fn line sc st) = Raise r ->
  out_stream
    (snd (process_line ast_parse py_compile py_exec read_file pi_target
            fn line sc st)) = out_stream st.
Proof.
  intros Hin. rewrite process_line_outside by exact Hin.
  unfold scan_tags. destruct (find Regex.open_marker line); [|discriminate].
  pose proof (quiet_line_sub fn (line_num sc + 1) line st) as (Ho & _).
  unfold bind in *.
  destruct (sub_tag _ _ _ line st) as [[line1|e] st1]; simpl in Ho;
    [|intros _; exact Ho].
  destruct (Regex.search_beg pi_target line1) as [[m_start m_end]|];
    [|discriminate].
  destruct (line1 !! (m_end - 1)%nat) as [c|]; [|intros _; exact Ho].
  destruct (isspace c); [discriminate|intros _; exact Ho].
Qed.

End FrameFacts.

(** ** Whole documents *)

Section Documents.
Context {value label code : Type}.
Variable ast_parse : text -> text -> SyntaxError + ast label.
Variable py_compile : ast label -> text -> PyExc + code.
Variable py_exec :
  code -> gmap string value -> text * gmap string value * option PyExc.
Variable read_file : text -> option text.
Variable pi_target : text.

Local Abbreviation St := (@State value).
Local Abbreviation exec_py' :=
  (exec_py ast_parse py_compile py_exec read_file).
Local Abbreviation exec_and_dump' :=
  (exec_and_dump ast_parse py_compile py_exec read_file).
Local Abbreviation scan_tags' :=
  (scan_tags ast_parse py_compile py_exec read_file pi_target).
Local Abbreviation process_line' :=
  (process_line ast_parse py_compile py_exec read_file pi_target).
Local Abbreviation scan' :=
  (scan ast_parse py_compile py_exec read_file pi_target).
Local Abbreviation input' :=
  (input ast_parse py_compile py_exec read_file pi_target).

(** [exec_py] on a source that parses and compiles, for either kind of
    source. *)
Lemma exec_py_parsed_source (src : source) (s fn : text) (ln : Z)
    (st st1 : St) (t t' : ast label) (c : code) (printed : text)
    (g' : gmap string value) (exc : option PyExc) :
  read_source src st = (Ok s, st1) ->
  1 <= ln ->
  ast_parse s fn = inr t ->
  shifted_tree ln t = Some t' ->
  py_compile t' fn = inr c ->
  py_exec c (exec_globals st1) = (printed, g', exc) ->
  exec_py' src fn ln st = (exec_outcome exc, after_run printed g' st1).
Proof.
  intros Hr Hln Hp Hs Hc He.
  unfold exec_py, bind at 1. rewrite Hr.
  replace (0 <=? ln - 1) with true by (symmetry; apply Z.leb_le; lia).
  cbn [negb]. rewrite Hp. unfold shifted_tree in Hs.
  unfold bind, ret, gets, modify, throw.
  destruct (ln - 1 =? 0).
  - injection Hs as ->. rewrite Hc, He.
    unfold stdout_write, after_run, exec_outcome. cbn [sys_stdout set_globals].
    destruct (sys_stdout st1), exc as [e|]; try reflexivity;
      destruct (is_Exception e); reflexivity.
  - rewrite Hs. rewrite Hc, He.
    unfold stdout_write, after_run, exec_outcome. cbn [sys_stdout set_globals].
    destruct (sys_stdout st1), exc as [e|]; try reflexivity;
      destruct (is_Exception e); reflexivity.
Qed.

(** The closing line of a multi-line instruction whose snippet runs to
    its end: what it printed is written to the sink, and the scan goes on
    with the rest of the line. *)
Lemma process_line_close_ok (fn line : text) (sc : Scan) (st : St)
    (d : text) (p : nat) (t t' : ast label) (c : code) (printed : text)
    (g' : gmap string value) :
  in_pi_tag sc = true ->
  sys_stdout st = PrintBuffer ->
  code_buffer st = {| sio_data := d; sio_pos := length d |} ->
  find Regex.close_marker line = Some p ->
  1 <= this_pi_tag_beg_ln sc ->
  ast_parse (d ++ take p line) fn = inr t ->
  shifted_tree (this_pi_tag_beg_ln sc) t = Some t' ->
  py_compile t' fn = inr c ->
  py_exec c (exec_globals st) = (printed, g', None) ->
  process_line' fn line sc st
  = scan_tags' fn (line_num sc + 1) false 0 (drop (p + 2) line)
      (set_out (fun o => o ++ printed)
         (after_capture printed g'
            (set_code_buffer
               (fun _ => {| sio_data := d ++ take p line;
                            sio_pos := length (d ++ take p line) |}) st))).
Proof.
  intros Hin Hso Hcb Hf Hbeg Hp Hs Hc He.
  unfold process_line. rewrite Hin, Hf.
  unfold bind at 1, modify at 1. unfold bind at 1, modify at 1.
  unfold bind at 1.
  match goal with
  | |- context [exec_and_dump' fn ?l SrcCodeBuffer true ?s] => set (st0 := s)
  end.
  assert (Hread : read_source SrcCodeBuffer (set_print_buffer SIO.clear st0)
                  = (Ok (d ++ take p line),
                     set_code_buffer
                       (fun _ => {| sio_data := d ++ take p line;
                                    sio_pos := length (d ++ take p line) |})
                       (set_print_buffer SIO.clear st0))).
  { unfold read_source, st0, set_print_buffer, set_code_buffer.
    cbn [code_buffer]. rewrite Hcb, sio_write_end.
    unfold SIO.seek0, SIO.read. cbn [sio_data sio_pos].
    rewrite drop_0. reflexivity. }
  unfold exec_and_dump, bind at 1, modify at 1. unfold bind at 1.
  rewrite (exec_py_parsed_source _ _ fn _ _ _ t t' c printed g' None
             Hread Hbeg Hp Hs Hc He).
  cbn [exec_outcome]. unfold bind, gets, modify, ret.
  f_equal. subst st0. clear Hread. destruct st as [o cb pb g so rs].
  cbn [sys_stdout code_buffer exec_globals] in Hso, Hcb, He. subst so cb.
  unfold after_run, after_capture, set_out, set_print_buffer,
    set_code_buffer, set_globals, SIO.clear, SIO.seek0.
  cbn [out_stream code_buffer print_buffer exec_globals sys_stdout
       real_stdout sio_data sio_pos].
  rewrite sio_write_fresh. reflexivity.
Qed.

Lemma search_beg_is_open (line : text) (m_start m_end : nat) :
  Regex.search_beg pi_target line = Some (m_start, m_end) ->
  is_Some (find Regex.open_marker line).
Proof.
  intros Hs. destruct (RegexShape.search_beg_last _ _ _ _ Hs)
    as (w & _ & _ & _ & Hopen).
  apply find_Some_iff. exists m_start. exact Hopen.
Qed.

(** A line that opens a multi-line instruction and holds no single-line
    tag. *)
Lemma process_line_open (fn line : text) (sc : Scan) (st : St)
    (m_start m_end : nat) :
  in_pi_tag sc = false ->
  (forall j, Regex.tag_here pi_target (drop j line) = None) ->
  Regex.search_beg pi_target line = Some (m_start, m_end) ->
  process_line' fn line sc st
  = (Ok {| line_num := line_num sc + 1; in_pi_tag := true;
           this_pi_tag_beg_ln := line_num sc + 1 |},
     set_out (fun o => o ++ take m_start line)
       (set_code_buffer
          (fun _ => {| sio_data := drop (m_end - 1) line;
                       sio_pos := length (drop (m_end - 1) line) |}) st)).
Proof.
  intros Hin Hno Hs. rewrite process_line_outside by exact Hin.
  destruct (RegexShape.search_beg_last _ _ _ _ Hs) as (w & Hw & Hsp & _).
  eapply scan_tags_opened; [eapply search_beg_is_open, Hs|
                            apply sub_tag_no_match, Hno|exact Hs|exact Hw|
                            exact Hsp].
Qed.

(** X4. A document whose last tag is never closed.  The document starts
    with lines without tag openings; the next line, line [L], opens a
    multi-line instruction (and holds no single-line tag); no later line
    holds the closing marker.  Then processing raises the malformed-tag
    diagnostic naming line [L], no snippet is evaluated, and the sink has
    received the lines before line [L] and the part of line [L] before
    the opening, and nothing else. *)
Theorem unterminated_tag (fn content : text) (st : St)
    (pre : list text) (opening : text) (body : list text)
    (m_start m_end : nat) :
  readlines content = pre ++ opening :: body ->
  Forall (fun l => Regex.search_beg pi_target l = None) pre ->
  (forall j, Regex.tag_here pi_target (drop j opening) = None) ->
  Regex.search_beg pi_target opening = Some (m_start, m_end) ->
  Forall (fun l => find Regex.close_marker l = None) body ->
  exists st',
    input' fn content st
    = (Raise (XmlError (never_closed (Z.of_nat (length pre) + 1))), st')
    /\ out_stream st' = out_stream st ++ concat pre ++ take m_start opening
    /\ exec_globals st' = exec_globals st.
Proof.
  intros Hlines Hpre Hno Hs Hbody.
  set (st0 := set_sys_stdout PrintBuffer st).
  destruct (scan_passthrough ast_parse py_compile py_exec read_file
              pi_target fn pre Hpre init_scan st0 eq_refl) as [beg Epre].
  rewrite input_eq, Hlines, scan_app. fold st0. rewrite Epre.
  rewrite scan_cons.
  erewrite process_line_open; [|reflexivity|exact Hno|exact Hs].
  erewrite scan_body; [|exact Hbody|reflexivity|reflexivity].
  cbn [in_pi_tag this_pi_tag_beg_ln line_num init_scan].
  eexists. split; [reflexivity|]. split; [|reflexivity].
  cbn. rewrite <- app_assoc. reflexivity.
Qed.

(** X5. A multi-line tag, from its opening to its closing line.  After
    lines without openings, line [L] opens an instruction, some lines
    without the closing marker follow, and a line holds the marker.  The
    snippet is one text: line [L] from the whitespace after the target,
    the lines in between, and the closing line up to the marker; it is
    evaluated once, as starting on line [L], in the namespace the
    document was started with.  When it runs to its end, the sink
    receives the text before the opening, then what the snippet printed,
    then the text after the closing marker (here without further
    openings) and the remaining lines (without openings), all verbatim;
    and the namespace is the one the snippet left. *)
Theorem multi_line_tag (fn content : text) (st : St)
    (pre : list text) (opening : text) (body : list text) (closing : text)
    (rest : list text) (m_start m_end p : nat)
    (t t' : ast label) (c : code) (printed : text)
    (g' : gmap string value) :
  readlines content = pre ++ opening :: body ++ closing :: rest ->
  Forall (fun l => Regex.search_beg pi_target l = None) pre ->
  (forall j, Regex.tag_here pi_target (drop j opening) = None) ->
  Regex.search_beg pi_target opening = Some (m_start, m_end) ->
  Forall (fun l => find Regex.close_marker l = None) body ->
  find Regex.close_marker closing = Some p ->
  Regex.search_beg pi_target (drop (p + 2) closing) = None ->
  Forall (fun l => Regex.search_beg pi_target l = None) rest ->
  ast_parse (drop (m_end - 1) opening ++ concat body ++ take p closing) fn
  = inr t ->
  shifted_tree (Z.of_nat (length pre) + 1) t = Some t' ->
  py_compile t' fn = inr c ->
  py_exec c (exec_globals st) = (printed, g', None) ->
  exists st',
    input' fn content st = (Ok tt, st')
    /\ out_stream st'
       = out_stream st ++ concat pre ++ take m_start opening ++ printed
         ++ drop (p + 2) closing ++ concat rest
    /\ exec_globals st' = g'.
Proof.
  intros Hlines Hpre Hno Hs Hbody Hc Hafter Hrest Hp Hsh Hcomp He.
  set (st0 := set_sys_stdout PrintBuffer st).
  destruct (scan_passthrough ast_parse py_compile py_exec read_file
              pi_target fn pre Hpre init_scan st0 eq_refl) as [beg Epre].
  rewrite input_eq, Hlines, scan_app. fold st0. rewrite Epre.
  rewrite scan_cons.
  erewrite process_line_open; [|reflexivity|exact Hno|exact Hs].
  rewrite scan_app.
  erewrite scan_body; [|exact Hbody|reflexivity|reflexivity].
  rewrite scan_cons.
  erewrite (process_line_close_ok fn closing _ _
              (drop (m_end - 1) opening ++ concat body) p t t' c printed g');
    [|reflexivity|reflexivity|reflexivity|exact Hc|cbn; lia|
     rewrite <- app_assoc; exact Hp|exact Hsh|exact Hcomp|exact He].
  match goal with
  | |- context [scan_tags' fn ?ln false 0 (drop (p + 2) closing) ?s] =>
      destruct (scan_tags_passthrough ast_parse py_compile py_exec read_file
                  pi_target fn ln false 0 (drop (p + 2) closing) s Hafter)
        as [beg1 ->]
  end.
  match goal with
  | |- context [scan' fn rest ?sc ?s] =>
      destruct (scan_passthrough ast_parse py_compile py_exec read_file
                  pi_target fn rest Hrest sc s eq_refl) as [beg2 ->]
  end.
  eexists. split; [reflexivity|]. split; [|reflexivity].
  cbn. rewrite <- !app_assoc. reflexivity.
Qed.

Lemma exec_and_dump_ok (g fn : text) (ln : Z) (st : St) (t t' : ast label)
    (c : code) (printed : text) (g' : gmap string value) :
  1 <= ln ->
  sys_stdout st = PrintBuffer ->
  ast_parse g fn = inr t ->
  shifted_tree ln t = Some t' ->
  py_compile t' fn = inr c ->
  py_exec c (exec_globals st) = (printed, g', None) ->
  exec_and_dump' fn ln (SrcStr g) false st
  = (Ok (Some printed), after_capture printed g' st).
Proof.
  intros Hln Hso Hp Hs Hc He.
  unfold exec_and_dump, bind, modify at 1.
  rewrite (exec_py_parsed ast_parse py_compile py_exec read_file g fn ln
             (set_print_buffer SIO.clear st) t t' c printed g' None
             Hln Hp Hs Hc He).
  unfold after_run, after_capture. simpl. rewrite Hso.
  assert (Hst : set_print_buffer (fun b => SIO.write b printed)
                  (set_globals g' (set_print_buffer SIO.clear st))
                = set_print_buffer
                    (fun _ => {| sio_data := printed;
                                 sio_pos := length printed |})
                    (set_globals g' st)).
  { unfold set_print_buffer, set_globals. simpl.
    unfold SIO.clear. rewrite sio_write_fresh. reflexivity. }
  rewrite Hst. reflexivity.
Qed.

(** The substitution on a line with exactly one single-line tag, whose
    snippet runs to its end. *)
Lemma sub_tag_one_tag (fn : text) (ln : Z) (u v : text) (n : nat)
    (g : text) (st : St) (t t' : ast label) (c : code) (printed : text)
    (g' : gmap string value) :
  (forall j, (j < length u)%nat ->
             Regex.tag_here pi_target (drop j (u ++ v)) = None) ->
  Regex.tag_here pi_target v = Some (n, g) ->
  (forall j, Regex.tag_here pi_target (drop j (drop n v)) = None) ->
  1 <= ln ->
  sys_stdout st = PrintBuffer ->
  ast_parse g fn = inr t ->
  shifted_tree ln t = Some t' ->
  py_compile t' fn = inr c ->
  py_exec c (exec_globals st) = (printed, g', None) ->
  sub_tag pi_target
    (fun g0 =>
       bind (exec_and_dump' fn ln (SrcStr g0) false)
            (fun r : option text =>
               match r with
               | Some t0 => ret t0
               | None => throw (Uncaught (ExcOther (str "TypeError") true))
               end)) 0 (u ++ v) st
  = (Ok (u ++ printed ++ drop n v), after_capture printed g' st).
Proof.
  intros Hu Hv Hrest Hln Hso Hp Hs Hc He.
  rewrite sub_tag_skip by exact Hu. unfold bind at 1.
  erewrite sub_tag_match_ok; [reflexivity|exact Hv| |].
  - apply repl_at_ok. eapply exec_and_dump_ok; eassumption.
  - apply sub_tag_no_match. exact Hrest.
Qed.

Lemma find_open_in_tag_line (u v : text) (n : nat) (g : text) :
  Regex.tag_here pi_target v = Some (n, g) ->
  is_Some (find Regex.open_marker (u ++ v)).
Proof.
  intros Hv. apply find_Some_iff. exists (length u).
  rewrite drop_app_length.
  destruct (RegexShape.tag_here_shape _ _ _ _ Hv) as (ws & w & r & -> & _).
  rewrite starts_with_app. eauto.
Qed.

(** X6. A line with one single-line tag, in a document that is ordinary
    text otherwise.  The snippet is evaluated once, as starting on the
    line of the tag; when it runs to its end and the line, with the tag
    replaced by what the snippet printed, holds no tag opening, the sink
    receives the whole document with the tag replaced by that text, all
    other text verbatim, and the namespace is the one the snippet
    left. *)
Theorem single_line_tag (fn content : text) (st : St)
    (pre : list text) (u v : text) (rest : list text) (n : nat) (g : text)
    (t t' : ast label) (c : code) (printed : text)
    (g' : gmap string value) :
  readlines content = pre ++ (u ++ v) :: rest ->
  Forall (fun l => Regex.search_beg pi_target l = None) pre ->
  (forall j, (j < length u)%nat ->
             Regex.tag_here pi_target (drop j (u ++ v)) = None) ->
  Regex.tag_here pi_target v = Some (n, g) ->
  (forall j, Regex.tag_here pi_target (drop j (drop n v)) = None) ->
  ast_parse g fn = inr t ->
  shifted_tree (Z.of_nat (length pre) + 1) t = Some t' ->
  py_compile t' fn = inr c ->
  py_exec c (exec_globals st) = (printed, g', None) ->
  Regex.search_beg pi_target (u ++ printed ++ drop n v) = None ->
  Forall (fun l => Regex.search_beg pi_target l = None) rest ->
  exists st',
    input' fn content st = (Ok tt, st')
    /\ out_stream st'
       = out_stream st ++ concat pre ++ u ++ printed ++ drop n v
         ++ concat rest
    /\ exec_globals st' = g'.
Proof.
  intros Hlines Hpre Hu Hv Hafter Hp Hsh Hc He Hclosed Hrest.
  set (st0 := set_sys_stdout PrintBuffer st).
  destruct (scan_passthrough ast_parse py_compile py_exec read_file
              pi_target fn pre Hpre init_scan st0 eq_refl) as [beg Epre].
  rewrite input_eq, Hlines, scan_app. fold st0. rewrite Epre.
  rewrite scan_cons, process_line_outside by reflexivity.
  cbn [line_num init_scan this_pi_tag_beg_ln].
  erewrite scan_tags_closed; cycle 1.
  - eapply find_open_in_tag_line, Hv.
  - eapply sub_tag_one_tag; try eassumption; [lia|reflexivity].
  - exact Hclosed.
  - match goal with
    | |- context [scan' fn rest ?sc ?s] =>
        destruct (scan_passthrough ast_parse py_compile py_exec read_file
                    pi_target fn rest Hrest sc s eq_refl) as [beg2 ->]
    end.
    eexists. split; [reflexivity|]. split; [|reflexivity].
    cbn. rewrite <- !app_assoc. reflexivity.
Qed.

(** X7. What a snippet prints is scanned for tag openings like the text
    of the document.  On a line with one single-line tag whose snippet
    runs to its end: when the line, with the tag replaced by what the
    snippet printed, holds a tag opening, the scanner begins a multi-line
    instruction there: it writes the line only up to that opening and
    takes the rest of the line, from the whitespace after the target, as
    the start of a snippet. *)
Theorem printed_opening_is_scanned (fn : text) (sc : Scan) (st : St)
    (u v : text) (n : nat) (g : text) (t t' : ast label) (c : code)
    (printed : text) (g' : gmap string value) (m_start m_end : nat) :
  in_pi_tag sc = false ->
  sys_stdout st = PrintBuffer ->
  0 <= line_num sc ->
  (forall j, (j < length u)%nat ->
             Regex.tag_here pi_target (drop j (u ++ v)) = None) ->
  Regex.tag_here pi_target v = Some (n, g) ->
  (forall j, Regex.tag_here pi_target (drop j (drop n v)) = None) ->
  ast_parse g fn = inr t ->
  shifted_tree (line_num sc + 1) t = Some t' ->
  py_compile t' fn = inr c ->
  py_exec c (exec_globals st) = (printed, g', None) ->
  Regex.search_beg pi_target (u ++ printed ++ drop n v)
  = Some (m_start, m_end) ->
  exists st',
    process_line' fn (u ++ v) sc st
    = (Ok {| line_num := line_num sc + 1; in_pi_tag := true;
             this_pi_tag_beg_ln := line_num sc + 1 |}, st')
    /\ out_stream st'
       = out_stream st ++ take m_start (u ++ printed ++ drop n v)
    /\ sio_data (code_buffer st')
       = drop (m_end - 1) (u ++ printed ++ drop n v).
Proof.
  intros Hin Hso Hln Hu Hv Hafter Hp Hsh Hc He Hs.
  rewrite process_line_outside by exact Hin.
  destruct (RegexShape.search_beg_last _ _ _ _ Hs) as (w & Hw & Hsp & _).
  erewrite scan_tags_opened; cycle 1.
  - eapply find_open_in_tag_line, Hv.
  - eapply sub_tag_one_tag; try eassumption. lia.
  - exact Hs.
  - exact Hw.
  - exact Hsp.
  - eexists. split; [reflexivity|]. split; reflexivity.
Qed.

End Documents.

(** ** The line-number modifier *)

Section VisitFacts.
Context {L : Type}.

Lemma ast_nested_ind (P : ast L -> Prop) :
  (forall l ln eln ch, Forall P ch -> P (Node l ln eln ch)) ->
  forall t, P t.
Proof.
  intros H. fix IH 1. intros [l ln eln ch]. apply H.
  induction ch as [|c ch IHch]; constructor; [apply IH|exact IHch].
Qed.

Lemma visit_node (add : Z) (l : L) (ln eln : attr) (ch : list (ast L)) :
  visit add (Node l ln eln ch)
  = match ln with
    | Int v =>
        match eln with
        | Absent =>
            option_map (Node l (Int (v + add)) Absent) (generic_visit add ch)
        | NotInt => None
        | Int e =>
            option_map (Node l (Int (v + add)) (Int (e + add)))
                       (generic_visit add ch)
        end
    | _ => option_map (Node l ln eln) (generic_visit add ch)
    end.
Proof.
  assert (E : forall ns : list (ast L),
             (fix visit_all (ns : list (ast L)) : option (list (ast L)) :=
                match ns with
                | [] => Some []
                | n :: ns' =>
                    match visit add n with
                    | Some n' =>
                        match visit_all ns' with
                        | Some r => Some (n' :: r)
                        | None => None
                        end
                    | None => None
                    end
                end) ns = generic_visit add ns).
  { induction ns as [|n ns IH]; [reflexivity|].
    cbn [generic_visit]. rewrite <- IH. reflexivity. }
  destruct ln, eln; cbn [visit]; rewrite ?E; reflexivity.
Qed.

Lemma generic_visit_cons (add : Z) (n : ast L) (ns : list (ast L)) :
  generic_visit add (n :: ns)
  = match visit add n with
    | Some n' =>
        match generic_visit add ns with
        | Some r => Some (n' :: r)
        | None => None
        end
    | None => None
    end.
Proof. reflexivity. Qed.

(** The visit of a node that passes the assertion, once its children
    have been visited. *)
Lemma visit_node_ok (add : Z) (l : L) (ln eln : attr) (ch ch' : list (ast L)) :
  position_ok (ln, eln) = true ->
  generic_visit add ch = Some ch' ->
  visit add (Node l ln eln ch)
  = Some (Node l (fst (shift_position add (ln, eln)))
                 (snd (shift_position add (ln, eln))) ch').
Proof.
  intros Hok Hch. rewrite visit_node, Hch.
  destruct ln, eln; try reflexivity. discriminate.
Qed.

Lemma visit_node_inv (add : Z) (l : L) (ln eln : attr) (ch : list (ast L))
    (t' : ast L) :
  visit add (Node l ln eln ch) = Some t' ->
  position_ok (ln, eln) = true
  /\ exists ch', generic_visit add ch = Some ch'
                 /\ t' = Node l (fst (shift_position add (ln, eln)))
                                (snd (shift_position add (ln, eln))) ch'.
Proof.
  rewrite visit_node.
  destruct ln, eln; try discriminate;
    destruct (generic_visit add ch) as [ch'|]; try discriminate;
    intros [= <-]; (split; [reflexivity|]); exists ch'; split; reflexivity.
Qed.

(** X8. What the visitor changes.  When the visit of a tree with offset
    [add] succeeds, the result is the same tree (same nodes, labels and
    order) in which the position of every node is moved by [add]: the
    [lineno] of every node that has an integer one, and its [end_lineno]
    with it, and no other attribute. *)
Theorem visit_moves_every_position (add : Z) (t t' : ast L) :
  visit add t = Some t' ->
  skeleton t' = skeleton t
  /\ positions t' = map (shift_position add) (positions t).
Proof.
  revert t'. induction t as [l ln eln ch IH] using ast_nested_ind.
  intros t' H. apply visit_node_inv in H as (Hok & ch' & Hch & ->).
  assert (Hall : map skeleton ch' = map skeleton ch
                 /\ flat_map positions ch'
                    = map (shift_position add) (flat_map positions ch)).
  { clear Hok. revert ch' Hch.
    induction IH as [|c ch Hc _ IHch]; intros ch' Hch.
    - injection Hch as <-. split; reflexivity.
    - rewrite generic_visit_cons in Hch.
      destruct (visit add c) as [c'|] eqn:Ec; [|discriminate].
      destruct (generic_visit add ch) as [r|] eqn:Er; [|discriminate].
      injection Hch as <-. destruct (Hc c' eq_refl) as [Hs Hp].
      destruct (IHch r eq_refl) as [Hs' Hp'].
      split; simpl.
      + rewrite Hs, Hs'. reflexivity.
      + rewrite map_app, Hp, Hp'. reflexivity. }
  destruct Hall as [Hs Hp]. split.
  - simpl. rewrite Hs. reflexivity.
  - cbn [positions map]. rewrite Hp.
    destruct (shift_position add (ln, eln)); reflexivity.
Qed.

(** X9. When the visitor fails.  The visit succeeds exactly when every
    node of the tree passes the assertion, that is, when no node has an
    integer [lineno] together with an [end_lineno] that is present and
    not an integer; this does not depend on the offset. *)
Theorem visit_succeeds_iff (add : Z) (t : ast L) :
  is_Some (visit add t) <-> forallb position_ok (positions t) = true.
Proof.
  induction t as [l ln eln ch IH] using ast_nested_ind.
  assert (Hall : is_Some (generic_visit add ch)
                 <-> forallb position_ok (flat_map positions ch) = true).
  { induction IH as [|c ch Hc _ IHch]; simpl.
    - split; eauto.
    - rewrite forallb_app, andb_true_iff, <- Hc, <- IHch.
      destruct (visit add c) as [c'|]; [|split; [intros [? [=]]|intros [[? [=]] _]]].
      destruct (generic_visit add ch) as [r|];
        [split; eauto|split; [intros [? [=]]|intros [_ [? [=]]]]]. }
  cbn [positions forallb]. rewrite andb_true_iff, <- Hall. split.
  - intros [t' H]. apply visit_node_inv in H as (Hok & ch' & Hch & _).
    split; [exact Hok|eauto].
  - intros [Hok [ch' Hch]]. rewrite (visit_node_ok _ _ _ _ _ _ Hok Hch).
    eauto.
Qed.

Lemma shift_position_shift (a b : Z) (p : attr * attr) :
  position_ok p = true ->
  shift_position b (shift_position a p) = shift_position (a + b) p.
Proof.
  destruct p as [[| |v] [| |e]]; simpl; try reflexivity; try discriminate;
    intros _; rewrite <- !Z.add_assoc; reflexivity.
Qed.

Lemma shift_position_ok (a : Z) (p : attr * attr) :
  position_ok p = true -> position_ok (shift_position a p) = true.
Proof. destruct p as [[| |v] [| |e]]; simpl; auto. Qed.

Lemma shift_position_zero (p : attr * attr) : shift_position 0 p = p.
Proof.
  destruct p as [[| |v] [| |e]]; simpl; try reflexivity;
    rewrite ?Z.add_0_r; reflexivity.
Qed.

(** X10. Visits compose.  A second visit of the visited tree, with
    offset [b] after offset [a], gives what one visit of the original
    tree with offset [a + b] gives; in particular the visit with offset
    [- a] restores the original tree.  And the visit with offset 0, when
    it succeeds, returns the tree as it is: leaving the visit out for a
    tag on line 1, as [exec_py] does, changes no position. *)
Theorem visit_compose (a b : Z) (t t1 : ast L) :
  visit a t = Some t1 ->
  visit b t1 = visit (a + b) t
  /\ (a + b = 0 -> visit b t1 = Some t)
  /\ (a = 0 -> t1 = t).
Proof.
  intros H.
  assert (Hzero : forall u u' : ast L, visit 0 u = Some u' -> u' = u).
  { clear. intros u. induction u as [l ln eln ch IH] using ast_nested_ind.
    intros t' H. apply visit_node_inv in H as (Hok & ch' & Hch & ->).
    rewrite shift_position_zero. cbn [fst snd]. f_equal.
    clear Hok. revert ch' Hch.
    induction IH as [|c ch Hc _ IHch]; intros ch' Hch.
    - injection Hch as <-. reflexivity.
    - rewrite generic_visit_cons in Hch.
      destruct (visit 0 c) as [c'|] eqn:Ec; [|discriminate].
      destruct (generic_visit 0 ch) as [r|] eqn:Er; [|discriminate].
      injection Hch as <-. f_equal; [apply Hc; reflexivity|apply IHch; reflexivity]. }
  assert (Hcomp : forall (u u1 : ast L),
             visit a u = Some u1 -> visit b u1 = visit (a + b) u).
  { clear H Hzero. clear t t1. intros u.
    induction u as [l ln eln ch IH] using ast_nested_ind.
    intros u1 H. apply visit_node_inv in H as (Hok & ch' & Hch & ->).
    assert (Hall : generic_visit b ch' = generic_visit (a + b) ch).
    { clear Hok. revert ch' Hch.
      induction IH as [|c ch Hc _ IHch]; intros ch' Hch.
      - injection Hch as <-. reflexivity.
      - rewrite generic_visit_cons in Hch.
        destruct (visit a c) as [c'|] eqn:Ec; [|discriminate].
        destruct (generic_visit a ch) as [r|] eqn:Er; [|discriminate].
        injection Hch as <-. rewrite !generic_visit_cons.
        rewrite (Hc c' eq_refl), (IHch r eq_refl). reflexivity. }
    destruct (generic_visit (a + b) ch) as [ch''|] eqn:E.
    - rewrite (visit_node_ok (a + b) l ln eln ch ch'' Hok E).
      pose proof (shift_position_ok a _ Hok) as Hok'.
      destruct (shift_position a (ln, eln)) as [ln1 eln1] eqn:Es.
      cbn [fst snd]. rewrite (visit_node_ok b l ln1 eln1 ch' ch'' Hok' Hall).
      rewrite <- Es, shift_position_shift by exact Hok. reflexivity.
    - rewrite !visit_node, Hall, E.
      destruct (shift_position a (ln, eln)) as [[| |v] [| |e]];
        destruct ln, eln; reflexivity. }
  split; [apply Hcomp, H|]. split.
  - intros Hab. rewrite (Hcomp _ _ H), Hab.
    destruct (visit 0 t) as [t0|] eqn:E0.
    + rewrite (Hzero _ _ E0). reflexivity.
    + exfalso. assert (Hs : is_Some (visit a t)) by eauto.
      apply visit_succeeds_iff in Hs.
      apply (visit_succeeds_iff 0) in Hs. rewrite E0 in Hs.
      destruct Hs; discriminate.
  - intros ->. apply Hzero, H.
Qed.

End VisitFacts.

(** ** Failures of one evaluation *)

Section ExecFacts.
Context {value label code : Type}.
Variable ast_parse : text -> text -> SyntaxError + ast label.
Variable py_compile : ast label -> text -> PyExc + code.
Variable py_exec :
  code -> gmap string value -> text * gmap string value * option PyExc.
Variable read_file : text -> option text.

Local Abbreviation St := (@State value).
Local Abbreviation exec_py' :=
  (exec_py ast_parse py_compile py_exec read_file).

Lemma shift_syntax_error_msg (e e' : SyntaxError) (fn : text) (off : Z) :
  shift_syntax_error read_file e fn off = Ok e' -> se_msg e' = se_msg e.
Proof.
  unfold shift_syntax_error.
  destruct (se_lineno e) as [| |n]; [| |destruct (se_end_lineno e)];
    cbn [se_text]; try discriminate;
    destruct (se_text e); try (intros [= <-]; reflexivity);
    destruct (read_file fn); try (intros [= <-]; reflexivity);
    destruct (lookup_line _ _); intros [= <-]; reflexivity.
Qed.

Lemma shift_syntax_error_raise (e : SyntaxError) (fn : text) (off : Z)
    (r : raised) :
  shift_syntax_error read_file e fn off = Raise r ->
  r = Uncaught ExcAssertionError.
Proof.
  unfold shift_syntax_error.
  destruct (se_lineno e) as [| |n]; [| |destruct (se_end_lineno e)];
    cbn [se_text]; try (intros [= <-]; reflexivity);
    destruct (se_text e); try discriminate;
    destruct (read_file fn); try discriminate;
    destruct (lookup_line _ _); discriminate.
Qed.

(** The outcome of one evaluation, by the stage at which it ends. *)
Lemma exec_py_outcome (src : source) (fn : text) (ln : Z) (st st1 : St)
    (s : text) :
  read_source src st = (Ok s, st1) ->
  fst (exec_py' src fn ln st)
  = if negb (0 <=? ln - 1) then Raise (Uncaught ExcAssertionError)
    else
      match ast_parse s fn with
      | inl e0 =>
          if ln - 1 =? 0 then Raise (PythonError (ExcSyntaxError e0))
          else
            match shift_syntax_error read_file e0 fn (ln - 1) with
            | Ok e1 => Raise (PythonError (ExcSyntaxError e1))
            | Raise r => Raise r
            end
      | inr t =>
          match shifted_tree ln t with
          | None => Raise (Uncaught ExcAssertionError)
          | Some t' =>
              match py_compile t' fn with
              | inl e => Raise (Uncaught e)
              | inr c => exec_outcome (snd (py_exec c (exec_globals st)))
              end
          end
      end.
Proof.
  intros Hr.
  assert (Hg : exec_globals st1 = exec_globals st).
  { destruct src; simpl in Hr; injection Hr as _ <-; reflexivity. }
  unfold exec_py, bind at 1. rewrite Hr.
  destruct (negb (0 <=? ln - 1)); [reflexivity|].
  destruct (ast_parse s fn) as [e0|t].
  - destruct (ln - 1 =? 0); [reflexivity|].
    destruct (shift_syntax_error read_file e0 fn (ln - 1)); reflexivity.
  - unfold shifted_tree, bind at 1.
    assert (Hrest : forall t' : ast label,
      fst (match py_compile t' fn with
           | inl e => throw (Uncaught e)
           | inr c =>
               bind (gets exec_globals)
                 (fun g =>
                    let '(printed, g', exc) := py_exec c g in
                    bind (modify (set_globals g'))
                      (fun _ =>
                         bind (stdout_write printed)
                           (fun _ =>
                              match exc with
                              | None => ret tt
                              | Some e =>
                                  if is_Exception e
                                  then throw (PythonError e)
                                  else throw (Uncaught e)
                              end)))
           end st1)
      = match py_compile t' fn with
        | inl e => Raise (Uncaught e)
        | inr c => exec_outcome (snd (py_exec c (exec_globals st)))
        end).
    { intros t'. destruct (py_compile t' fn) as [e|c]; [reflexivity|].
      unfold bind, gets, modify, stdout_write. rewrite Hg.
      destruct (py_exec c (exec_globals st)) as [[printed g'] exc].
      cbn [sys_stdout set_globals snd].
      destruct (sys_stdout st1); destruct exc as [e|];
        unfold exec_outcome; try destruct (is_Exception e); reflexivity. }
    destruct (ln - 1 =? 0).
    + unfold ret. apply Hrest.
    + destruct (visit (ln - 1) t) as [t'|]; [|reflexivity].
      unfold ret. apply Hrest.
Qed.

(** X11. What [exec_py] wraps and what it lets through, for the source
    [s] that this call reads.  It never raises the malformed-tag
    diagnostic.  A script diagnostic it raises wraps either the syntax
    error with which the parser rejected [s] (the parser's message
    kept), or the exception with which the code compiled from the
    shifted tree of [s] ended, run in the processor's namespace, and
    that exception is of class [Exception].  An error that [compile]
    raises on the shifted tree of [s] is not wrapped: it leaves
    [exec_py] as it is.  The exception with which the code ends is
    wrapped exactly when it is of class [Exception], and leaves
    [exec_py] as it is otherwise. *)
Theorem exec_py_raise_origin (src : source) (fn : text) (ln : Z)
    (st st1 : St) (s : text) :
  read_source src st = (Ok s, st1) ->
  (forall msg, fst (exec_py' src fn ln st) <> Raise (XmlError msg))
  /\ (forall e,
        fst (exec_py' src fn ln st) = Raise (PythonError e) ->
        (exists e0 e1,
            ast_parse s fn = inl e0 /\ e = ExcSyntaxError e1
            /\ se_msg e1 = se_msg e0)
        \/ (exists t t' c,
              ast_parse s fn = inr t /\ shifted_tree ln t = Some t'
              /\ py_compile t' fn = inr c
              /\ snd (py_exec c (exec_globals st)) = Some e
              /\ is_Exception e = true))
  /\ (forall t t' e,
        1 <= ln ->
        ast_parse s fn = inr t ->
        shifted_tree ln t = Some t' ->
        py_compile t' fn = inl e ->
        fst (exec_py' src fn ln st) = Raise (Uncaught e))
  /\ (forall t t' c e,
        1 <= ln ->
        ast_parse s fn = inr t ->
        shifted_tree ln t = Some t' ->
        py_compile t' fn = inr c ->
        snd (py_exec c (exec_globals st)) = Some e ->
        fst (exec_py' src fn ln st)
        = Raise (if is_Exception e then PythonError e else Uncaught e)).
Proof.
  intros Hr. rewrite (exec_py_outcome src fn ln st st1 s Hr).
  split; [|split; [|split]].
  - intros msg.
    destruct (negb (0 <=? ln - 1)); [discriminate|].
    destruct (ast_parse s fn) as [e0|t].
    + destruct (ln - 1 =? 0); [discriminate|].
      destruct (shift_syntax_error read_file e0 fn (ln - 1)) as [e1|r] eqn:Es;
        [discriminate|].
      rewrite (shift_syntax_error_raise _ _ _ _ Es). discriminate.
    + destruct (shifted_tree ln t) as [t'|]; [|discriminate].
      destruct (py_compile t' fn) as [e|c]; [discriminate|].
      destruct (snd (py_exec c (exec_globals st))) as [e|]; [|discriminate].
      cbn [exec_outcome]. destruct (is_Exception e); discriminate.
  - intros e.
    destruct (negb (0 <=? ln - 1)); [discriminate|].
    destruct (ast_parse s fn) as [e0|t].
    + destruct (ln - 1 =? 0).
      * intros [= <-]. left. exists e0, e0. auto.
      * destruct (shift_syntax_error read_file e0 fn (ln - 1))
          as [e1|r] eqn:Es.
        -- intros [= <-]. left. exists e0, e1.
           split; [reflexivity|]. split; [reflexivity|].
           eapply shift_syntax_error_msg, Es.
        -- rewrite (shift_syntax_error_raise _ _ _ _ Es). discriminate.
    + destruct (shifted_tree ln t) as [t'|] eqn:Hs; [|discriminate].
      destruct (py_compile t' fn) as [e1|c] eqn:Hc; [discriminate|].
      destruct (snd (py_exec c (exec_globals st))) as [e1|] eqn:He;
        [|discriminate].
      cbn [exec_outcome]. destruct (is_Exception e1) eqn:Hie;
        [|discriminate].
      intros [= <-]. right. exists t, t', c. auto.
  - intros t t' e Hln Hp Hs Hc.
    replace (0 <=? ln - 1) with true by (symmetry; apply Z.leb_le; lia).
    cbn [negb]. rewrite Hp, Hs, Hc. reflexivity.
  - intros t t' c e Hln Hp Hs Hc He.
    replace (0 <=? ln - 1) with true by (symmetry; apply Z.leb_le; lia).
    cbn [negb]. rewrite Hp, Hs, Hc, He. cbn [exec_outcome].
    destruct (is_Exception e); reflexivity.
Qed.

(** X12. The source line shown with a syntax error.  For a tag that
    starts after line 1, when the parser gives the error a line and a
    text and the file named as the source can be reopened and has the
    line at the corrected number, the diagnostic carries that line of the
    file as its text, the corrected line number, the end line moved by
    the same offset, and the parser's message.  For a tag on line 1
    the error of the parser is passed on as it is. *)
Theorem syntax_error_text (s fn : text) (ln n : Z) (e : SyntaxError)
    (st : St) (old file line_text : text) :
  1 <= ln ->
  ast_parse s fn = inl e ->
  se_lineno e = Int n ->
  se_end_lineno e <> NotInt ->
  se_text e = Some old ->
  read_file fn = Some file ->
  1 <= ln + n - 1 ->
  readlines file !! Z.to_nat (ln + n - 2) = Some line_text ->
  exec_py' (SrcStr s) fn ln st
  = (Raise
       (PythonError
          (ExcSyntaxError
             (if ln =? 1 then e
              else {| se_msg := se_msg e;
                      se_lineno := Int (ln + n - 1);
                      se_end_lineno :=
                        match se_end_lineno e with
                        | Int m => Int (m + (ln - 1))
                        | a => a
                        end;
                      se_text := Some line_text |}))), st).
Proof.
  intros Hln Hp Hn Hend Ht Hf Hpos Hline.
  unfold exec_py, read_source, bind, ret.
  replace (0 <=? ln - 1) with true by (symmetry; apply Z.leb_le; lia).
  cbn [negb]. rewrite Hp.
  destruct (ln =? 1) eqn:E1.
  - apply Z.eqb_eq in E1. subst ln. reflexivity.
  - apply Z.eqb_neq in E1.
    replace (ln - 1 =? 0) with false by (symmetry; apply Z.eqb_neq; lia).
    unfold shift_syntax_error. rewrite Hn.
    assert (Hlook : lookup_line file (Int (n + (ln - 1))) = Some line_text).
    { unfold lookup_line.
      replace (1 <=? n + (ln - 1)) with true
        by (symmetry; apply Z.leb_le; lia).
      replace (n + (ln - 1) - 1) with (ln + n - 2) by lia. exact Hline. }
    destruct (se_end_lineno e) as [| |m]; [|congruence|];
      cbn [se_text se_lineno se_msg se_end_lineno]; rewrite Ht, Hf, Hlook;
      unfold throw; repeat f_equal; lia.
Qed.

End ExecFacts.

(** ** Several tags on one line *)

Section Chained.
Context {value label code : Type}.
Variable ast_parse : text -> text -> SyntaxError + ast label.
Variable py_compile : ast label -> text -> PyExc + code.
Variable py_exec :
  code -> gmap string value -> text * gmap string value * option PyExc.
Variable read_file : text -> option text.
Variable pi_target : text.

Local Abbreviation St := (@State value).
Local Abbreviation input' :=
  (input ast_parse py_compile py_exec read_file pi_target).

(** X13. Two single-line tags on one line, in a document that is
    ordinary text otherwise.  The tags are evaluated from left to right,
    each as starting on that line, the second in the namespace the first
    left.  When both snippets run to their end and the substituted line
    holds no tag opening, the sink receives the document with each tag
    replaced by what its snippet printed, the text before, between and
    after the tags verbatim. *)
Theorem two_tags_on_a_line (fn content : text) (st : St)
    (pre : list text) (u1 v1 u2 v2 : text) (rest : list text)
    (n1 n2 : nat) (g1 g2 : text) (t1 t1' t2 t2' : ast label) (c1 c2 : code)
    (p1 p2 : text) (gA gB : gmap string value) :
  readlines content = pre ++ (u1 ++ v1) :: rest ->
  Forall (fun l => Regex.search_beg pi_target l = None) pre ->
  (forall j, (j < length u1)%nat ->
             Regex.tag_here pi_target (drop j (u1 ++ v1)) = None) ->
  Regex.tag_here pi_target v1 = Some (n1, g1) ->
  drop n1 v1 = u2 ++ v2 ->
  (forall j, (j < length u2)%nat ->
             Regex.tag_here pi_target (drop j (u2 ++ v2)) = None) ->
  Regex.tag_here pi_target v2 = Some (n2, g2) ->
  (forall j, Regex.tag_here pi_target (drop j (drop n2 v2)) = None) ->
  ast_parse g1 fn = inr t1 ->
  shifted_tree (Z.of_nat (length pre) + 1) t1 = Some t1' ->
  py_compile t1' fn = inr c1 ->
  py_exec c1 (exec_globals st) = (p1, gA, None) ->
  ast_parse g2 fn = inr t2 ->
  shifted_tree (Z.of_nat (length pre) + 1) t2 = Some t2' ->
  py_compile t2' fn = inr c2 ->
  py_exec c2 gA = (p2, gB, None) ->
  Regex.search_beg pi_target (u1 ++ p1 ++ u2 ++ p2 ++ drop n2 v2) = None ->
  Forall (fun l => Regex.search_beg pi_target l = None) rest ->
  exists st',
    input' fn content st = (Ok tt, st')
    /\ out_stream st'
       = out_stream st ++ concat pre ++ u1 ++ p1 ++ u2 ++ p2 ++ drop n2 v2
         ++ concat rest
    /\ exec_globals st' = gB.
Proof.
  intros Hlines Hpre Hu1 Hv1 Hd Hu2 Hv2 Hafter Hp1 Hs1 Hc1 He1
    Hp2 Hs2 Hc2 He2 Hclosed Hrest.
  set (st0 := set_sys_stdout PrintBuffer st).
  destruct (scan_passthrough ast_parse py_compile py_exec read_file
              pi_target fn pre Hpre init_scan st0 eq_refl) as [beg Epre].
  rewrite input_eq, Hlines, scan_app. fold st0. rewrite Epre.
  rewrite scan_cons, process_line_outside by reflexivity.
  cbn [line_num init_scan this_pi_tag_beg_ln].
  erewrite scan_tags_closed; cycle 1.
  - eapply find_open_in_tag_line, Hv1.
  - rewrite sub_tag_skip by exact Hu1. unfold bind at 1.
    erewrite sub_tag_match_ok; [reflexivity|exact Hv1| |].
    + apply repl_at_ok.
      eapply exec_and_dump_ok; [lia|reflexivity|exact Hp1|exact Hs1|
                                exact Hc1|exact He1].
    + rewrite Hd.
      eapply sub_tag_one_tag; [exact Hu2|exact Hv2|exact Hafter|lia|
                               reflexivity|exact Hp2|exact Hs2|exact Hc2|
                               exact He2].
  - rewrite <- ?app_assoc. exact Hclosed.
  - match goal with
    | |- context [scan ast_parse py_compile py_exec read_file pi_target
                    fn rest ?sc ?s] =>
        destruct (scan_passthrough ast_parse py_compile py_exec read_file
                    pi_target fn rest Hrest sc s eq_refl) as [beg2 ->]
    end.
    eexists. split; [reflexivity|]. split; [|reflexivity].
    cbn. rewrite <- !app_assoc. reflexivity.
Qed.

End Chained.

(** ** The driver *)

Section MainFacts.
Context {value label code : Type}.
Variable ast_parse : text -> text -> SyntaxError + ast label.
Variable py_compile : ast label -> text -> PyExc + code.
Variable py_exec :
  code -> gmap string value -> text * gmap string value * option PyExc.
Variable read_file : text -> option text.
Variable pi_target : text.
Variable print_exception : PyExc -> bool -> text.

Local Abbreviation St := (@State value).
Local Abbreviation Comp := (@M value).
Local Abbreviation exec_py' :=
  (exec_py ast_parse py_compile py_exec read_file).
Local Abbreviation input' :=
  (input ast_parse py_compile py_exec read_file pi_target).
Local Abbreviation main' :=
  (main ast_parse py_compile py_exec read_file pi_target).
Local Abbreviation commands :=
  (for_each (fun c => exec_py' (SrcStr c) (str "<command-line>") 1)).

Lemma keeps_for_each (R : St -> St -> Prop) {A} (f : A -> Comp unit)
    (l : list A) :
  (forall st, R st st) ->
  (forall a b c, R a b -> R b c -> R a c) ->
  (forall a, keeps R (f a)) ->
  keeps R (for_each f l).
Proof.
  intros Hr Ht Hf. induction l as [|a l IH]; simpl.
  - apply keeps_ret, Hr.
  - apply (keeps_bind _ Ht); [apply Hf|]. intros _. exact IH.
Qed.

Lemma quiet_commands (cmds : list text) : keeps (@quiet value) (commands cmds).
Proof.
  apply keeps_for_each; [apply quiet_refl|apply quiet_trans|].
  intros c. apply quiet_exec_py.
Qed.

Lemma appends_input (fn content : text) :
  keeps (@appends value) (input' fn content).
Proof.
  intros st. rewrite input_eq.
  destruct (appends_scan ast_parse py_compile py_exec read_file pi_target
              fn (readlines content) init_scan
              (set_sys_stdout PrintBuffer st)) as (Hp & Hs & Hr).
  specialize (Hr eq_refl).
  destruct (scan ast_parse py_compile py_exec read_file pi_target fn
              (readlines content) init_scan (set_sys_stdout PrintBuffer st))
    as [[sc|r] st']; unfold appends; simpl in *; auto.
Qed.

Lemma appends_main_body (cmds : list text) (inputs : list (text * text))
    (stdin : text) :
  keeps (@appends value)
    (main_body ast_parse py_compile py_exec read_file pi_target
       cmds inputs stdin).
Proof.
  unfold main_body. apply (keeps_bind _ appends_trans).
  - apply keeps_quiet_appends, quiet_commands.
  - intros _. destruct inputs as [|i inputs]; [apply appends_input|].
    apply keeps_for_each; [apply appends_refl|apply appends_trans|].
    intros j. apply appends_input.
Qed.

Lemma for_each_app {A} (f : A -> Comp unit) (l1 l2 : list A) (st : St) :
  for_each f (l1 ++ l2) st
  = match for_each f l1 st with
    | (Ok _, st') => for_each f l2 st'
    | (Raise r, st') => (Raise r, st')
    end.
Proof.
  revert st. induction l1 as [|a l1 IH]; intros st; [reflexivity|].
  simpl. unfold bind. destruct (f a st) as [[[]|r] st']; [apply IH|reflexivity].
Qed.

(** X14. A pre-execution command that fails ends the run at once: the
    commands after it are not evaluated and no document is read; the run
    ends with that failure, in the state the failing command left.  A
    sink that is a stream of its own, and not the standard output to
    which the commands print, has then received nothing. *)
Theorem failing_command_stops_run (cmds1 : list text) (c : text)
    (cmds2 : list text) (inputs : list (text * text)) (stdin : text)
    (st1 : St) (r : raised) :
  commands cmds1 init = (Ok tt, st1) ->
  fst (exec_py' (SrcStr c) (str "<command-line>") 1 st1) = Raise r ->
  main' (cmds1 ++ c :: cmds2) inputs stdin
  = (Raise r, snd (exec_py' (SrcStr c) (str "<command-line>") 1 st1))
  /\ out_stream (snd (main' (cmds1 ++ c :: cmds2) inputs stdin)) = [].
Proof.
  intros H1 Hc.
  assert (Hm : main' (cmds1 ++ c :: cmds2) inputs stdin
               = (Raise r,
                  snd (exec_py' (SrcStr c) (str "<command-line>") 1 st1))).
  { unfold main, main_body, bind at 1. rewrite for_each_app, H1.
    cbn [for_each]. unfold bind at 1.
    destruct (exec_py' (SrcStr c) (str "<command-line>") 1 st1)
      as [[[]|r0] st2]; simpl in Hc; [discriminate|].
    injection Hc as ->. reflexivity. }
  split; [exact Hm|]. rewrite Hm. cbn [snd].
  destruct (quiet_exec_py ast_parse py_compile py_exec read_file
              (SrcStr c) (str "<command-line>") 1 st1) as (Ho & _).
  rewrite Ho.
  destruct (quiet_commands cmds1 init) as (Ho1 & _). rewrite H1 in Ho1.
  exact Ho1.
Qed.

Lemma documents_passthrough (docs : list (text * text)) (st : St) :
  Forall (fun d => has_opening pi_target (snd d) = false) docs ->
  for_each (fun i => input' (fst i) (snd i)) docs st
  = (Ok tt, set_out (fun o => o ++ concat (map snd docs)) st).
Proof.
  intros H. revert st. induction H as [|d docs Hd _ IH]; intros st.
  - simpl. unfold ret. rewrite set_out_nil. reflexivity.
  - simpl. unfold bind.
    rewrite (passthrough_input ast_parse py_compile py_exec read_file
               pi_target (fst d) (snd d) st Hd).
    rewrite IH, set_out_set_out. reflexivity.
Qed.

(** X15. The documents named on the command line are processed in the
    order given and written to the one sink one after the other: when
    the commands run to their end and no document holds a tag opening,
    the sink receives the documents concatenated, and the standard input
    is not read.  Only when no document is named is the standard input
    processed instead. *)
Theorem documents_in_order (cmds : list text) (inputs : list (text * text))
    (stdin : text) (st1 : St) :
  commands cmds init = (Ok tt, st1) ->
  Forall (fun d => has_opening pi_target (snd d) = false) inputs ->
  (inputs <> [] ->
   main' cmds inputs stdin
   = (Ok tt, set_out (fun o => o ++ concat (map snd inputs)) st1))
  /\ (inputs = [] -> has_opening pi_target stdin = false ->
      main' cmds inputs stdin = (Ok tt, set_out (fun o => o ++ stdin) st1)).
Proof.
  intros H1 Hdocs. unfold main, main_body, bind. rewrite H1. split.
  - intros Hne. destruct inputs as [|i inputs]; [congruence|].
    apply documents_passthrough, Hdocs.
  - intros -> Hstdin.
    apply (passthrough_input ast_parse py_compile py_exec read_file
             pi_target (str "<stdin>") stdin st1 Hstdin).
Qed.

Lemma main_leaves_stdout (cmds : list text) (inputs : list (text * text))
    (stdin : text) :
  sys_stdout (snd (main' cmds inputs stdin)) = RealStdout.
Proof.
  destruct (appends_main_body cmds inputs stdin init) as (_ & H & _).
  exact H.
Qed.

(** X16. How a diagnostic caught by [main] is reported.  The
    malformed-tag diagnostic: the line [Bad XML syntax: ] with the
    message is written to the real standard output (where [sys.stdout]
    points again when the run has ended), and not to the error stream,
    which receives only the two colour sequences, and those only when
    colour is not switched off and the error stream is a terminal.  The
    script diagnostic: the exception is written to the error stream,
    without the stack for a syntax error and with it otherwise, between
    the same colour sequences; the state is left as it is.  In both cases
    [main] returns normally. *)
Theorem diagnostics_report (cmds : list text) (inputs : list (text * text))
    (stdin : text) (no_color isatty : bool) (st : St) :
  (forall msg,
      main' cmds inputs stdin = (Raise (XmlError msg), st) ->
      main_reporting ast_parse py_compile py_exec read_file pi_target
        print_exception
        cmds inputs stdin no_color isatty
      = (Ok tt,
         set_real_stdout
           (fun o => o ++ str "Bad XML syntax: " ++ msg ++ [newline]) st,
         if negb no_color && isatty
         then print_line color_on ++ print_line color_off else []))
  /\ (forall e,
        main' cmds inputs stdin = (Raise (PythonError e), st) ->
        main_reporting ast_parse py_compile py_exec read_file pi_target
        print_exception
          cmds inputs stdin no_color isatty
        = (Ok tt, st,
           (if negb no_color && isatty then print_line color_on else [])
           ++ print_exception e
                (match e with ExcSyntaxError _ => false | _ => true end)
           ++ (if negb no_color && isatty then print_line color_off
               else []))).
Proof.
  split.
  - intros msg Hm. pose proof (main_leaves_stdout cmds inputs stdin) as Hso.
    unfold main_reporting. rewrite Hm in *. cbn [snd] in Hso.
    unfold XmlError_print, stdout_write. rewrite Hso. cbn [snd].
    assert (Hc : negb (effective_no_color no_color isatty)
                 = negb no_color && isatty)
      by (destruct no_color, isatty; reflexivity).
    rewrite Hc. unfold set_real_stdout, print_line.
    destruct (negb no_color && isatty); cbn; rewrite <- ?app_assoc;
      reflexivity.
  - intros e Hm. unfold main_reporting. rewrite Hm.
    unfold PythonError_print.
    destruct no_color, isatty, e; cbn; rewrite ?app_nil_r, <- ?app_assoc;
      reflexivity.
Qed.

End MainFacts.

(** ** The namespace, from snippet to snippet *)

Section Threaded.
Context {value label code : Type}.
Variable ast_parse : text -> text -> SyntaxError + ast label.
Variable py_compile : ast label -> text -> PyExc + code.
Variable py_exec :
  code -> gmap string value -> text * gmap string value * option PyExc.
Variable read_file : text -> option text.
Variable pi_target : text.

Local Abbreviation St := (@State value).
Local Abbreviation exec_py' :=
  (exec_py ast_parse py_compile py_exec read_file).
Local Abbreviation scan_tags' :=
  (scan_tags ast_parse py_compile py_exec read_file pi_target).
Local Abbreviation process_line' :=
  (process_line ast_parse py_compile py_exec read_file pi_target).
Local Abbreviation scan' :=
  (scan ast_parse py_compile py_exec read_file pi_target).
Local Abbreviation input' :=
  (input ast_parse py_compile py_exec read_file pi_target).
Local Abbreviation main_body' :=
  (main_body ast_parse py_compile py_exec read_file pi_target).
Local Abbreviation substituted' :=
  (substituted ast_parse py_compile py_exec pi_target).
Local Abbreviation scanned' :=
  (scanned ast_parse py_compile py_exec pi_target).
Local Abbreviation document_run' :=
  (document_run ast_parse py_compile py_exec pi_target).
Local Abbreviation documents_run' :=
  (documents_run ast_parse py_compile py_exec pi_target).
Local Abbreviation commands_run' :=
  (commands_run ast_parse py_compile py_exec).
Local Abbreviation line_sub fn ln :=
  (sub_tag pi_target
     (fun g : text =>
        bind (exec_and_dump ast_parse py_compile py_exec read_file
                fn ln (SrcStr g) false)
             (fun r : option text =>
                match r with
                | Some t => ret t
                | None => throw (Uncaught (ExcOther (str "TypeError") true))
                end)) 0).

Lemma find_None_tag_here (s : text) :
  find Regex.open_marker s = None ->
  forall j, Regex.tag_here pi_target (drop j s) = None.
Proof.
  intros H j. unfold Regex.tag_here.
  destruct (le_lt_dec j (length s)) as [Hle|Hgt].
  - rewrite (find_None_drop _ _ H j Hle). reflexivity.
  - rewrite drop_ge by lia. reflexivity.
Qed.

(** The substitution does what [substituted] says. *)
Lemma substituted_sound (fn : text) (ln : Z) (g : gmap string value)
    (s out : text) (g' : gmap string value) :
  substituted' fn ln g s out g' ->
  1 <= ln ->
  forall st : St,
    exec_globals st = g ->
    sys_stdout st = PrintBuffer ->
    exists st',
      line_sub fn ln s st = (Ok out, st')
      /\ exec_globals st' = g'
      /\ out_stream st' = out_stream st
      /\ sys_stdout st' = PrintBuffer
      /\ real_stdout st' = real_stdout st.
Proof.
  intros H Hln.
  induction H as [g s Hno|g u v n src printed g1 out g' Hu Hv Hev _ IH];
    intros st Hg Hso.
  - exists st. rewrite sub_tag_no_match by exact Hno. auto.
  - destruct Hev as (t & t' & c & Hp & Hs & Hc & He). subst g.
    destruct (IH (after_capture printed g1 st) eq_refl Hso)
      as (st' & E & Hg' & Ho & Hso' & Hr).
    exists st'. split; [|auto].
    rewrite sub_tag_skip by exact Hu. unfold bind at 1.
    erewrite sub_tag_match_ok; [reflexivity|exact Hv| |exact E].
    apply repl_at_ok. eapply exec_and_dump_ok; eassumption.
Qed.

Lemma scan_tags_substituted_closed (fn : text) (ln : Z) (b : bool) (beg : Z)
    (line line1 : text) (st st1 : St) :
  line_sub fn ln line st = (Ok line1, st1) ->
  Regex.search_beg pi_target line1 = None ->
  exists beg',
    scan_tags' fn ln b beg line st
    = (Ok {| line_num := ln; in_pi_tag := b; this_pi_tag_beg_ln := beg' |},
       set_out (fun o => o ++ line1) st1).
Proof.
  intros E Hs. destruct (find Regex.open_marker line) as [i|] eqn:F.
  - exists ln. apply scan_tags_closed; [rewrite F; eauto|exact E|exact Hs].
  - rewrite sub_tag_no_match in E by (apply find_None_tag_here, F).
    injection E as <- <-.
    exists beg. unfold scan_tags. rewrite F. reflexivity.
Qed.

Lemma scan_tags_substituted_opened (fn : text) (ln : Z) (b : bool) (beg : Z)
    (line line1 : text) (m_start m_end : nat) (st st1 : St) :
  line_sub fn ln line st = (Ok line1, st1) ->
  Regex.search_beg pi_target line1 = Some (m_start, m_end) ->
  scan_tags' fn ln b beg line st
  = (Ok {| line_num := ln; in_pi_tag := true; this_pi_tag_beg_ln := ln |},
     set_out (fun o => o ++ take m_start line1)
       (set_code_buffer
          (fun _ => {| sio_data := drop (m_end - 1) line1;
                       sio_pos := length (drop (m_end - 1) line1) |})
          st1)).
Proof.
  intros E Hs.
  destruct (RegexShape.search_beg_last _ _ _ _ Hs) as (w & Hw & Hsp & _).
  eapply scan_tags_opened; [|exact E|exact Hs|exact Hw|exact Hsp].
  destruct (find Regex.open_marker line) as [i|] eqn:F; [eauto|].
  exfalso.
  rewrite sub_tag_no_match in E by (apply find_None_tag_here, F).
  injection E as <- <-.
  destruct (search_beg_is_open pi_target _ _ _ Hs) as [i Hi]. congruence.
Qed.

(** The loop does what [scanned] says. *)
Lemma scanned_sound (fn : text) (ln : Z) (g : gmap string value)
    (cur : text) (ls : list text) (out : text) (g' : gmap string value) :
  scanned' fn ln g cur ls out g' ->
  1 <= ln ->
  forall (beg : Z) (st : St),
    exec_globals st = g ->
    sys_stdout st = PrintBuffer ->
    exists sc' st',
      bind (scan_tags' fn ln false beg cur) (scan' fn ls) st = (Ok sc', st')
      /\ in_pi_tag sc' = false
      /\ exec_globals st' = g'
      /\ out_stream st' = out_stream st ++ out
      /\ sys_stdout st' = PrintBuffer
      /\ real_stdout st' = real_stdout st.
Proof.
  intros H.
  induction H as
    [ln g cur cur1 g1 Hsub Hs
    |ln g cur cur1 g1 l ls out g' Hsub Hs _ IH
    |ln g cur cur1 g1 m_start m_end body closing ls p printed g2 out g'
       Hsub Hs Hbody Hcl Hev _ IH];
    intros Hln beg st Hg Hso.
  - destruct (substituted_sound _ _ _ _ _ _ Hsub Hln st Hg Hso)
      as (st1 & E & Hg1 & Ho & Hso1 & Hr).
    destruct (scan_tags_substituted_closed fn ln false beg _ _ _ _ E Hs)
      as [beg' Es].
    unfold bind. rewrite Es. cbn [scan]. unfold ret.
    eexists _, _. split; [reflexivity|].
    cbn [in_pi_tag exec_globals out_stream sys_stdout real_stdout set_out].
    rewrite Ho. auto.
  - destruct (substituted_sound _ _ _ _ _ _ Hsub Hln st Hg Hso)
      as (st1 & E & Hg1 & Ho & Hso1 & Hr).
    destruct (scan_tags_substituted_closed fn ln false beg _ _ _ _ E Hs)
      as [beg' Es].
    destruct (IH ltac:(lia) beg' (set_out (fun o => o ++ cur1) st1) Hg1 Hso1)
      as (sc' & st' & E' & Hin & Hg' & Ho' & Hso' & Hr').
    unfold bind in E' |- *. rewrite Es.
    rewrite scan_cons, process_line_outside by reflexivity.
    cbn [line_num this_pi_tag_beg_ln]. rewrite E'.
    eexists _, _. split; [reflexivity|].
    split; [exact Hin|]. split; [exact Hg'|].
    split; [|split; [exact Hso'|rewrite Hr'; exact Hr]].
    rewrite Ho'. cbn [out_stream set_out]. rewrite Ho, <- app_assoc.
    reflexivity.
  - destruct (substituted_sound _ _ _ _ _ _ Hsub Hln st Hg Hso)
      as (st1 & E & Hg1 & Ho & Hso1 & Hr).
    destruct Hev as (t & t' & c & Hp & Hsh & Hc & He). subst g1.
    pose proof (scan_tags_substituted_opened fn ln false beg _ _ _ _ _ _
                  E Hs) as Es.
    unfold bind at 1. rewrite Es. rewrite scan_app.
    erewrite scan_body; [|exact Hbody|reflexivity|reflexivity].
    rewrite scan_cons.
    erewrite (process_line_close_ok ast_parse py_compile py_exec read_file
                pi_target fn closing _ _
                (drop (m_end - 1) cur1 ++ concat body) p t t' c printed g2);
      [|reflexivity|exact Hso1|reflexivity|exact Hcl|cbn; lia|
       rewrite <- app_assoc; exact Hp|exact Hsh|exact Hc|exact He].
    cbn [line_num].
    match goal with
    | |- context [scan_tags' fn _ false 0 (drop (p + 2) closing) ?s] =>
        destruct (IH ltac:(lia) 0 s eq_refl Hso1)
          as (sc' & st' & E' & Hin & Hg' & Ho' & Hso' & Hr')
    end.
    unfold bind in E'. rewrite E'.
    eexists _, _. split; [reflexivity|].
    split; [exact Hin|]. split; [exact Hg'|].
    split; [|split; [exact Hso'|rewrite Hr'; exact Hr]].
    rewrite Ho'.
    cbn [out_stream set_out after_capture set_print_buffer set_globals
         set_code_buffer].
    rewrite Ho, <- !app_assoc. reflexivity.
Qed.

(** [input] does what [document_run] says. *)
Lemma document_sound (fn content : text) (g : gmap string value)
    (out : text) (g' : gmap string value) (st : St) :
  document_run' fn content g out g' ->
  exec_globals st = g ->
  exists st',
    input' fn content st = (Ok tt, st')
    /\ exec_globals st' = g'
    /\ out_stream st' = out_stream st ++ out
    /\ sys_stdout st' = sys_stdout st
    /\ real_stdout st' = real_stdout st.
Proof.
  unfold document_run. intros H Hg. rewrite input_eq.
  destruct (readlines content) as [|l ls].
  - destruct H as [-> ->]. cbn [scan]. unfold ret. cbn [in_pi_tag init_scan].
    eexists. split; [reflexivity|].
    cbn [exec_globals out_stream sys_stdout real_stdout set_sys_stdout].
    rewrite app_nil_r. auto.
  - destruct (scanned_sound _ _ _ _ _ _ _ H ltac:(lia) 0
                (set_sys_stdout PrintBuffer st) Hg eq_refl)
      as (sc' & st' & E & Hin & Hg' & Ho & Hso & Hr).
    rewrite scan_cons, process_line_outside by reflexivity.
    cbn [line_num init_scan this_pi_tag_beg_ln].
    change (0 + 1) with 1. unfold bind in E. rewrite E, Hin.
    eexists. split; [reflexivity|].
    cbn [exec_globals out_stream sys_stdout real_stdout set_sys_stdout].
    auto.
Qed.

Lemma documents_sound (g : gmap string value) (docs : list (text * text))
    (out : text) (g' : gmap string value) :
  documents_run' g docs out g' ->
  forall st : St,
    exec_globals st = g ->
    exists st',
      for_each (fun i => input' (fst i) (snd i)) docs st = (Ok tt, st')
      /\ exec_globals st' = g'
      /\ out_stream st' = out_stream st ++ out
      /\ sys_stdout st' = sys_stdout st
      /\ real_stdout st' = real_stdout st.
Proof.
  induction 1 as [g|g fn content ds out1 g1 out2 g' Hd _ IH]; intros st Hg.
  - exists st. cbn [for_each]. unfold ret. rewrite app_nil_r. auto.
  - destruct (document_sound fn content g out1 g1 st Hd Hg)
      as (st1 & E1 & Hg1 & Ho1 & Hso1 & Hr1).
    destruct (IH st1 Hg1) as (st' & E' & Hg' & Ho' & Hso' & Hr').
    exists st'. cbn [for_each fst snd]. unfold bind. rewrite E1, E'.
    split; [reflexivity|]. split; [exact Hg'|].
    split; [rewrite Ho', Ho1, <- app_assoc; reflexivity|].
    split; congruence.
Qed.

Lemma commands_sound (g : gmap string value) (cmds : list text)
    (printed : text) (g' : gmap string value) :
  commands_run' g cmds printed g' ->
  forall st : St,
    exec_globals st = g ->
    sys_stdout st = RealStdout ->
    exists st',
      for_each (fun c => exec_py' (SrcStr c) (str "<command-line>") 1)
        cmds st = (Ok tt, st')
      /\ exec_globals st' = g'
      /\ out_stream st' = out_stream st
      /\ sys_stdout st' = RealStdout
      /\ real_stdout st' = real_stdout st ++ printed.
Proof.
  induction 1 as [g|g c cs printed1 g1 printed2 g' Hev _ IH];
    intros st Hg Hso.
  - exists st. cbn [for_each]. unfold ret. rewrite app_nil_r. auto.
  - destruct Hev as (t & t' & co & Hp & Hs & Hc & He). subst g.
    pose proof (exec_py_parsed ast_parse py_compile py_exec read_file
                  c (str "<command-line>") 1 st t t' co printed1 g1 None
                  ltac:(lia) Hp Hs Hc He) as E1.
    unfold after_run in E1. rewrite Hso in E1. cbn [exec_outcome] in E1.
    destruct (IH (set_real_stdout (fun o => o ++ printed1)
                    (set_globals g1 st)) eq_refl Hso)
      as (st' & E' & Hg' & Ho' & Hso' & Hr').
    exists st'. cbn [for_each]. unfold bind. rewrite E1, E'.
    split; [reflexivity|]. split; [exact Hg'|].
    split; [exact Ho'|]. split; [exact Hso'|].
    rewrite Hr'. cbn [real_stdout set_real_stdout set_globals].
    rewrite <- app_assoc. reflexivity.
Qed.

(** C5. One namespace for the whole run.  Take any run that the
    relations [commands_run] and [documents_run] describe: the
    pre-execution commands in order, then the documents in order (the
    standard input when none is named), the tags of each document from
    top to bottom and, on a line, from left to right, where every
    snippet is evaluated in the namespace left by the snippet evaluated
    before it, the first in the namespace the processor starts with.
    The program performs exactly this run: it ends normally, the sink
    has received the text the relations give, the standard output what
    the commands printed, and the processor's namespace is the one the
    last snippet left.  So what a snippet binds is what every later
    snippet of the same document, of the later documents, and, for a
    pre-execution command, of every document, is run with. *)
Theorem one_namespace_for_the_run (cmds : list text)
    (inputs : list (text * text)) (stdin : text) (st : St)
    (printed out : text) (g1 g' : gmap string value) :
  sys_stdout st = RealStdout ->
  commands_run' (exec_globals st) cmds printed g1 ->
  documents_run' g1
    (match inputs with
     | [] => [(str "<stdin>", stdin)]
     | _ => inputs
     end) out g' ->
  exists st',
    main_body' cmds inputs stdin st = (Ok tt, st')
    /\ exec_globals st' = g'
    /\ out_stream st' = out_stream st ++ out
    /\ real_stdout st' = real_stdout st ++ printed
    /\ sys_stdout st' = RealStdout.
Proof.
  intros Hso Hcmds Hdocs.
  destruct (commands_sound _ _ _ _ Hcmds st eq_refl Hso)
    as (st1 & E1 & Hg1 & Ho1 & Hso1 & Hr1).
  destruct (documents_sound _ _ _ _ Hdocs st1 Hg1)
    as (st' & E' & Hg' & Ho' & Hso' & Hr').
  exists st'. unfold main_body, bind. rewrite E1.
  split.
  - destruct inputs as [|i inputs]; [|exact E'].
    cbn [for_each fst snd] in E'. unfold bind, ret in E'.
    destruct (input' (str "<stdin>") stdin st1) as [[[]|r] st2];
      [exact E'|discriminate].
  - split; [exact Hg'|]. split; [congruence|]. split; congruence.
Qed.

End Threaded.

(** ** Closing the processor *)

Lemma close_iter (h : Handles) (k : nat) :
  Nat.iter (S k) close h = close h.
Proof.
  induction k as [|k IH]; [reflexivity|].
  change (Nat.iter (S (S k)) close h) with (close (Nat.iter (S k) close h)).
  rewrite IH. reflexivity.
Qed.

(** X17. However often [close] runs on a processor (through [__exit__],
    through [__del__], by hand), a sink the processor opened itself from
    a path has been closed exactly once and a stream supplied by the
    caller not at all; closing again changes nothing; and from the first
    [close] on, every call of [input] fails with an assertion error
    before anything is read or written. *)
Theorem close_releases_once (has_write : bool) (k : nat) :
  sink_closes (Nat.iter (S k) close (open_file_w has_write))
  = (if has_write then 0 else 1)%nat
  /\ close (Nat.iter (S k) close (open_file_w has_write))
     = Nat.iter (S k) close (open_file_w has_write)
  /\ forall (value label code : Type)
       (ast_parse : text -> text -> SyntaxError + ast label)
       (py_compile : ast label -> text -> PyExc + code)
       (py_exec : code -> gmap string value ->
                  text * gmap string value * option PyExc)
       (read_file : text -> option text) (pi_target fn content : text)
       (st : State),
       input_asserting ast_parse py_compile py_exec read_file pi_target
         (Nat.iter (S k) close (open_file_w has_write)) fn content st
       = (Raise (Uncaught ExcAssertionError), st).
Proof.
  rewrite close_iter. split; [|split].
  - destruct has_write; reflexivity.
  - reflexivity.
  - intros. reflexivity.
Qed.

(** * Further examples with the small interpreter *)

(** A snippet of the small interpreter, evaluated in a given namespace. *)
Ltac minipy_evaluates :=
  do 3 eexists;
  split; [vm_compute; reflexivity|];
  split; [vm_compute; reflexivity|];
  split; vm_compute; reflexivity.

(** C5, witness: a pre-execution command binds [x]; the multi-line tag
    of the first document reads it and binds [y]; the single-line tag of
    the second document prints [y]. *)
Lemma one_namespace_for_the_run_witness :
  exists st',
    main_body MiniPy.ast_parse MiniPy.py_compile MiniPy.py_exec
      MiniPy.read_file (str "py")
      [str "x = 'v'"]
      [(str "d1", str "<?py" ++ nl ++ str "y = x" ++ nl ++ str "?>" ++ nl);
       (str "d2", str "a<?py print(y)?>b")] [] init
    = (Ok tt, st')
    /\ exec_globals st'
       = <[ "y"%string := MiniPy.VStr (str "v") ]>
           {[ "x"%string := MiniPy.VStr (str "v") ]}
    /\ out_stream st'
       = out_stream (@init MiniPy.value)
         ++ (nl ++ str "a" ++ (str "v" ++ nl) ++ str "b")
    /\ real_stdout st' = real_stdout (@init MiniPy.value) ++ []
    /\ sys_stdout st' = RealStdout.
Proof.
  apply (one_namespace_for_the_run MiniPy.ast_parse MiniPy.py_compile
           MiniPy.py_exec MiniPy.read_file (str "py")
           [str "x = 'v'"]
           [(str "d1", str "<?py" ++ nl ++ str "y = x" ++ nl ++ str "?>" ++ nl);
            (str "d2", str "a<?py print(y)?>b")] [] init
           [] (nl ++ str "a" ++ (str "v" ++ nl) ++ str "b")
           {[ "x"%string := MiniPy.VStr (str "v") ]}
           (<[ "y"%string := MiniPy.VStr (str "v") ]>
              {[ "x"%string := MiniPy.VStr (str "v") ]})).
  - reflexivity.
  - refine (commands_run_cons _ _ _ ∅ (str "x = 'v'") [] []
              {[ "x"%string := MiniPy.VStr (str "v") ]} [] _ _
              (commands_run_nil _ _ _ _)).
    minipy_evaluates.
  - refine (documents_run_cons _ _ _ _ _ (str "d1") _
              [(str "d2", str "a<?py print(y)?>b")] nl
              (<[ "y"%string := MiniPy.VStr (str "v") ]>
                 {[ "x"%string := MiniPy.VStr (str "v") ]})
              (str "a" ++ (str "v" ++ nl) ++ str "b") _ _
              (documents_run_cons _ _ _ _ _ (str "d2") _ []
                 (str "a" ++ (str "v" ++ nl) ++ str "b")
                 (<[ "y"%string := MiniPy.VStr (str "v") ]>
                    {[ "x"%string := MiniPy.VStr (str "v") ]})
                 [] _ _ (documents_run_nil _ _ _ _ _))).
    + refine (scanned_multi _ _ _ _ (str "d1") 1 _
                (str "<?py" ++ nl) (str "<?py" ++ nl) _ 0%nat 5%nat
                [str "y = x" ++ nl] (str "?>" ++ nl) [] 0%nat []
                (<[ "y"%string := MiniPy.VStr (str "v") ]>
                   {[ "x"%string := MiniPy.VStr (str "v") ]})
                nl _ _ _ _ _ _
                (scanned_last _ _ _ _ (str "d1") 3 _ nl nl _ _ _)).
      * apply substituted_none.
        intros j. do 5 (destruct j as [|j]; [vm_compute; reflexivity|]).
        vm_compute. destruct j; reflexivity.
      * vm_compute. reflexivity.
      * repeat constructor.
      * vm_compute. reflexivity.
      * minipy_evaluates.
      * apply substituted_none.
        intros j. do 1 (destruct j as [|j]; [vm_compute; reflexivity|]).
        vm_compute. destruct j; reflexivity.
      * vm_compute. reflexivity.
    + refine (scanned_last _ _ _ _ (str "d2") 1 _
                (str "a<?py print(y)?>b")
                (str "a" ++ (str "v" ++ nl) ++ str "b") _ _ _).
      * refine (substituted_tag _ _ _ _ (str "d2") 1 _ (str "a")
                  (str "<?py print(y)?>b") 15%nat (str "print(y)")
                  (str "v" ++ nl) _ (str "b") _ _ _ _
                  (substituted_none _ _ _ _ _ _ _ (str "b") _)).
        -- intros j Hj. destruct j as [|j]; [vm_compute; reflexivity|].
           simpl in Hj. lia.
        -- vm_compute. reflexivity.
        -- minipy_evaluates.
        -- intros j. do 1 (destruct j as [|j]; [vm_compute; reflexivity|]).
           vm_compute. destruct j; reflexivity.
      * vm_compute. reflexivity.
Defined.

(** X3, witness: the failing tag of [<a><?py print(1/0)?></a>]. *)
Lemma failed_line_writes_nothing_witness :
  out_stream
    (snd (process_line MiniPy.ast_parse MiniPy.py_compile MiniPy.py_exec
            MiniPy.read_file (str "py") (str "?")
            (str "<a><?py print(1/0)?></a>") init_scan
            (set_sys_stdout PrintBuffer init)))
  = out_stream (set_sys_stdout PrintBuffer (@init MiniPy.value)).
Proof.
  apply (failed_line_writes_nothing MiniPy.ast_parse MiniPy.py_compile
           MiniPy.py_exec MiniPy.read_file (str "py") (str "?")
           (str "<a><?py print(1/0)?></a>") init_scan
           (set_sys_stdout PrintBuffer init)
           (PythonError ExcZeroDivisionError)).
  - reflexivity.
  - vm_compute. reflexivity.
Defined.

(** X4, witness: an instruction that is opened on the only line and
    never closed. *)
Lemma unterminated_tag_witness :
  exists st',
    MiniPy.input (str "py") (str "?")
      (str "<msg><?py print('Hello, world!')</msg>") init
    = (Raise (XmlError (never_closed (Z.of_nat 0 + 1))), st')
    /\ out_stream st'
       = out_stream (@init MiniPy.value) ++ concat []
         ++ take 5 (str "<msg><?py print('Hello, world!')</msg>")
    /\ exec_globals st' = exec_globals (@init MiniPy.value).
Proof.
  apply (unterminated_tag MiniPy.ast_parse MiniPy.py_compile MiniPy.py_exec
           MiniPy.read_file (str "py") (str "?") _ init []
           (str "<msg><?py print('Hello, world!')</msg>") [] 5%nat 10%nat).
  - vm_compute. reflexivity.
  - constructor.
  - intros j. do 41 (destruct j as [|j]; [vm_compute; reflexivity|]).
    reflexivity.
  - vm_compute. reflexivity.
  - constructor.
Defined.

(** X5, witness: a tag over three lines that binds a name and prints
    it. *)
Lemma multi_line_tag_witness :
  exists st',
    MiniPy.input (str "py") (str "?")
      (str "a" ++ nl ++ str "<b><?py" ++ nl ++ str "x = 'v'" ++ nl
       ++ str "print(x)" ++ nl ++ str "?></b>" ++ nl ++ str "z") init
    = (Ok tt, st')
    /\ out_stream st'
       = out_stream (@init MiniPy.value) ++ concat [str "a" ++ nl]
         ++ take 3 (str "<b><?py" ++ nl) ++ (str "v" ++ nl)
         ++ drop (0 + 2) (str "?></b>" ++ nl) ++ concat [str "z"]
    /\ exec_globals st' = {[ "x"%string := MiniPy.VStr (str "v") ]}.
Proof.
  apply (multi_line_tag MiniPy.ast_parse MiniPy.py_compile MiniPy.py_exec
           MiniPy.read_file (str "py") (str "?") _ init
           [str "a" ++ nl] (str "<b><?py" ++ nl)
           [str "x = 'v'" ++ nl; str "print(x)" ++ nl] (str "?></b>" ++ nl)
           [str "z"] 3%nat 8%nat 0%nat
           (Node MiniPy.SModule Absent Absent
              [Node (MiniPy.SAssign (str "x") (MiniPy.EStr (str "v")))
                 (Int 2) (Int 2) [];
               Node (MiniPy.SPrint (MiniPy.EName (str "x")))
                 (Int 3) (Int 3) []])
           (Node MiniPy.SModule Absent Absent
              [Node (MiniPy.SAssign (str "x") (MiniPy.EStr (str "v")))
                 (Int 3) (Int 3) [];
               Node (MiniPy.SPrint (MiniPy.EName (str "x")))
                 (Int 4) (Int 4) []])
           [MiniPy.SAssign (str "x") (MiniPy.EStr (str "v"));
            MiniPy.SPrint (MiniPy.EName (str "x"))]
           (str "v" ++ nl) {[ "x"%string := MiniPy.VStr (str "v") ]}).
  - vm_compute. reflexivity.
  - repeat constructor.
  - intros j. do 9 (destruct j as [|j]; [vm_compute; reflexivity|]).
    reflexivity.
  - vm_compute. reflexivity.
  - repeat constructor.
  - vm_compute. reflexivity.
  - vm_compute. reflexivity.
  - repeat constructor.
  - vm_compute. reflexivity.
  - vm_compute. reflexivity.
  - vm_compute. reflexivity.
  - reflexivity.
Defined.

(** X6, witness. *)
Lemma single_line_tag_witness :
  exists st',
    MiniPy.input (str "py") (str "?")
      (str "a" ++ nl ++ str "<b><?py print('v')?></b>" ++ nl ++ str "z") init
    = (Ok tt, st')
    /\ out_stream st'
       = out_stream (@init MiniPy.value) ++ concat [str "a" ++ nl]
         ++ str "<b>" ++ (str "v" ++ nl)
         ++ drop 17 (str "<?py print('v')?></b>" ++ nl) ++ concat [str "z"]
    /\ exec_globals st' = ∅.
Proof.
  apply (single_line_tag MiniPy.ast_parse MiniPy.py_compile MiniPy.py_exec
           MiniPy.read_file (str "py") (str "?") _ init
           [str "a" ++ nl] (str "<b>") (str "<?py print('v')?></b>" ++ nl)
           [str "z"] 17%nat (str "print('v')")
           (Node MiniPy.SModule Absent Absent
              [Node (MiniPy.SPrint (MiniPy.EStr (str "v")))
                 (Int 1) (Int 1) []])
           (Node MiniPy.SModule Absent Absent
              [Node (MiniPy.SPrint (MiniPy.EStr (str "v")))
                 (Int 2) (Int 2) []])
           [MiniPy.SPrint (MiniPy.EStr (str "v"))]
           (str "v" ++ nl) ∅).
  - vm_compute. reflexivity.
  - repeat constructor.
  - intros j Hj. do 3 (destruct j as [|j]; [vm_compute; reflexivity|]).
    simpl in Hj. lia.
  - vm_compute. reflexivity.
  - intros j. do 6 (destruct j as [|j]; [vm_compute; reflexivity|]).
    reflexivity.
  - vm_compute. reflexivity.
  - vm_compute. reflexivity.
  - vm_compute. reflexivity.
  - reflexivity.
  - vm_compute. reflexivity.
  - repeat constructor.
Defined.

(** X7, witness: a snippet that prints a tag opening. *)
Lemma printed_opening_is_scanned_witness :
  exists st',
    process_line MiniPy.ast_parse MiniPy.py_compile MiniPy.py_exec
      MiniPy.read_file (str "py") (str "?")
      ([] ++ str "<?py print('<?py ')?>") init_scan
      (set_sys_stdout PrintBuffer init)
    = (Ok {| line_num := line_num init_scan + 1; in_pi_tag := true;
             this_pi_tag_beg_ln := line_num init_scan + 1 |}, st')
    /\ out_stream st'
       = out_stream (set_sys_stdout PrintBuffer (@init MiniPy.value))
         ++ take 0 ([] ++ (str "<?py " ++ nl)
                    ++ drop 21 (str "<?py print('<?py ')?>"))
    /\ sio_data (code_buffer st')
       = drop (5 - 1) ([] ++ (str "<?py " ++ nl)
                       ++ drop 21 (str "<?py print('<?py ')?>")).
Proof.
  apply (printed_opening_is_scanned MiniPy.ast_parse MiniPy.py_compile
           MiniPy.py_exec MiniPy.read_file (str "py") (str "?") init_scan
           (set_sys_stdout PrintBuffer init) []
           (str "<?py print('<?py ')?>") 21%nat (str "print('<?py ')")
           (Node MiniPy.SModule Absent Absent
              [Node (MiniPy.SPrint (MiniPy.EStr (str "<?py ")))
                 (Int 1) (Int 1) []])
           (Node MiniPy.SModule Absent Absent
              [Node (MiniPy.SPrint (MiniPy.EStr (str "<?py ")))
                 (Int 1) (Int 1) []])
           [MiniPy.SPrint (MiniPy.EStr (str "<?py "))]
           (str "<?py " ++ nl) ∅ 0%nat 5%nat).
  - reflexivity.
  - reflexivity.
  - reflexivity.
  - intros j Hj. simpl in Hj. lia.
  - vm_compute. reflexivity.
  - intros j. destruct j; reflexivity.
  - vm_compute. reflexivity.
  - reflexivity.
  - reflexivity.
  - reflexivity.
  - vm_compute. reflexivity.
Defined.

(** X8, witness: a module of one statement, moved by three lines. *)
Lemma visit_moves_every_position_witness :
  skeleton (Node "module"%string Absent Absent
              [Node "print"%string (Int 4) (Int 5) []])
  = skeleton (Node "module"%string Absent Absent
                [Node "print"%string (Int 1) (Int 2) []])
  /\ positions (Node "module"%string Absent Absent
                  [Node "print"%string (Int 4) (Int 5) []])
     = map (shift_position 3)
         (positions (Node "module"%string Absent Absent
                       [Node "print"%string (Int 1) (Int 2) []])).
Proof.
  apply (visit_moves_every_position 3
           (Node "module"%string Absent Absent
              [Node "print"%string (Int 1) (Int 2) []])).
  reflexivity.
Defined.

(** X10, witness: three lines down and three lines up again. *)
Lemma visit_compose_witness :
  visit (-3) (Node "module"%string Absent Absent
                [Node "print"%string (Int 4) (Int 5) []])
  = visit (3 + -3) (Node "module"%string Absent Absent
                      [Node "print"%string (Int 1) (Int 2) []])
  /\ visit (-3) (Node "module"%string Absent Absent
                   [Node "print"%string (Int 4) (Int 5) []])
     = Some (Node "module"%string Absent Absent
               [Node "print"%string (Int 1) (Int 2) []]).
Proof.
  destruct (visit_compose 3 (-3)
              (Node "module"%string Absent Absent
                 [Node "print"%string (Int 1) (Int 2) []])
              (Node "module"%string Absent Absent
                 [Node "print"%string (Int 4) (Int 5) []])
              eq_refl) as (H1 & H2 & _).
  split; [exact H1|]. apply H2. reflexivity.
Defined.

(** X11, witness: the division by zero is wrapped, the syntax error of
    [compile] is not. *)
Lemma exec_py_raise_origin_witness :
  fst (exec_py MiniPy.ast_parse MiniPy.py_compile MiniPy.py_exec
         MiniPy.read_file (SrcStr (str "print(1/0)")) (str "?") 1
         (@init MiniPy.value))
  = Raise (if is_Exception ExcZeroDivisionError
           then PythonError ExcZeroDivisionError
           else Uncaught ExcZeroDivisionError)
  /\ fst (exec_py MiniPy.ast_parse MiniPy.py_compile MiniPy.py_exec
            MiniPy.read_file (SrcStr (str "return 1")) (str "?") 1
            (@init MiniPy.value))
     = Raise (Uncaught
                (ExcSyntaxError
                   {| se_msg := str "'return' outside function";
                      se_lineno := Int 1; se_end_lineno := Int 1;
                      se_text := None |})).
Proof.
  split.
  - refine (proj2 (proj2 (proj2
              (exec_py_raise_origin MiniPy.ast_parse MiniPy.py_compile
                 MiniPy.py_exec MiniPy.read_file
                 (SrcStr (str "print(1/0)")) (str "?") 1 init init
                 (str "print(1/0)") eq_refl)))
              (Node MiniPy.SModule Absent Absent
                 [Node (MiniPy.SPrint (MiniPy.EDiv 1 0)) (Int 1) (Int 1) []])
              (Node MiniPy.SModule Absent Absent
                 [Node (MiniPy.SPrint (MiniPy.EDiv 1 0)) (Int 1) (Int 1) []])
              [MiniPy.SPrint (MiniPy.EDiv 1 0)]
              ExcZeroDivisionError _ _ _ _ _).
    + lia.
    + vm_compute. reflexivity.
    + reflexivity.
    + reflexivity.
    + reflexivity.
  - refine (proj1 (proj2 (proj2
              (exec_py_raise_origin MiniPy.ast_parse MiniPy.py_compile
                 MiniPy.py_exec MiniPy.read_file
                 (SrcStr (str "return 1")) (str "?") 1 init init
                 (str "return 1") eq_refl)))
              (Node MiniPy.SModule Absent Absent
                 [Node (MiniPy.SReturn (Some (MiniPy.EInt 1)))
                    (Int 1) (Int 1) []])
              (Node MiniPy.SModule Absent Absent
                 [Node (MiniPy.SReturn (Some (MiniPy.EInt 1)))
                    (Int 1) (Int 1) []])
              _ _ _ _ _).
    + lia.
    + vm_compute. reflexivity.
    + reflexivity.
    + reflexivity.
Defined.

(** X12, witness: a syntax error in a tag on the second line of a file
    that can be reopened. *)
Lemma syntax_error_text_witness :
  exec_py MiniPy.ast_parse MiniPy.py_compile MiniPy.py_exec
    (MiniPy.one_file (str "doc") (str "a" ++ nl ++ str "<?py y = = 2?>" ++ nl))
    (SrcStr (str "y = = 2")) (str "doc") 2 (@init MiniPy.value)
  = (Raise
       (PythonError
          (ExcSyntaxError
             (if 2 =? 1
              then MiniPy.syntax_error "invalid syntax" 1 (str "y = = 2")
              else {| se_msg := str "invalid syntax";
                      se_lineno := Int (2 + 1 - 1);
                      se_end_lineno := Int (1 + (2 - 1));
                      se_text := Some (str "<?py y = = 2?>" ++ nl) |}))),
     init).
Proof.
  apply (syntax_error_text MiniPy.ast_parse MiniPy.py_compile MiniPy.py_exec
           (MiniPy.one_file (str "doc")
              (str "a" ++ nl ++ str "<?py y = = 2?>" ++ nl))
           (str "y = = 2") (str "doc") 2 1
           (MiniPy.syntax_error "invalid syntax" 1 (str "y = = 2")) init
           (str "y = = 2") (str "a" ++ nl ++ str "<?py y = = 2?>" ++ nl)
           (str "<?py y = = 2?>" ++ nl)).
  - lia.
  - reflexivity.
  - reflexivity.
  - discriminate.
  - reflexivity.
  - vm_compute. reflexivity.
  - lia.
  - vm_compute. reflexivity.
Defined.

(** X13, witness: two tags on one line, the second printing the name
    the first bound. *)
Lemma two_tags_on_a_line_witness :
  exists st',
    MiniPy.input (str "py") (str "?")
      (str "A<?py x = 'v'?>B<?py print(x)?>C") init = (Ok tt, st')
    /\ out_stream st'
       = out_stream (@init MiniPy.value) ++ concat [] ++ str "A" ++ []
         ++ str "B" ++ (str "v" ++ nl)
         ++ drop 15 (str "<?py print(x)?>C") ++ concat []
    /\ exec_globals st' = {[ "x"%string := MiniPy.VStr (str "v") ]}.
Proof.
  apply (two_tags_on_a_line MiniPy.ast_parse MiniPy.py_compile MiniPy.py_exec
           MiniPy.read_file (str "py") (str "?") _ init
           [] (str "A") (str "<?py x = 'v'?>B<?py print(x)?>C")
           (str "B") (str "<?py print(x)?>C") [] 14%nat 15%nat
           (str "x = 'v'") (str "print(x)")
           (Node MiniPy.SModule Absent Absent
              [Node (MiniPy.SAssign (str "x") (MiniPy.EStr (str "v")))
                 (Int 1) (Int 1) []])
           (Node MiniPy.SModule Absent Absent
              [Node (MiniPy.SAssign (str "x") (MiniPy.EStr (str "v")))
                 (Int 1) (Int 1) []])
           (Node MiniPy.SModule Absent Absent
              [Node (MiniPy.SPrint (MiniPy.EName (str "x")))
                 (Int 1) (Int 1) []])
           (Node MiniPy.SModule Absent Absent
              [Node (MiniPy.SPrint (MiniPy.EName (str "x")))
                 (Int 1) (Int 1) []])
           [MiniPy.SAssign (str "x") (MiniPy.EStr (str "v"))]
           [MiniPy.SPrint (MiniPy.EName (str "x"))]
           [] (str "v" ++ nl)
           {[ "x"%string := MiniPy.VStr (str "v") ]}
           {[ "x"%string := MiniPy.VStr (str "v") ]}).
  - vm_compute. reflexivity.
  - constructor.
  - intros j Hj. destruct j as [|j]; [vm_compute; reflexivity|].
    simpl in Hj. lia.
  - vm_compute. reflexivity.
  - vm_compute. reflexivity.
  - intros j Hj. destruct j as [|j]; [vm_compute; reflexivity|].
    simpl in Hj. lia.
  - vm_compute. reflexivity.
  - intros j. do 2 (destruct j as [|j]; [vm_compute; reflexivity|]).
    reflexivity.
  - vm_compute. reflexivity.
  - reflexivity.
  - reflexivity.
  - vm_compute. reflexivity.
  - vm_compute. reflexivity.
  - reflexivity.
  - reflexivity.
  - vm_compute. reflexivity.
  - vm_compute. reflexivity.
  - constructor.
Defined.

(** X14, witness: the second command uses an unbound name. *)
Lemma failing_command_stops_run_witness :
  MiniPy.main (str "py") ([str "x = 'a'"] ++ str "print(y)" :: [])
    [(str "d", str "abc")] []
  = (Raise (PythonError (ExcNameError (str "y"))),
     snd (MiniPy.exec_py (SrcStr (str "print(y)")) (str "<command-line>") 1
            (set_globals {[ "x"%string := MiniPy.VStr (str "a") ]} init)))
  /\ out_stream
       (snd (MiniPy.main (str "py") ([str "x = 'a'"] ++ str "print(y)" :: [])
               [(str "d", str "abc")] [])) = [].
Proof.
  apply (failing_command_stops_run MiniPy.ast_parse MiniPy.py_compile
           MiniPy.py_exec MiniPy.read_file (str "py")
           [str "x = 'a'"] (str "print(y)") [] [(str "d", str "abc")] []
           (set_globals {[ "x"%string := MiniPy.VStr (str "a") ]} init)
           (PythonError (ExcNameError (str "y")))).
  - vm_compute. reflexivity.
  - vm_compute. reflexivity.
Defined.

(** X15, witness: two documents, and a standard input that is not
    read. *)
Lemma documents_in_order_witness :
  MiniPy.main (str "py") [] [(str "a", str "x" ++ nl); (str "b", str "y")]
    (str "not read")
  = (Ok tt,
     set_out
       (fun o => o ++ concat (map snd [(str "a", str "x" ++ nl);
                                       (str "b", str "y")])) init).
Proof.
  apply (proj1
           (documents_in_order MiniPy.ast_parse MiniPy.py_compile
              MiniPy.py_exec MiniPy.read_file (str "py") []
              [(str "a", str "x" ++ nl); (str "b", str "y")] (str "not read")
              init eq_refl
              ltac:(repeat constructor))).
  discriminate.
Defined.

(** X16, witness: an unterminated tag, reported without colour. *)
Lemma diagnostics_report_witness :
  main_reporting MiniPy.ast_parse MiniPy.py_compile MiniPy.py_exec
    MiniPy.read_file (str "py") (fun _ _ => []) [] [(str "d", str "a<?py b")]
    [] true false
  = (Ok tt,
     set_real_stdout
       (fun o => o ++ str "Bad XML syntax: " ++ never_closed 1 ++ [newline])
       (snd (MiniPy.main (str "py") [] [(str "d", str "a<?py b")] [])),
     if negb true && false
     then print_line color_on ++ print_line color_off else []).
Proof.
  apply (proj1
           (diagnostics_report MiniPy.ast_parse MiniPy.py_compile
              MiniPy.py_exec MiniPy.read_file (str "py") (fun _ _ => [])
              [] [(str "d", str "a<?py b")] [] true false
              (snd (MiniPy.main (str "py") [] [(str "d", str "a<?py b")] [])))
           (never_closed 1)).
  vm_compute. reflexivity.
Defined.

(** ** The two patterns, characterised *)

Section Patterns.
Variable target : text.
Hypothesis target_plain : plain_target target = true.

(** X18. What [pattern_pi_tag] matches.  For a target that is an
    identifier-like word, the pattern matches at the head of a text, with
    group [g], exactly when the text is: the marker [<?], a run of
    whitespace (possibly empty), the target, one whitespace character,
    then [g], then the marker [?>], where [g] is not empty, holds no
    newline, and no [?>] starts at any character of [g] other than its
    first; the match ends with that [?>]. *)
Theorem tag_pattern_matches (s : text) (n : nat) (g : text) :
  Regex.tag_here target s = Some (n, g)
  <-> exists ws w rest,
        s = Regex.open_marker ++ ws ++ target ++ w :: g
            ++ Regex.close_marker ++ rest
        /\ Forall (fun c => isspace c = true) ws
        /\ isspace w = true
        /\ g <> []
        /\ (newline ∉ g)
        /\ (forall j, (1 <= j < length g)%nat ->
              starts_with Regex.close_marker
                (drop j (g ++ Regex.close_marker ++ rest)) = None)
        /\ n = (2 + length ws + length target + 1 + length g + 2)%nat.
Proof.
  split.
  - intros H. destruct (RegexShape.tag_here_shape _ _ _ _ H)
      as (ws & w & rest & Hs & Hws & Hw & Hn & Hl).
    destruct (RegexShape.lazy_body_shape _ _ Hl)
      as (rest' & _ & Hne & Hnl & Hfirst).
    exists ws, w, rest. auto 10.
  - intros (ws & w & rest & -> & Hws & Hw & Hne & Hnl & Hfirst & ->).
    rewrite RegexTag.tag_here_explicit by assumption.
    do 2 f_equal. lia.
Qed.

(** X19. What [pattern_pi_beg] matches.  For such a target, the pattern
    matches at the head of a text exactly when the text starts with the
    marker [<?], a run of whitespace (possibly empty), the target and one
    whitespace character; the match ends with that character. *)
Theorem opening_pattern_matches (s : text) (n : nat) :
  Regex.beg_here target s = Some n
  <-> exists ws w rest,
        s = Regex.open_marker ++ ws ++ target ++ w :: rest
        /\ Forall (fun c => isspace c = true) ws
        /\ isspace w = true
        /\ n = (2 + length ws + length target + 1)%nat.
Proof.
  split.
  - apply RegexShape.beg_here_shape.
  - intros (ws & w & rest & -> & Hws & Hw & ->).
    rewrite RegexWs.beg_here_ws by assumption.
    unfold Regex.beg_cont, Regex.target_ws. rewrite starts_with_app, Hw.
    f_equal. lia.
Qed.

End Patterns.

(** X18, witness. *)
Lemma tag_pattern_matches_witness :
  Regex.tag_here (str "py") (str "<? py print('x')?>B")
  = Some (18%nat, str "print('x')")
  <-> exists ws w rest,
        str "<? py print('x')?>B"
        = Regex.open_marker ++ ws ++ str "py" ++ w :: str "print('x')"
          ++ Regex.close_marker ++ rest
        /\ Forall (fun c => isspace c = true) ws
        /\ isspace w = true
        /\ str "print('x')" <> []
        /\ (newline ∉ str "print('x')")
        /\ (forall j, (1 <= j < length (str "print('x')"))%nat ->
              starts_with Regex.close_marker
                (drop j (str "print('x')" ++ Regex.close_marker ++ rest))
              = None)
        /\ 18%nat
           = (2 + length ws + length (str "py") + 1
              + length (str "print('x')") + 2)%nat.
Proof.
  apply (tag_pattern_matches (str "py")). reflexivity.
Defined.

(** X19, witness. *)
Lemma opening_pattern_matches_witness :
  Regex.beg_here (str "py") (str "<?py" ++ nl) = Some 5%nat
  <-> exists ws w rest,
        str "<?py" ++ nl = Regex.open_marker ++ ws ++ str "py" ++ w :: rest
        /\ Forall (fun c => isspace c = true) ws
        /\ isspace w = true
        /\ 5%nat = (2 + length ws + length (str "py") + 1)%nat.
Proof.
  apply (opening_pattern_matches (str "py")). reflexivity.
Defined.
